(** * The streaming chat-turn orchestrator of [process_message.py]

    A shallow embedding of [stream_chat_message_objects] (and of
    [get_or_create_new_chat_session] from [simple_chat.py]) together with
    the properties of one conversational turn: what is streamed, what is
    staged in the database session, what is committed, and how failures
    of the generation phase and of the persistence phase surface.

    Conventions of the embedding.
    - A Python generator is run to exhaustion, the way
      [stream_chat_message] drives it with its [for] loop: a [yield]
      appends one packet to the stream of the frame.
    - A call that may raise returns a [res]; the body of the function is
      written in a state-and-exception monad over the generator's frame.
    - Functions imported from other modules are fields of an environment
      record [Env]: each returns a value or raises.  Their own storage
      effects are outside this development; the database session records
      exactly the writes that [stream_chat_message_objects] issues itself.
    - Python floats are read as rationals. *)

From Stdlib Require Import String Ascii List ZArith QArith_base Bool Lia.
From Stdlib Require Import RelationClasses Sorted.
Import ListNotations.

Local Open Scope string_scope.
Local Open Scope list_scope.

(** ** Python strings: [str.lower] and the substring test [a in b] *)

Module PyStr.

Definition lower_ascii (c : ascii) : ascii :=
  let n := nat_of_ascii c in
  if (Nat.leb 65 n && Nat.leb n 90)%bool then ascii_of_nat (n + 32) else c.

Fixpoint lower (s : string) : string :=
  match s with
  | EmptyString => EmptyString
  | String c t => String (lower_ascii c) (lower t)
  end.

(** [contains needle hay] is Python's [needle in hay]. *)
Fixpoint contains (needle hay : string) : bool :=
  if String.prefix needle hay then true
  else match hay with
       | EmptyString => false
       | String _ t => contains needle t
       end.

(** Truth value of an optional string: [None] and [""] are falsy. *)
Definition truthy (s : option string) : bool :=
  match s with
  | None => false
  | Some EmptyString => false
  | Some _ => true
  end.

End PyStr.

(** ** Exceptions and results *)

Inductive Exn : Type :=
| RuntimeError (msg : string)
| ValueError (msg : string)
| KeyError (key : string)
| IndexError (msg : string)
| GenAIDisabledException (msg : string)
| UnboundLocalError (var : string)
| OtherException (msg : string).

(** [str(e)] *)
Definition str (e : Exn) : string :=
  match e with
  | RuntimeError m | ValueError m | IndexError m
  | GenAIDisabledException m | OtherException m => m
  | KeyError k => "'" ++ k ++ "'"
  | UnboundLocalError v =>
      "cannot access local variable '" ++ v
      ++ "' where it is not associated with a value"
  end.

Inductive res (A : Type) : Type :=
| Ok (a : A)
| Raise (e : Exn).
Arguments Ok {A} a.
Arguments Raise {A} e.

(** Python objects without [__bool__] or [__len__] are truthy. *)
Definition object_truthy {A : Type} (_ : A) : bool := true.

(** [a or b] on optional objects. *)
Definition py_or {A : Type} (a b : option A) : option A :=
  match a with
  | Some x => Some x
  | None => b
  end.

(** Python floats, read as rationals; [int(x)] truncates towards zero. *)
Definition float : Type := Q.
Definition py_int (x : float) : Z := Z.quot (Qnum x) (Zpos (Qden x)).

(** ** Data model *)

Inductive MessageType : Type := USER | ASSISTANT | SYSTEM.

Definition MessageType_eqb (a b : MessageType) : bool :=
  match a, b with
  | USER, USER | ASSISTANT, ASSISTANT | SYSTEM, SYSTEM => true
  | _, _ => false
  end.

Inductive ChatFileType : Type := IMAGE | DOC | PLAIN_TEXT.

Record FileDescriptor : Type := {
  fd_id : string;
  fd_type : ChatFileType
}.

Record InMemoryChatFile : Type := {
  file_id : string;
  file_type : ChatFileType;
  file_content : string
}.

Definition to_file_descriptor (f : InMemoryChatFile) : FileDescriptor :=
  {| fd_id := file_id f; fd_type := file_type f |}.

Record Prompt : Type := {
  prompt_ident : Z;
  system_prompt : string;
  task_prompt : string
}.

Record PromptOverride : Type := {
  override_system_prompt : option string;
  override_task_prompt : option string
}.

(** [PromptConfig.from_model(model, prompt_override=None)]: the class is
    outside the sources, the configuration is kept as the arguments it
    is built from. *)
Record PromptConfig : Type := from_model {
  pc_model : Prompt;
  pc_prompt_override : option PromptOverride
}.

Record LLMOverride : Type := {
  override_provider : option string;
  override_model : option string
}.

Record LLMConfig : Type := {
  model_provider : string;
  model_name : string;
  temperature : float;
  api_key : option string;
  api_base : option string;
  api_version : option string
}.

Record LLM : Type := { config : LLMConfig }.

Record LLMProvider : Type := {
  provider : string;
  default_model_name : string;
  provider_api_key : option string;
  provider_api_base : option string;
  provider_api_version : option string
}.

Record ToolModel : Type := {
  tool_id : Z;
  in_code_tool_id : option string;
  openapi_schema : option string
}.

Record Persona : Type := {
  persona_id : Z;
  prompts : list Prompt;
  num_chunks : option float;
  llm_relevance_filter : bool;
  tools : list ToolModel
}.

Record ChatSession : Type := {
  session_id : Z;
  persona : Persona;
  session_llm_override : option LLMOverride;
  session_prompt_override : option PromptOverride
}.

Record User : Type := { user_ident : Z }.

Record DbSearchDoc : Type := {
  db_doc_id : Z;
  document_id : string
}.

Record SearchDoc : Type := {
  sd_document_id : string;
  sd_db_doc_id : Z
}.

Record ToolCall : Type := {
  tc_tool_id : Z;
  tc_tool_name : string;
  tc_tool_arguments : string;
  tc_tool_result : string
}.

Record ChatMessage : Type := {
  msg_id : Z;
  msg_chat_session_id : Z;
  msg_parent_message : option Z;
  msg_message : string;
  msg_token_count : nat;
  msg_message_type : MessageType;
  msg_prompt_id : option Z;
  msg_prompt : option Prompt;
  msg_files : list FileDescriptor;
  msg_rephrased_query : option string;
  msg_reference_docs : option (list DbSearchDoc);
  msg_citations : option (list (Z * Z));
  msg_error : option string;
  msg_tool_calls : list ToolCall;
  msg_alternate_assistant_id : option Z
}.

Record RetrievalDetails : Type := {
  dedupe_docs : bool;
  run_search : option bool
}.

Record CreateChatMessageRequest : Type := {
  chat_session_id : option Z;
  parent_message_id : option Z;
  message : string;
  file_descriptors : list FileDescriptor;
  prompt_id : option Z;
  search_doc_ids : option (list Z);
  retrieval_options : option RetrievalDetails;
  query_override : option string;
  req_persona_id : Z;
  llm_override : option LLMOverride;
  prompt_override : option PromptOverride;
  alternate_assistant_id : option Z;
  chunks_above : Z;
  chunks_below : Z;
  full_doc : bool
}.

(** ** Retrieval, tools and the answer engine *)

Record InferenceSection : Type := { section_document_id : string }.

Record SearchResponseSummary : Type := {
  summary_rephrased_query : option string;
  summary_top_sections : list InferenceSection
}.

Record InternetSearchResponse : Type := {
  internet_results : list string
}.

Record ImageGenerationResponse : Type := {
  revised_prompt : string;
  url : string
}.

Record CustomToolCallSummary : Type := {
  custom_tool_name : string;
  custom_tool_result : string
}.

Record ToolCallFinalResult : Type := {
  fr_tool_name : string;
  fr_tool_args : string;
  fr_tool_result : string
}.

(** A [ToolResponse] packet, by its identifier tag and the payload that
    the handler of that tag casts it to. *)
Inductive ToolResponse : Type :=
| SEARCH_RESPONSE_SUMMARY (summary : SearchResponseSummary)
| SECTION_RELEVANCE_LIST (relevance_sections : list bool)
| IMAGE_GENERATION_RESPONSE (imgs : list ImageGenerationResponse)
| INTERNET_SEARCH_RESPONSE (response : InternetSearchResponse)
| CUSTOM_TOOL_RESPONSE (summary : CustomToolCallSummary)
| OTHER_TOOL_RESPONSE (id : string).

(** What the answer engine yields besides tool responses. *)
Inductive EnginePacket : Type :=
| AnswerPiece (answer_piece : option string)
| CitationInfo (citation_num : Z) (cited_document_id : string)
| ToolCallKickoff (kick_tool_name kick_tool_args : string)
| FinalResult (r : ToolCallFinalResult).

Inductive EngineEvent : Type :=
| Tool (r : ToolResponse)
| Plain (p : EnginePacket).

Record QADocs : Type := {
  rephrased_query : option string;
  top_documents : list SearchDoc
}.

Record ChatMessageDetail : Type := {
  detail_message_id : Z;
  detail_parent_message : option Z;
  detail_message : string;
  detail_message_type : MessageType
}.

(** [ChatPacket]: what the turn streams to its caller. *)
Inductive ChatPacket : Type :=
| StreamingError (error : string)
| QADocsResponse (docs : QADocs)
| LLMRelevanceFilterResponse (relevant_chunk_indices : list Z)
| MessageDetail (d : ChatMessageDetail)
| ImageGenerationDisplay (file_ids : list string)
| CustomToolResponse (response : string) (tool_name : string)
| Forwarded (p : EnginePacket).

Inductive LLMEvaluationType : Type := BASIC | SKIP.

Definition Headers : Type := list (string * string).

(** [DocumentPruningConfig(...)]: the class is outside the sources; a
    field is [None] while the code has not given it a value (it then has
    the default of the class). *)
Record DocumentPruningConfig : Type := {
  max_chunks : option Z;
  max_window_percentage : option float;
  is_manually_selected_docs : option bool;
  use_sections : option bool;
  tool_num_tokens : option nat;
  using_tool_message : option bool
}.

(** The arguments [SearchTool(...)] is built from.  Its [pruning_config]
    is a reference to the one [document_pruning_config] object of the
    turn, which the [Answer] holds too (see [Answer]): the object is
    kept once, there. *)
Record SearchToolArgs : Type := {
  st_retrieval_options : option RetrievalDetails;
  st_prompt_config : PromptConfig;
  st_selected_sections : option (list InferenceSection);
  st_chunks_above : Z;
  st_chunks_below : Z;
  st_full_doc : bool;
  st_evaluation_type : LLMEvaluationType
}.

Inductive ToolInstance : Type :=
| SearchTool (args : SearchToolArgs)
| ImageGenerationTool (img_api_key : option string)
    (img_api_base img_api_version : option string)
    (additional_headers : option Headers)
| InternetSearchTool (bing_api_key : option string)
| CustomTool (name : string) (definition : string).

(** The class [get_built_in_tool_by_id] returns, compared by [__name__]. *)
Inductive ToolClass : Type :=
| SearchToolClass
| ImageGenerationToolClass
| InternetSearchToolClass
| OtherToolClass (name : string).

Record ForceUseTool : Type := {
  force_use : bool;
  force_tool_name : string
}.

Record PreviousMessage : Type := from_chat_message {
  pm_message : ChatMessage;
  pm_files : list InMemoryChatFile
}.

(** The arguments of [Answer(...)]. *)
Record Answer : Type := {
  question : string;
  latest_query_files : list InMemoryChatFile;
  all_docs_useful : bool;
  document_pruning_config : DocumentPruningConfig;
  prompt_config : PromptConfig;
  answer_llm : LLM;
  message_history : list PreviousMessage;
  answer_tools : list ToolInstance;
  force_use_tool : ForceUseTool
}.

(** One run of the answer engine: the events of
    [processed_streamed_output], the exception that ends the stream if
    it raises, and the properties read after the loop. *)
Record EngineRun : Type := {
  events : list EngineEvent;
  failure : option Exn;
  llm_answer : string;
  citations : list (Z * string)
}.

Record Tokenizer : Type := { encode : string -> res (list Z) }.

(** ** The database session

    Modelled from the spec: the conversation store ([createMessage],
    [attachFiles], [commit], [rollback]) as a session with staged and
    committed messages; a message is "created in-memory, provisionally
    inserted (not committed)", committed by [commit] and discarded by
    [rollback]. *)

Record Session : Type := {
  committed : list ChatMessage;
  pending : list ChatMessage;
  next_id : Z;
  commits : nat;
  rollbacks : nat
}.

(** What a query through the session sees. *)
Definition visible (s : Session) : list ChatMessage :=
  committed s ++ pending s.

Definition commit (s : Session) : Session :=
  {| committed := committed s ++ pending s;
     pending := [];
     next_id := next_id s;
     commits := S (commits s);
     rollbacks := rollbacks s |}.

Definition rollback (s : Session) : Session :=
  {| committed := committed s;
     pending := [];
     next_id := next_id s;
     commits := commits s;
     rollbacks := S (rollbacks s) |}.

Definition add (m : ChatMessage) (s : Session) : Session :=
  {| committed := committed s;
     pending := pending s ++ [m];
     next_id := next_id s + 1;
     commits := commits s;
     rollbacks := rollbacks s |}.

(** Keyword arguments of [create_new_chat_message]. *)
Record NewMessage : Type := {
  nm_chat_session_id : Z;
  nm_parent_message : ChatMessage;
  nm_prompt_id : option Z;
  nm_message : string;
  nm_token_count : nat;
  nm_message_type : MessageType;
  nm_files : option (list FileDescriptor);
  nm_rephrased_query : option string;
  nm_reference_docs : option (list DbSearchDoc);
  nm_citations : option (list (Z * Z));
  nm_error : option string;
  nm_tool_calls : list ToolCall;
  nm_alternate_assistant_id : option Z;
  nm_commit : bool
}.

Definition files_or_empty (f : option (list FileDescriptor)) : list FileDescriptor :=
  match f with
  | Some l => l
  | None => []
  end.

(** Modelled from the spec: [create_new_chat_message] of the conversation
    store ([createMessage(parent, text, tokenCount, type, files?) ->
    Message]).  The new row gets the next identifier and is staged; it is
    committed at once only when [commit] is true. *)
Definition create_new_chat_message (prompt_of : option Z -> option Prompt)
    (a : NewMessage) (s : Session) : ChatMessage * Session :=
  let m := {| msg_id := next_id s;
              msg_chat_session_id := nm_chat_session_id a;
              msg_parent_message := Some (msg_id (nm_parent_message a));
              msg_message := nm_message a;
              msg_token_count := nm_token_count a;
              msg_message_type := nm_message_type a;
              msg_prompt_id := nm_prompt_id a;
              msg_prompt := prompt_of (nm_prompt_id a);
              msg_files := files_or_empty (nm_files a);
              msg_rephrased_query := nm_rephrased_query a;
              msg_reference_docs := nm_reference_docs a;
              msg_citations := nm_citations a;
              msg_error := nm_error a;
              msg_tool_calls := nm_tool_calls a;
              msg_alternate_assistant_id := nm_alternate_assistant_id a |} in
  let s' := add m s in
  (m, if nm_commit a then commit s' else s').

Definition set_files (fs : list FileDescriptor) (m : ChatMessage) : ChatMessage :=
  {| msg_id := msg_id m;
     msg_chat_session_id := msg_chat_session_id m;
     msg_parent_message := msg_parent_message m;
     msg_message := msg_message m;
     msg_token_count := msg_token_count m;
     msg_message_type := msg_message_type m;
     msg_prompt_id := msg_prompt_id m;
     msg_prompt := msg_prompt m;
     msg_files := fs;
     msg_rephrased_query := msg_rephrased_query m;
     msg_reference_docs := msg_reference_docs m;
     msg_citations := msg_citations m;
     msg_error := msg_error m;
     msg_tool_calls := msg_tool_calls m;
     msg_alternate_assistant_id := msg_alternate_assistant_id m |}.

(** Modelled from the spec: [attach_files_to_chat_message] of the
    conversation store ([attachFiles(message, files)]): the files of the
    row with the identifier of [chat_message] are replaced, wherever the
    row is in the session. *)
Definition attach_files_to_chat_message (chat_message : ChatMessage)
    (fs : list FileDescriptor) (do_commit : bool) (s : Session) : Session :=
  let upd := map (fun m => if Z.eqb (msg_id m) (msg_id chat_message)
                           then set_files fs m else m) in
  let s' := {| committed := upd (committed s);
               pending := upd (pending s);
               next_id := next_id s;
               commits := commits s;
               rollbacks := rollbacks s |} in
  if do_commit then commit s' else s'.

(** The session calls of the turn that can be made to fail. *)
Inductive DbCall : Type :=
| CreateMessageCall (t : MessageType)
| AttachFilesCall
| CommitCall.

(** ** The environment: what the turn imports

    Every field is a function of another module ([project.db.chat],
    [project.llm.factory], [project.tools...], ...) or a helper whose body
    is not part of the sources; it returns a value or raises.
    [create_chat_chain] reads the rows visible through the session.
    [prompt_of] resolves the [prompt] relationship of a new row,
    [db_fault] is the exception a session call raises, if any, and
    [tool_name_of] is the [name] property of a tool. *)

Record Env : Type := {
  create_chat_session : option Z -> Z -> res ChatSession;
  get_chat_session_by_id : option Z -> Z -> res ChatSession;
  get_persona_by_id : Z -> option User -> res Persona;
  get_llms_for_persona :
    Persona -> option LLMOverride -> option Headers -> res (LLM * LLM);
  get_tokenizer : string -> string -> res Tokenizer;
  get_current_db_embedding_model : res string;
  get_default_document_index : string -> res string;
  get_or_create_root_message : Z -> res ChatMessage;
  get_chat_message : Z -> option Z -> res ChatMessage;
  create_chat_chain : Z -> list ChatMessage -> res (ChatMessage * list ChatMessage);
  prompt_of : option Z -> option Prompt;
  db_fault : DbCall -> option Exn;
  load_all_chat_files :
    list ChatMessage -> list FileDescriptor -> res (list InMemoryChatFile);
  get_doc_query_identifiers_from_model :
    list Z -> ChatSession -> option Z -> res (list (string * Z));
  inference_sections_from_ids :
    list (string * Z) -> string -> res (list InferenceSection);
  get_db_search_doc_by_id : Z -> res (option DbSearchDoc);
  get_built_in_tool_by_id : Z -> res ToolClass;
  fetch_existing_llm_providers : res (list LLMProvider);
  BING_API_KEY : option string;
  GEN_AI_TEMPERATURE : float;
  build_custom_tools_from_openapi_schema : string -> res (list ToolInstance);
  compute_all_tool_tokens : list ToolInstance -> Tokenizer -> res nat;
  explicit_tool_calling_supported : string -> string -> res bool;
  _get_force_search_settings :
    CreateChatMessageRequest -> list ToolInstance -> res ForceUseTool;
  processed_streamed_output : Answer -> EngineRun;
  _handle_search_tool_response_summary :
    SearchResponseSummary -> option (list DbSearchDoc) -> bool ->
    res (QADocs * list DbSearchDoc * option (list Z));
  translate_db_search_doc_to_server_search_doc : DbSearchDoc -> res SearchDoc;
  relevant_documents_to_indices : list bool -> list SearchDoc -> res (list Z);
  drop_llm_indices : list Z -> list DbSearchDoc -> list Z -> res (list Z);
  save_files_from_urls : list string -> res (list string);
  _handle_internet_search_tool_response_summary :
    InternetSearchResponse -> res (QADocs * list DbSearchDoc);
  translate_citations : list (Z * string) -> list DbSearchDoc -> res (list (Z * Z));
  translate_db_message_to_chat_message_detail : ChatMessage -> res ChatMessageDetail;
  tool_name_of : ToolInstance -> string
}.

(** ** The generator's frame and its monad *)

(** The part of the frame that outlives the [try] block: the session,
    the packets yielded so far, and the locals [llm] and [answer], each
    [None] until its assignment has run. *)
Record Frame : Type := {
  db_session : Session;
  stream : list ChatPacket;
  llm : option LLM;
  answer : option Answer
}.

Definition Gen (A : Type) : Type := Frame -> res A * Frame.

Definition ret {A : Type} (a : A) : Gen A := fun f => (Ok a, f).

Definition bind {A B : Type} (c : Gen A) (k : A -> Gen B) : Gen B :=
  fun f => match c f with
           | (Ok a, f') => k a f'
           | (Raise e, f') => (Raise e, f')
           end.

Definition raise {A : Type} (e : Exn) : Gen A := fun f => (Raise e, f).

(** A call into the environment. *)
Definition call {A : Type} (r : res A) : Gen A := fun f => (r, f).

Declare Scope gen_scope.
Delimit Scope gen_scope with gen.
Notation "x <- c1 ;; c2" := (bind c1 (fun x => c2))
  (at level 61, c1 at next level, right associativity) : gen_scope.
Notation "' pat <- c1 ;; c2" :=
  (bind c1 (fun x => match x with pat => c2 end))
  (at level 61, pat pattern, c1 at next level, right associativity) : gen_scope.
Notation "c1 ;; c2" := (bind c1 (fun _ => c2))
  (at level 61, right associativity) : gen_scope.
Local Open Scope gen_scope.

(** [yield p] *)
Definition yield (p : ChatPacket) : Gen unit :=
  fun f => (Ok tt, {| db_session := db_session f;
                      stream := stream f ++ [p];
                      llm := llm f;
                      answer := answer f |}).

Definition with_session (s : Session) (f : Frame) : Frame :=
  {| db_session := s; stream := stream f; llm := llm f; answer := answer f |}.

(** A session call: it raises the fault planted for it, or runs. *)
Definition session_call {A : Type} (env : Env) (c : DbCall)
    (op : Session -> A * Session) : Gen A :=
  fun f => match db_fault env c with
           | Some e => (Raise e, f)
           | None => let (a, s) := op (db_session f) in (Ok a, with_session s f)
           end.

(** [db_session.rollback()] *)
Definition do_rollback : Gen unit :=
  fun f => (Ok tt, with_session (rollback (db_session f)) f).

Definition assign_llm (l : LLM) : Gen unit :=
  fun f => (Ok tt, {| db_session := db_session f; stream := stream f;
                      llm := Some l; answer := answer f |}).

Definition assign_answer (a : Answer) : Gen unit :=
  fun f => (Ok tt, {| db_session := db_session f; stream := stream f;
                      llm := llm f; answer := Some a |}).

(** [for x in xs: body], threading the loop's locals. *)
Fixpoint for_each {A S : Type} (body : S -> A -> Gen S) (xs : list A) (s : S) : Gen S :=
  match xs with
  | [] => ret s
  | x :: rest => s' <- body s x ;; for_each body rest s'
  end.

(** [[f(x) for x in xs]] *)
Fixpoint map_calls {A B : Type} (g : A -> res B) (xs : list A) : Gen (list B) :=
  match xs with
  | [] => ret []
  | x :: rest => y <- call (g x) ;; ys <- map_calls g rest ;; ret (y :: ys)
  end.

(** ** Python dictionaries, in insertion order *)

Fixpoint dict_set {K V : Type} (eqb : K -> K -> bool) (k : K) (v : V)
    (d : list (K * V)) : list (K * V) :=
  match d with
  | [] => [(k, v)]
  | (k', v') :: rest =>
      if eqb k k' then (k, v) :: rest else (k', v') :: dict_set eqb k v rest
  end.

Fixpoint dict_get {K V : Type} (eqb : K -> K -> bool) (k : K)
    (d : list (K * V)) : option V :=
  match d with
  | [] => None
  | (k', v') :: rest => if eqb k k' then Some v' else dict_get eqb k rest
  end.

Definition dict_values {K V : Type} (d : list (K * V)) : list V := map snd d.

(** [l[-1]] *)
Fixpoint last_item {A : Type} (l : list A) : option A :=
  match l with
  | [] => None
  | [x] => Some x
  | _ :: rest => last_item rest
  end.

(** ** [simple_chat.py] *)

Definition get_or_create_new_chat_session (env : Env) (user_id : option Z)
    (new_msg_req : CreateChatMessageRequest) : res ChatSession :=
  match chat_session_id new_msg_req with
  | None => create_chat_session env user_id (req_persona_id new_msg_req)
  | Some sid => get_chat_session_by_id env user_id sid
  end.

(** ** [stream_chat_message_objects]: the generation phase *)

(** [sorted(persona.prompts, key=lambda x: x.id)]: a stable sort. *)
Fixpoint insert_by_id (p : Prompt) (l : list Prompt) : list Prompt :=
  match l with
  | [] => [p]
  | q :: rest =>
      if (prompt_ident p <? prompt_ident q)%Z then p :: q :: rest
      else q :: insert_by_id p rest
  end.

Definition sorted_by_id (l : list Prompt) : list Prompt :=
  fold_left (fun acc p => insert_by_id p acc) l [].

(** Lines 159-161: the prompt id that the rows of the turn carry. *)
Definition choose_prompt_id (new_msg_req : CreateChatMessageRequest)
    (persona : Persona) : res (option Z) :=
  match prompt_id new_msg_req, prompts persona with
  | None, _ :: _ =>
      match last_item (sorted_by_id (prompts persona)) with
      | Some p => Ok (Some (prompt_ident p))
      | None => Raise (IndexError "list index out of range")
      end
  | given, _ => Ok given
  end.

Definition MUST_SPECIFY : string :=
  "Must specify a set of documents for chat or specify search options".
Definition LLM_DISABLED : string :=
  "LLM is disabled. Can't use chat flow without LLM.".
Definition NOT_ON_MAINLINE : string :=
  "The new message was not on the mainline. "
  ++ "Be sure to update the chat pointers before calling this.".
Definition NOT_A_USER_MESSAGE : string :=
  "The last message was not a user message. Cannot call "
  ++ "`stream_chat_message_objects` with `is_regenerate=True` "
  ++ "when the last message is not a user message.".
Definition NO_PROMPT_FOUND : string := "No Prompt found".
Definition IMAGE_KEY_REQUIRED : string :=
  "Image generation tool requires an OpenAI API key".
Definition BING_KEY_REQUIRED : string :=
  "Internet search tool requires a Bing API key, please contact your project admin to get it added!".

(** Lines 148-157: the alternate assistant if one is passed in, else
    the persona of the session. *)
Definition resolve_persona (env : Env) (new_msg_req : CreateChatMessageRequest)
    (user : option User) (chat_session : ChatSession) : res Persona :=
  match alternate_assistant_id new_msg_req with
  | Some aid => get_persona_by_id env aid user
  | None => Ok (persona chat_session)
  end.

(** The locals of lines 133-205. *)
Record Setup : Type := {
  su_user_id : option Z;
  su_chat_session : ChatSession;
  su_persona : Persona;
  su_prompt_id : option Z;
  su_llm : LLM;
  su_fast_llm : LLM;
  su_tokenizer : Tokenizer;
  su_document_index : string;
  su_parent_message : ChatMessage
}.

(** Lines 133-205: session, persona, prompt id, the required retrieval
    input, the LLMs, the tokenizer, the index and the parent message. *)
Definition setup (env : Env) (new_msg_req : CreateChatMessageRequest)
    (user : option User) (litellm_additional_headers : option Headers)
    : Gen Setup :=
  let user_id := option_map user_ident user in
  chat_session <- call (get_or_create_new_chat_session env user_id new_msg_req) ;;
  let parent_id := parent_message_id new_msg_req in
  let reference_doc_ids := search_doc_ids new_msg_req in
  persona <- call (resolve_persona env new_msg_req user chat_session) ;;
  prompt_id <- call (choose_prompt_id new_msg_req persona) ;;
  match reference_doc_ids, retrieval_options new_msg_req with
  | None, None => raise (RuntimeError MUST_SPECIFY)
  | _, _ => ret tt
  end ;;
  ' (llm, fast_llm) <-
    call (match get_llms_for_persona env persona
                  (py_or (llm_override new_msg_req) (session_llm_override chat_session))
                  litellm_additional_headers with
          | Raise (GenAIDisabledException _) => Raise (RuntimeError LLM_DISABLED)
          | r => r
          end) ;;
  assign_llm llm ;;
  let llm_provider := model_provider (config llm) in
  let llm_model_name := model_name (config llm) in
  llm_tokenizer <- call (get_tokenizer env llm_model_name llm_provider) ;;
  embedding_model <- call (get_current_db_embedding_model env) ;;
  document_index <- call (get_default_document_index env embedding_model) ;;
  root_message <- call (get_or_create_root_message env (session_id chat_session)) ;;
  parent_message <- match parent_id with
                    | Some pid => call (get_chat_message env pid user_id)
                    | None => ret root_message
                    end ;;
  ret {| su_user_id := user_id;
         su_chat_session := chat_session;
         su_persona := persona;
         su_prompt_id := prompt_id;
         su_llm := llm;
         su_fast_llm := fast_llm;
         su_tokenizer := llm_tokenizer;
         su_document_index := document_index;
         su_parent_message := parent_message |}.

(** The locals of lines 207-245. *)
Record Chain : Type := {
  user_message : option ChatMessage;
  final_msg : ChatMessage;
  history_msgs : list ChatMessage
}.

Definition user_message_args (new_msg_req : CreateChatMessageRequest)
    (su : Setup) (tokens : nat) : NewMessage :=
  {| nm_chat_session_id := session_id (su_chat_session su);
     nm_parent_message := su_parent_message su;
     nm_prompt_id := su_prompt_id su;
     nm_message := message new_msg_req;
     nm_token_count := tokens;
     nm_message_type := USER;
     nm_files := None;
     nm_rephrased_query := None;
     nm_reference_docs := None;
     nm_citations := None;
     nm_error := None;
     nm_tool_calls := [];
     nm_alternate_assistant_id := None;
     nm_commit := false |}.

(** [create_chat_chain(chat_session_id, db_session)] *)
Definition chat_chain (env : Env) (su : Setup)
    : Gen (ChatMessage * list ChatMessage) :=
  fun f => (create_chat_chain env (session_id (su_chat_session su))
              (visible (db_session f)), f).

(** Lines 207-245: stage the user message (unless the existing one is
    used) and check the re-created chain. *)
Definition resolve_chain (env : Env) (new_msg_req : CreateChatMessageRequest)
    (use_existing_user_message : bool) (su : Setup) : Gen Chain :=
  if negb use_existing_user_message then
    tokens <- call (encode (su_tokenizer su) (message new_msg_req)) ;;
    user_message <- session_call env (CreateMessageCall USER)
                      (create_new_chat_message (prompt_of env)
                         (user_message_args new_msg_req su (length tokens))) ;;
    ' (final_msg, history_msgs) <- chat_chain env su ;;
    if negb (msg_id final_msg =? msg_id user_message)%Z then
      do_rollback ;;
      raise (RuntimeError NOT_ON_MAINLINE)
    else
      ret {| user_message := Some user_message;
             final_msg := final_msg;
             history_msgs := history_msgs |}
  else
    ' (final_msg, history_msgs) <- chat_chain env su ;;
    if negb (MessageType_eqb (msg_message_type final_msg) USER) then
      raise (RuntimeError NOT_A_USER_MESSAGE)
    else
      ret {| user_message := None;
             final_msg := final_msg;
             history_msgs := history_msgs |}.

Definition set_query_override (q : option string)
    (r : CreateChatMessageRequest) : CreateChatMessageRequest :=
  {| chat_session_id := chat_session_id r;
     parent_message_id := parent_message_id r;
     message := message r;
     file_descriptors := file_descriptors r;
     prompt_id := prompt_id r;
     search_doc_ids := search_doc_ids r;
     retrieval_options := retrieval_options r;
     query_override := q;
     req_persona_id := req_persona_id r;
     llm_override := llm_override r;
     prompt_override := prompt_override r;
     alternate_assistant_id := alternate_assistant_id r;
     chunks_above := chunks_above r;
     chunks_below := chunks_below r;
     full_doc := full_doc r |}.

(** Lines 247-253: no query rephrasing for the first message. *)
Definition disable_rephrasing (new_msg_req : CreateChatMessageRequest)
    (history_msgs : list ChatMessage) : CreateChatMessageRequest :=
  match history_msgs with
  | [] =>
      set_query_override
        (Some (if PyStr.truthy (query_override new_msg_req)
               then match query_override new_msg_req with
                    | Some q => q
                    | None => message new_msg_req
                    end
               else message new_msg_req))
        new_msg_req
  | _ :: _ => new_msg_req
  end.

Definition is_latest_query_file (new_msg_req : CreateChatMessageRequest)
    (file : InMemoryChatFile) : bool :=
  existsb (String.eqb (file_id file)) (map fd_id (file_descriptors new_msg_req)).

(** The locals of lines 247-273. *)
Record Files : Type := {
  fl_request : CreateChatMessageRequest;
  fl_files : list InMemoryChatFile;
  fl_latest_query_files : list InMemoryChatFile
}.

(** Lines 247-273: load the files of the chain and attach the files of
    this query to the staged user message. *)
Definition load_files (env : Env) (new_msg_req : CreateChatMessageRequest)
    (ch : Chain) : Gen Files :=
  let new_msg_req := disable_rephrasing new_msg_req (history_msgs ch) in
  files <- call (load_all_chat_files env (history_msgs ch)
                   (file_descriptors new_msg_req)) ;;
  let latest_query_files := filter (is_latest_query_file new_msg_req) files in
  match user_message ch with
  | Some user_message =>
      session_call env AttachFilesCall
        (fun s => (tt, attach_files_to_chat_message user_message
                         (map to_file_descriptor latest_query_files) false s))
  | None => ret tt
  end ;;
  ret {| fl_request := new_msg_req;
         fl_files := files;
         fl_latest_query_files := latest_query_files |}.

(** [DocumentPruningConfig(is_manually_selected_docs=True)] *)
Definition manual_pruning_config : DocumentPruningConfig :=
  {| max_chunks := None;
     max_window_percentage := None;
     is_manually_selected_docs := Some true;
     use_sections := None;
     tool_num_tokens := None;
     using_tool_message := None |}.

(** [DocumentPruningConfig(max_chunks=..., max_window_percentage=...,
    use_sections=...)] of lines 307-316. *)
Definition budget_pruning_config (persona : Persona)
    (new_msg_req : CreateChatMessageRequest)
    (default_num_chunks max_document_percentage : float)
    : DocumentPruningConfig :=
  {| max_chunks := Some (py_int (match num_chunks persona with
                                 | Some n => n
                                 | None => default_num_chunks
                                 end));
     max_window_percentage := Some max_document_percentage;
     is_manually_selected_docs := None;
     use_sections := Some ((chunks_above new_msg_req >? 0)%Z
                           || (chunks_below new_msg_req >? 0)%Z);
     tool_num_tokens := None;
     using_tool_message := None |}.

(** The locals of lines 275-316. *)
Record Selection : Type := {
  selected_db_search_docs : option (list DbSearchDoc);
  selected_sections : option (list InferenceSection);
  pruning_config : DocumentPruningConfig
}.

Fixpoint keep_found {A : Type} (l : list (option A)) : list A :=
  match l with
  | [] => []
  | Some a :: rest => a :: keep_found rest
  | None :: rest => keep_found rest
  end.

(** Lines 275-316: [if reference_doc_ids:] is true on a non-empty list
    only. *)
Definition select_documents (env : Env) (new_msg_req : CreateChatMessageRequest)
    (su : Setup) (default_num_chunks max_document_percentage : float)
    : Gen Selection :=
  match search_doc_ids new_msg_req with
  | Some ((_ :: _) as reference_doc_ids) =>
      identifier_tuples <-
        call (get_doc_query_identifiers_from_model env reference_doc_ids
                (su_chat_session su) (su_user_id su)) ;;
      sections <- call (inference_sections_from_ids env identifier_tuples
                          (su_document_index su)) ;;
      db_search_docs_or_none <-
        map_calls (get_db_search_doc_by_id env) reference_doc_ids ;;
      ret {| selected_db_search_docs := Some (keep_found db_search_docs_or_none);
             selected_sections := Some sections;
             pruning_config := manual_pruning_config |}
  | _ =>
      ret {| selected_db_search_docs := None;
             selected_sections := None;
             pruning_config :=
               budget_pruning_config (su_persona su) new_msg_req
                 default_num_chunks max_document_percentage |}
  end.

(** Lines 335-347.  [persona] is an object, so [not persona] is false
    and the first alternative of the conditional is never taken. *)
Definition build_prompt_config (new_msg_req : CreateChatMessageRequest)
    (chat_session : ChatSession) (persona : Persona) (final_msg : ChatMessage)
    : res PromptConfig :=
  match msg_prompt final_msg with
  | None => Raise (RuntimeError NO_PROMPT_FOUND)
  | Some final_msg_prompt =>
      if negb (object_truthy persona) then
        Ok (from_model final_msg_prompt
              (py_or (prompt_override new_msg_req)
                     (session_prompt_override chat_session)))
      else
        match prompts persona with
        | first_prompt :: _ => Ok (from_model first_prompt None)
        | [] => Raise (IndexError "list index out of range")
        end
  end.

(** Lines 376-406: the credential of the image-generation tool. *)
Definition resolve_image_generation_config (env : Env) (llm : LLM)
    : res LLMConfig :=
  if object_truthy llm
     && PyStr.truthy (api_key (config llm))
     && String.eqb (model_provider (config llm)) "openai"
  then Ok (config llm)
  else
    match fetch_existing_llm_providers env with
    | Raise e => Raise e
    | Ok llm_providers =>
        let openai_provider :=
          hd_error (filter (fun p => String.eqb (provider p) "openai")
                           llm_providers) in
        match openai_provider with
        | None => Raise (ValueError IMAGE_KEY_REQUIRED)
        | Some p =>
            if negb (PyStr.truthy (provider_api_key p))
            then Raise (ValueError IMAGE_KEY_REQUIRED)
            else Ok {| model_provider := provider p;
                       model_name := default_model_name p;
                       temperature := GEN_AI_TEMPERATURE env;
                       api_key := provider_api_key p;
                       api_base := provider_api_base p;
                       api_version := provider_api_version p |}
        end
    end.

Definition ToolDict : Type := list (Z * list ToolInstance).

(** The locals of the tool loop. *)
Record ToolVars : Type := {
  search_tool : option SearchToolArgs;
  tool_dict : ToolDict
}.

Definition search_tool_args (new_msg_req : CreateChatMessageRequest)
    (persona : Persona) (prompt_config : PromptConfig) (sel : Selection)
    : SearchToolArgs :=
  {| st_retrieval_options := retrieval_options new_msg_req;
     st_prompt_config := prompt_config;
     st_selected_sections := selected_sections sel;
     st_chunks_above := chunks_above new_msg_req;
     st_chunks_below := chunks_below new_msg_req;
     st_full_doc := full_doc new_msg_req;
     st_evaluation_type := if llm_relevance_filter persona then BASIC else SKIP |}.

(** Lines 352-434: one iteration of [for db_tool_model in persona.tools]. *)
Definition configure_tool (env : Env) (new_msg_req : CreateChatMessageRequest)
    (su : Setup) (fl : Files) (sel : Selection) (prompt_config : PromptConfig)
    (litellm_additional_headers : option Headers)
    (tv : ToolVars) (db_tool_model : ToolModel) : Gen ToolVars :=
  if PyStr.truthy (in_code_tool_id db_tool_model) then
    tool_cls <- call (get_built_in_tool_by_id env (tool_id db_tool_model)) ;;
    match tool_cls, fl_latest_query_files fl with
    | SearchToolClass, [] =>
        let st := search_tool_args new_msg_req (su_persona su) prompt_config sel in
        ret {| search_tool := Some st;
               tool_dict := dict_set Z.eqb (tool_id db_tool_model)
                              [SearchTool st] (tool_dict tv) |}
    | ImageGenerationToolClass, _ =>
        img_generation_llm_config <-
          call (resolve_image_generation_config env (su_llm su)) ;;
        ret {| search_tool := search_tool tv;
               tool_dict :=
                 dict_set Z.eqb (tool_id db_tool_model)
                   [ImageGenerationTool
                      (api_key img_generation_llm_config)
                      (api_base img_generation_llm_config)
                      (api_version img_generation_llm_config)
                      litellm_additional_headers]
                   (tool_dict tv) |}
    | InternetSearchToolClass, _ =>
        let bing_api_key := BING_API_KEY env in
        if negb (PyStr.truthy bing_api_key) then
          raise (ValueError BING_KEY_REQUIRED)
        else
          ret {| search_tool := search_tool tv;
                 tool_dict := dict_set Z.eqb (tool_id db_tool_model)
                                [InternetSearchTool bing_api_key]
                                (tool_dict tv) |}
    | _, _ => ret tv
    end
  else if PyStr.truthy (openapi_schema db_tool_model) then
    match openapi_schema db_tool_model with
    | Some schema =>
        custom_tools <- call (build_custom_tools_from_openapi_schema env schema) ;;
        ret {| search_tool := search_tool tv;
               tool_dict := dict_set Z.eqb (tool_id db_tool_model)
                              custom_tools (tool_dict tv) |}
    | None => ret tv
    end
  else ret tv.

Definition set_tool_accounting (tokens : nat) (supported : bool)
    (c : DocumentPruningConfig) : DocumentPruningConfig :=
  {| max_chunks := max_chunks c;
     max_window_percentage := max_window_percentage c;
     is_manually_selected_docs := is_manually_selected_docs c;
     use_sections := use_sections c;
     tool_num_tokens := Some tokens;
     using_tool_message := Some supported |}.

Definition is_some {A : Type} (o : option A) : bool :=
  match o with
  | Some _ => true
  | None => false
  end.

(** Lines 436-476: the tool list, the accounting of the tool definitions
    in the shared pruning configuration, and [Answer(...)].  [llm] is an
    object, so [llm or get_main_llm_from_tuple(...)] is [llm]. *)
Definition build_answer (env : Env) (su : Setup) (ch : Chain) (fl : Files)
    (sel : Selection) (prompt_config : PromptConfig) (tv : ToolVars)
    : Gen Answer :=
  let tools := concat (dict_values (tool_dict tv)) in
  tokens <- call (compute_all_tool_tokens env tools (su_tokenizer su)) ;;
  supported <- call (explicit_tool_calling_supported env
                   (model_provider (config (su_llm su)))
                   (model_name (config (su_llm su)))) ;;
  let document_pruning_config :=
    set_tool_accounting tokens supported (pruning_config sel) in
  force <- call (_get_force_search_settings env (fl_request fl) tools) ;;
  let answer :=
    {| question := msg_message (final_msg ch);
       latest_query_files := fl_latest_query_files fl;
       all_docs_useful := is_some (selected_db_search_docs sel);
       document_pruning_config := document_pruning_config;
       prompt_config := prompt_config;
       answer_llm := su_llm su;
       message_history :=
         map (fun msg => from_chat_message msg (fl_files fl)) (history_msgs ch);
       answer_tools := tools;
       force_use_tool := force |} in
  assign_answer answer ;;
  ret answer.

(** The locals of the event loop (lines 478-482). *)
Record LoopVars : Type := {
  reference_db_search_docs : option (list DbSearchDoc);
  qa_docs_response : option QADocs;
  ai_message_files : option (list FileDescriptor);
  dropped_indices : option (list Z);
  tool_result : option ToolCallFinalResult
}.

Definition initial_loop_vars : LoopVars :=
  {| reference_db_search_docs := None;
     qa_docs_response := None;
     ai_message_files := None;
     dropped_indices := None;
     tool_result := None |}.

(** Truth value of an optional list: [None] and [[]] are falsy. *)
Definition list_truthy {A : Type} (l : option (list A)) : bool :=
  match l with
  | Some (_ :: _) => true
  | _ => false
  end.

(** Lines 484-557: one iteration of
    [for packet in answer.processed_streamed_output]. *)
Definition handle_packet (env : Env) (new_msg_req : CreateChatMessageRequest)
    (sel : Selection) (v : LoopVars) (packet : EngineEvent) : Gen LoopVars :=
  match packet with
  | Tool (SEARCH_RESPONSE_SUMMARY summary) =>
      ' (qa, reference_docs, dropped) <-
        call (_handle_search_tool_response_summary env summary
                (selected_db_search_docs sel)
                (match retrieval_options new_msg_req with
                 | Some options => dedupe_docs options
                 | None => false
                 end)) ;;
      yield (QADocsResponse qa) ;;
      ret {| reference_db_search_docs := Some reference_docs;
             qa_docs_response := Some qa;
             ai_message_files := ai_message_files v;
             dropped_indices := dropped;
             tool_result := tool_result v |}
  | Tool (SECTION_RELEVANCE_LIST relevance_sections) =>
      match reference_db_search_docs v with
      | Some reference_docs =>
          search_docs <-
            map_calls (translate_db_search_doc_to_server_search_doc env)
              reference_docs ;;
          llm_indices <-
            call (relevant_documents_to_indices env relevance_sections search_docs) ;;
          llm_indices <-
            (if list_truthy (dropped_indices v)
             then call (drop_llm_indices env llm_indices reference_docs
                          (match dropped_indices v with
                           | Some d => d
                           | None => []
                           end))
             else ret llm_indices) ;;
          yield (LLMRelevanceFilterResponse llm_indices) ;;
          ret v
      | None => ret v
      end
  | Tool (IMAGE_GENERATION_RESPONSE img_generation_response) =>
      file_ids <- call (save_files_from_urls env (map url img_generation_response)) ;;
      yield (ImageGenerationDisplay file_ids) ;;
      ret {| reference_db_search_docs := reference_db_search_docs v;
             qa_docs_response := qa_docs_response v;
             ai_message_files :=
               Some (map (fun file_id => {| fd_id := file_id; fd_type := IMAGE |})
                         file_ids);
             dropped_indices := dropped_indices v;
             tool_result := tool_result v |}
  | Tool (INTERNET_SEARCH_RESPONSE response) =>
      ' (qa, reference_docs) <-
        call (_handle_internet_search_tool_response_summary env response) ;;
      yield (QADocsResponse qa) ;;
      ret {| reference_db_search_docs := Some reference_docs;
             qa_docs_response := Some qa;
             ai_message_files := ai_message_files v;
             dropped_indices := dropped_indices v;
             tool_result := tool_result v |}
  | Tool (CUSTOM_TOOL_RESPONSE custom_tool_response) =>
      yield (CustomToolResponse (custom_tool_result custom_tool_response)
                                (custom_tool_name custom_tool_response)) ;;
      ret v
  | Tool (OTHER_TOOL_RESPONSE _) => ret v
  | Plain p =>
      yield (Forwarded p) ;;
      ret match p with
          | FinalResult r =>
              {| reference_db_search_docs := reference_db_search_docs v;
                 qa_docs_response := qa_docs_response v;
                 ai_message_files := ai_message_files v;
                 dropped_indices := dropped_indices v;
                 tool_result := Some r |}
          | _ => v
          end
  end.

(** Lines 478-557: the engine's stream is consumed in order; if the
    engine raises, the exception leaves the loop after the events that
    came before it. *)
Definition event_loop (env : Env) (new_msg_req : CreateChatMessageRequest)
    (sel : Selection) (run : EngineRun) : Gen LoopVars :=
  v <- for_each (handle_packet env new_msg_req sel) (events run)
         initial_loop_vars ;;
  match failure run with
  | Some e => raise e
  | None => ret v
  end.

(** What the [try] block of lines 132-557 leaves to the code after it. *)
Record Generated : Type := {
  g_setup : Setup;
  g_chain : Chain;
  g_tool_dict : ToolDict;
  g_answer : Answer;
  g_run : EngineRun;
  g_vars : LoopVars
}.

(** Lines 275-557: the documents, the prompt, the tools, the [Answer]
    and its event loop. *)
Definition answer_turn (env : Env) (new_msg_req : CreateChatMessageRequest)
    (default_num_chunks max_document_percentage : float)
    (litellm_additional_headers : option Headers)
    (su : Setup) (ch : Chain) (fl : Files) : Gen Generated :=
  sel <- select_documents env new_msg_req su
           default_num_chunks max_document_percentage ;;
  prompt_config <- call (build_prompt_config (fl_request fl)
                           (su_chat_session su) (su_persona su) (final_msg ch)) ;;
  tv <- for_each (configure_tool env (fl_request fl) su fl sel prompt_config
                    litellm_additional_headers)
          (tools (su_persona su))
          {| search_tool := None; tool_dict := [] |} ;;
  answer <- build_answer env su ch fl sel prompt_config tv ;;
  let run := processed_streamed_output env answer in
  v <- event_loop env new_msg_req sel run ;;
  ret {| g_setup := su;
         g_chain := ch;
         g_tool_dict := tool_dict tv;
         g_answer := answer;
         g_run := run;
         g_vars := v |}.

(** Lines 207-557: the rest of the first [try], once the locals of
    lines 133-205 are bound. *)
Definition after_setup (env : Env) (new_msg_req : CreateChatMessageRequest)
    (default_num_chunks max_document_percentage : float)
    (use_existing_user_message : bool)
    (litellm_additional_headers : option Headers) (su : Setup)
    : Gen Generated :=
  ch <- resolve_chain env new_msg_req use_existing_user_message su ;;
  fl <- load_files env new_msg_req ch ;;
  answer_turn env new_msg_req default_num_chunks max_document_percentage
    litellm_additional_headers su ch fl.

(** Lines 133-557, the body of the first [try]. *)
Definition generation (env : Env) (new_msg_req : CreateChatMessageRequest)
    (user : option User)
    (default_num_chunks max_document_percentage : float)
    (use_existing_user_message : bool)
    (litellm_additional_headers : option Headers) : Gen Generated :=
  su <- setup env new_msg_req user litellm_additional_headers ;;
  after_setup env new_msg_req default_num_chunks max_document_percentage
    use_existing_user_message litellm_additional_headers su.

(** ** The handler of the generation phase (lines 559-583) *)

Definition ILLEGAL_BEARER : string := "Illegal header value b'Bearer  '".
Definition INVALID_HEADER : string :=
  "Invalid leading whitespace, reserved character(s), or return character(s) in header value".
Definition UNEXPECTED_ERROR : string :=
  "An unexpected error occurred while processing your request. Please try again later.".

Definition invalid_or_empty_key (provider_name : string) : string :=
  "Authentication error: Invalid or empty API key provided for '"
  ++ provider_name ++ "'. " ++ "Please check your API key configuration.".

Definition invalid_key_format (provider_name : string) : string :=
  "Authentication error: Invalid API key format for '" ++ provider_name ++ "'. "
  ++ "Please ensure your API key does not contain leading/trailing whitespace or invalid characters.".

Definition invalid_key_error (provider_name : string) : string :=
  "LLM failed to respond. Invalid API key error from '" ++ provider_name ++ "'.".

(** Reading the local [llm]: before its assignment has run the read
    raises [UnboundLocalError]. *)
Definition read_llm : Gen LLM :=
  fun f => match llm f with
           | Some l => (Ok l, f)
           | None => (Raise (UnboundLocalError "llm"), f)
           end.

(** [l.config.api_key and l.config.api_key.lower() in error_msg.lower()] *)
Definition key_in_message (l : LLM) (error_msg : string) : bool :=
  match api_key (config l) with
  | Some key =>
      PyStr.truthy (Some key)
      && PyStr.contains (PyStr.lower key) (PyStr.lower error_msg)
  | None => false
  end.

(** Lines 563-579: the message of the [StreamingError]. *)
Definition classify_error (error_msg : string) : Gen string :=
  if PyStr.contains ILLEGAL_BEARER error_msg then
    l <- read_llm ;;
    ret (invalid_or_empty_key (model_provider (config l)))
  else if PyStr.contains INVALID_HEADER error_msg then
    l <- read_llm ;;
    ret (invalid_key_format (model_provider (config l)))
  else
    l <- read_llm ;;
    if key_in_message l error_msg
    then ret (invalid_key_error (model_provider (config l)))
    else ret UNEXPECTED_ERROR.

(** Lines 559-583: [except Exception as e]. *)
Definition on_generation_error (e : Exn) : Gen unit :=
  let error_msg := str e in
  error_msg <- classify_error error_msg ;;
  yield (StreamingError error_msg) ;;
  do_rollback.

(** ** The persistence phase (lines 586-632) *)

(** Lines 595-598: later tools overwrite earlier ones of the same name. *)
Definition tool_name_to_tool_id_of (env : Env) (d : ToolDict) : list (string * Z) :=
  fold_left
    (fun acc entry =>
       fold_left (fun acc' tool =>
                    dict_set String.eqb (tool_name_of env tool) (fst entry) acc')
                 (snd entry) acc)
    d [].

(** [tool_name_to_tool_id[name]] *)
Definition lookup_tool_id (names : list (string * Z)) (name : string) : res Z :=
  match dict_get String.eqb name names with
  | Some i => Ok i
  | None => Raise (KeyError name)
  end.

(** The keyword arguments of [partial_response] (lines 319-333) together
    with those of its call (lines 600-620). *)
Definition assistant_message_args (new_msg_req : CreateChatMessageRequest)
    (g : Generated) (tokens : nat) (db_citations : option (list (Z * Z)))
    (tool_calls : list ToolCall) : NewMessage :=
  {| nm_chat_session_id := session_id (su_chat_session (g_setup g));
     nm_parent_message := final_msg (g_chain g);
     nm_prompt_id := su_prompt_id (g_setup g);
     nm_message := llm_answer (g_run g);
     nm_token_count := tokens;
     nm_message_type := ASSISTANT;
     nm_files := ai_message_files (g_vars g);
     nm_rephrased_query :=
       match qa_docs_response (g_vars g) with
       | Some qa => rephrased_query qa
       | None => None
       end;
     nm_reference_docs := reference_db_search_docs (g_vars g);
     nm_citations := db_citations;
     nm_error := None;
     nm_tool_calls := tool_calls;
     nm_alternate_assistant_id := alternate_assistant_id new_msg_req;
     nm_commit := false |}.

(** Lines 587-627, the body of the second [try]. *)
Definition persistence (env : Env) (new_msg_req : CreateChatMessageRequest)
    (g : Generated) : Gen unit :=
  let v := g_vars g in
  db_citations <-
    (if list_truthy (reference_db_search_docs v)
     then c <- call (translate_citations env (citations (g_run g))
                       (match reference_db_search_docs v with
                        | Some docs => docs
                        | None => []
                        end)) ;;
          ret (Some c)
     else ret None) ;;
  let tool_name_to_tool_id := tool_name_to_tool_id_of env (g_tool_dict g) in
  tokens <- call (encode (su_tokenizer (g_setup g)) (llm_answer (g_run g))) ;;
  tool_calls <-
    match tool_result v with
    | Some r =>
        i <- call (lookup_tool_id tool_name_to_tool_id (fr_tool_name r)) ;;
        ret [ {| tc_tool_id := i;
                 tc_tool_name := fr_tool_name r;
                 tc_tool_arguments := fr_tool_args r;
                 tc_tool_result := fr_tool_result r |} ]
    | None => ret []
    end ;;
  gen_ai_response_message <-
    session_call env (CreateMessageCall ASSISTANT)
      (create_new_chat_message (prompt_of env)
         (assistant_message_args new_msg_req g (length tokens)
            db_citations tool_calls)) ;;
  session_call env CommitCall (fun s => (tt, commit s)) ;;
  msg_detail_response <-
    call (translate_db_message_to_chat_message_detail env gen_ai_response_message) ;;
  yield (MessageDetail msg_detail_response).

Definition FAILED_TO_PARSE : string := "Failed to parse LLM output".

(** ** The whole turn *)

(** How the generator ends: it returns after the final message detail,
    after the [StreamingError] of either handler, or an exception raised
    inside the first handler, while it handles [during], reaches the
    caller. *)
Inductive Ending : Type :=
| Completed
| GenerationFailed (e : Exn)
| PersistenceFailed (e : Exn)
| Escaped (e : Exn) (during : Exn).

Record Outcome : Type := {
  ending : Ending;
  frame : Frame
}.

Definition packets (o : Outcome) : list ChatPacket := stream (frame o).
Definition session_after (o : Outcome) : Session := db_session (frame o).

Definition initial_frame (db : Session) : Frame :=
  {| db_session := db; stream := []; llm := None; answer := None |}.

Definition stream_chat_message_objects (env : Env)
    (new_msg_req : CreateChatMessageRequest) (user : option User)
    (db : Session)
    (default_num_chunks max_document_percentage : float)
    (use_existing_user_message : bool)
    (litellm_additional_headers : option Headers) : Outcome :=
  match generation env new_msg_req user default_num_chunks
          max_document_percentage use_existing_user_message
          litellm_additional_headers (initial_frame db) with
  | (Raise e, f1) =>
      match on_generation_error e f1 with
      | (Ok _, f2) => {| ending := GenerationFailed e; frame := f2 |}
      | (Raise e', f2) => {| ending := Escaped e' e; frame := f2 |}
      end
  | (Ok g, f1) =>
      match persistence env new_msg_req g f1 with
      | (Ok _, f2) => {| ending := Completed; frame := f2 |}
      | (Raise e, f2) =>
          {| ending := PersistenceFailed e;
             frame := snd (yield (StreamingError FAILED_TO_PARSE) f2) |}
      end
  end.

(** ** Concrete turns

    A small installation on which the turn can be run: one persona with
    two prompts, one session, a store that holds the root message (and,
    for the regeneration flow, earlier messages), and collaborators that
    answer without raising unless a scenario says otherwise. *)

Module Scenario.

Definition prompt1 : Prompt :=
  {| prompt_ident := 1; system_prompt := "You are a helpful assistant.";
     task_prompt := "Answer the question." |}.

Definition prompt2 : Prompt :=
  {| prompt_ident := 2; system_prompt := "You are a careful assistant.";
     task_prompt := "Answer and cite." |}.

Definition the_persona (tool_models : list ToolModel) : Persona :=
  {| persona_id := 1;
     prompts := [prompt1; prompt2];
     num_chunks := None;
     llm_relevance_filter := true;
     tools := tool_models |}.

Definition the_session (tool_models : list ToolModel) : ChatSession :=
  {| session_id := 10;
     persona := the_persona tool_models;
     session_llm_override := None;
     session_prompt_override := None |}.

Definition llm_config_of (provider_name : string) (key : option string) : LLMConfig :=
  {| model_provider := provider_name;
     model_name := "model-a";
     temperature := 0 # 1;
     api_key := key;
     api_base := None;
     api_version := None |}.

Definition openai_llm : LLM := {| config := llm_config_of "openai" (Some "sk-primary") |}.
Definition other_llm : LLM := {| config := llm_config_of "azure" (Some "az-primary") |}.

Definition provider_of (provider_name : string) (key : option string) : LLMProvider :=
  {| provider := provider_name;
     default_model_name := "model-b";
     provider_api_key := key;
     provider_api_base := None;
     provider_api_version := None |}.

Definition row (i : Z) (parent : option Z) (text : string) (t : MessageType)
    : ChatMessage :=
  {| msg_id := i;
     msg_chat_session_id := 10;
     msg_parent_message := parent;
     msg_message := text;
     msg_token_count := 0;
     msg_message_type := t;
     msg_prompt_id := Some 2%Z;
     msg_prompt := Some prompt2;
     msg_files := [];
     msg_rephrased_query := None;
     msg_reference_docs := None;
     msg_citations := None;
     msg_error := None;
     msg_tool_calls := [];
     msg_alternate_assistant_id := None |}.

Definition root : ChatMessage := row 1 None "" SYSTEM.
Definition earlier_user : ChatMessage := row 2 (Some 1%Z) "hello" USER.
Definition earlier_assistant : ChatMessage := row 3 (Some 2%Z) "hi there" ASSISTANT.

Definition store_of (rows : list ChatMessage) (next : Z) : Session :=
  {| committed := rows; pending := []; next_id := next;
     commits := 0; rollbacks := 0 |}.

(** A fresh conversation, one that ends in a user message, and one that
    ends in an assistant message. *)
Definition fresh_store : Session := store_of [root] 2.
Definition store_ending_in_user : Session := store_of [root; earlier_user] 3.
Definition store_ending_in_assistant : Session :=
  store_of [root; earlier_user; earlier_assistant] 4.

(** The chain whose leaf is the newest visible row; the history is what
    lies between the root and the leaf. *)
Definition newest_is_leaf (_ : Z) (rows : list ChatMessage)
    : res (ChatMessage * list ChatMessage) :=
  match rev rows with
  | leaf :: before => Ok (leaf, tl (rev before))
  | [] => Raise (RuntimeError "No messages in Chat Session")
  end.

(** A chain that a concurrent branch has taken over: its leaf is the
    oldest row of the session, whatever was inserted since. *)
Definition branch_is_leaf (_ : Z) (rows : list ChatMessage)
    : res (ChatMessage * list ChatMessage) :=
  match rows with
  | oldest :: _ => Ok (oldest, [])
  | [] => Raise (RuntimeError "No messages in Chat Session")
  end.

Definition no_fault (_ : DbCall) : option Exn := None.

Definition commit_fails (c : DbCall) : option Exn :=
  match c with
  | CommitCall => Some (OtherException "connection lost")
  | _ => None
  end.

Fixpoint one_token_per_character (s : string) : list Z :=
  match s with
  | EmptyString => []
  | String c rest => Z.of_nat (nat_of_ascii c) :: one_token_per_character rest
  end.

Definition tokenizer : Tokenizer :=
  {| encode := fun s => Ok (one_token_per_character s) |}.

Definition class_of (i : Z) : ToolClass :=
  if (i =? 1)%Z then SearchToolClass
  else if (i =? 2)%Z then ImageGenerationToolClass
  else if (i =? 3)%Z then InternetSearchToolClass
  else OtherToolClass "Unknown".

Definition search_tool_model : ToolModel :=
  {| tool_id := 1; in_code_tool_id := Some "SearchTool"; openapi_schema := None |}.
Definition image_tool_model : ToolModel :=
  {| tool_id := 2; in_code_tool_id := Some "ImageGenerationTool"; openapi_schema := None |}.
Definition internet_tool_model : ToolModel :=
  {| tool_id := 3; in_code_tool_id := Some "InternetSearchTool"; openapi_schema := None |}.

Definition name_of (t : ToolInstance) : string :=
  match t with
  | SearchTool _ => "run_search"
  | ImageGenerationTool _ _ _ _ => "run_image_generation"
  | InternetSearchTool _ => "run_internet_search"
  | CustomTool n _ => n
  end.

Definition docs_of (ids : list Z) : list DbSearchDoc :=
  map (fun i => {| db_doc_id := i; document_id := "doc" |}) ids.

Definition qa_of (q : option string) (ids : list Z) : QADocs :=
  {| rephrased_query := q;
     top_documents := map (fun i => {| sd_document_id := "doc"; sd_db_doc_id := i |}) ids |}.

Fixpoint indices_of (relevant : list bool) (i : Z) : list Z :=
  match relevant with
  | [] => []
  | true :: rest => i :: indices_of rest (i + 1)
  | false :: rest => indices_of rest (i + 1)
  end.

Definition detail_of (m : ChatMessage) : ChatMessageDetail :=
  {| detail_message_id := msg_id m;
     detail_parent_message := msg_parent_message m;
     detail_message := msg_message m;
     detail_message_type := msg_message_type m |}.

(** The installation, by what the scenarios vary: the tools of the
    persona, the primary LLM, the configured providers, the chain
    resolver, the planted session faults and the run of the engine. *)
Definition installation (tool_models : list ToolModel) (primary : LLM)
    (providers : list LLMProvider)
    (chain : Z -> list ChatMessage -> res (ChatMessage * list ChatMessage))
    (fault : DbCall -> option Exn) (run : EngineRun) : Env :=
  {| create_chat_session := fun _ _ => Ok (the_session tool_models);
     get_chat_session_by_id := fun _ _ => Ok (the_session tool_models);
     get_persona_by_id := fun _ _ => Ok (the_persona tool_models);
     get_llms_for_persona := fun _ _ _ => Ok (primary, primary);
     get_tokenizer := fun _ _ => Ok tokenizer;
     get_current_db_embedding_model := Ok "index_a";
     get_default_document_index := fun name => Ok name;
     get_or_create_root_message := fun _ => Ok root;
     get_chat_message := fun i _ => Ok (row i None "" USER);
     create_chat_chain := chain;
     prompt_of := fun i => match i with
                           | Some 1%Z => Some prompt1
                           | Some 2%Z => Some prompt2
                           | _ => None
                           end;
     db_fault := fault;
     load_all_chat_files := fun _ _ => Ok [];
     get_doc_query_identifiers_from_model :=
       fun ids _ _ => Ok (map (fun i => ("doc", i)) ids);
     inference_sections_from_ids :=
       fun ids _ => Ok (map (fun p => {| section_document_id := fst p |}) ids);
     get_db_search_doc_by_id :=
       fun i => Ok (if (i <? 100)%Z
                    then Some {| db_doc_id := i; document_id := "doc" |}
                    else None);
     get_built_in_tool_by_id := fun i => Ok (class_of i);
     fetch_existing_llm_providers := Ok providers;
     BING_API_KEY := Some "bing-key";
     GEN_AI_TEMPERATURE := 0 # 1;
     build_custom_tools_from_openapi_schema := fun schema => Ok [CustomTool schema schema];
     compute_all_tool_tokens := fun ts _ => Ok (length ts);
     explicit_tool_calling_supported := fun _ _ => Ok true;
     _get_force_search_settings :=
       fun _ _ => Ok {| force_use := false; force_tool_name := "" |};
     processed_streamed_output := fun _ => run;
     _handle_search_tool_response_summary :=
       fun summary _ _ => Ok (qa_of (summary_rephrased_query summary) [1; 2]%Z,
                              docs_of [1; 2]%Z, None);
     translate_db_search_doc_to_server_search_doc :=
       fun d => Ok {| sd_document_id := document_id d; sd_db_doc_id := db_doc_id d |};
     relevant_documents_to_indices := fun relevant _ => Ok (indices_of relevant 0);
     drop_llm_indices := fun ixs _ _ => Ok ixs;
     save_files_from_urls := fun urls => Ok urls;
     _handle_internet_search_tool_response_summary :=
       fun _ => Ok (qa_of None [7]%Z, docs_of [7]%Z);
     translate_citations := fun _ _ => Ok [];
     translate_db_message_to_chat_message_detail := fun m => Ok (detail_of m);
     tool_name_of := name_of |}.

Definition request (text : string) (ids : option (list Z))
    (options : option RetrievalDetails) (pid : option Z)
    : CreateChatMessageRequest :=
  {| chat_session_id := Some 10%Z;
     parent_message_id := None;
     message := text;
     file_descriptors := [];
     prompt_id := pid;
     search_doc_ids := ids;
     retrieval_options := options;
     query_override := None;
     req_persona_id := 1;
     llm_override := None;
     prompt_override := Some {| override_system_prompt := Some "Be terse.";
                                override_task_prompt := None |};
     alternate_assistant_id := None;
     chunks_above := 0;
     chunks_below := 0;
     full_doc := false |}.

Definition search_options : option RetrievalDetails :=
  Some {| dedupe_docs := false; run_search := None |}.

(** Runs of the answer engine. *)
Definition plain_run : EngineRun :=
  {| events := [Plain (AnswerPiece (Some "Hi")); Plain (AnswerPiece None)];
     failure := None;
     llm_answer := "Hi";
     citations := [] |}.

Definition internet_then_relevance_run : EngineRun :=
  {| events := [Tool (INTERNET_SEARCH_RESPONSE {| internet_results := ["https://example.org"] |});
                Tool (SECTION_RELEVANCE_LIST [true]);
                Plain (AnswerPiece (Some "Hi"))];
     failure := None;
     llm_answer := "Hi";
     citations := [] |}.

Definition unattributed_tool_run : EngineRun :=
  {| events := [Plain (FinalResult {| fr_tool_name := "not_configured";
                                      fr_tool_args := "{}";
                                      fr_tool_result := "42" |});
                Plain (AnswerPiece (Some "Hi"))];
     failure := None;
     llm_answer := "Hi";
     citations := [] |}.

Definition default_num_chunks : float := 10 # 1.
Definition max_document_percentage : float := 3 # 4.

(** The turn on an installation, with the defaults of
    [stream_chat_message]. *)
Definition turn (env : Env) (new_msg_req : CreateChatMessageRequest)
    (db : Session) (use_existing_user_message : bool) : Outcome :=
  stream_chat_message_objects env new_msg_req None db
    default_num_chunks max_document_percentage
    use_existing_user_message None.

Definition standard : Env :=
  installation [] openai_llm [] newest_is_leaf no_fault plain_run.

(** The same installation with generative AI switched off:
    [get_llms_for_persona] raises [GenAIDisabledException]. *)
Definition without_llm (env : Env) : Env :=
  {| create_chat_session := create_chat_session env;
     get_chat_session_by_id := get_chat_session_by_id env;
     get_persona_by_id := get_persona_by_id env;
     get_llms_for_persona :=
       fun _ _ _ => Raise (GenAIDisabledException "GenAI is disabled");
     get_tokenizer := get_tokenizer env;
     get_current_db_embedding_model := get_current_db_embedding_model env;
     get_default_document_index := get_default_document_index env;
     get_or_create_root_message := get_or_create_root_message env;
     get_chat_message := get_chat_message env;
     create_chat_chain := create_chat_chain env;
     prompt_of := prompt_of env;
     db_fault := db_fault env;
     load_all_chat_files := load_all_chat_files env;
     get_doc_query_identifiers_from_model := get_doc_query_identifiers_from_model env;
     inference_sections_from_ids := inference_sections_from_ids env;
     get_db_search_doc_by_id := get_db_search_doc_by_id env;
     get_built_in_tool_by_id := get_built_in_tool_by_id env;
     fetch_existing_llm_providers := fetch_existing_llm_providers env;
     BING_API_KEY := BING_API_KEY env;
     GEN_AI_TEMPERATURE := GEN_AI_TEMPERATURE env;
     build_custom_tools_from_openapi_schema := build_custom_tools_from_openapi_schema env;
     compute_all_tool_tokens := compute_all_tool_tokens env;
     explicit_tool_calling_supported := explicit_tool_calling_supported env;
     _get_force_search_settings := _get_force_search_settings env;
     processed_streamed_output := processed_streamed_output env;
     _handle_search_tool_response_summary := _handle_search_tool_response_summary env;
     translate_db_search_doc_to_server_search_doc := translate_db_search_doc_to_server_search_doc env;
     relevant_documents_to_indices := relevant_documents_to_indices env;
     drop_llm_indices := drop_llm_indices env;
     save_files_from_urls := save_files_from_urls env;
     _handle_internet_search_tool_response_summary := _handle_internet_search_tool_response_summary env;
     translate_citations := translate_citations env;
     translate_db_message_to_chat_message_detail := translate_db_message_to_chat_message_detail env;
     tool_name_of := tool_name_of env |}.

End Scenario.

(** ** Frame relations

    [keeps R c]: whatever [c] returns or raises, the frame it leaves is
    related by [R] to the frame it started from. *)

Definition keeps {A : Type} (R : Frame -> Frame -> Prop) (c : Gen A) : Prop :=
  forall f, R f (snd (c f)).

(** A component of the frame is left as it was. *)
Definition same_on {X : Type} (proj : Frame -> X) (f f' : Frame) : Prop :=
  proj f' = proj f.

(** The stream grows, and only by packets that satisfy [P]. *)
Definition extends_stream (P : ChatPacket -> Prop) (f f' : Frame) : Prop :=
  exists l, stream f' = stream f ++ l /\ Forall P l.

(** The packets of the generation phase: everything but the two packets
    that end a stream. *)
Definition generation_packet (p : ChatPacket) : Prop :=
  match p with
  | StreamingError _ | MessageDetail _ => False
  | _ => True
  end.

(** ** What the claims speak of *)

(** The turn has committed exactly one new user message and one new
    assistant message, the second a child of the first. *)
Definition commits_user_and_assistant (before after : Session) : Prop :=
  exists um am,
    committed after = committed before ++ [um; am]
    /\ msg_message_type um = USER
    /\ msg_message_type am = ASSISTANT
    /\ msg_parent_message am = Some (msg_id um).

Definition is_docs_packet (p : ChatPacket) : bool :=
  match p with
  | QADocsResponse _ => true
  | _ => false
  end.

(** Every [LLMRelevanceFilterResponse] of the stream comes after a
    document-list packet ([seen]: one came before the stream). *)
Fixpoint relevance_follows_docs (seen : bool) (l : list ChatPacket) : bool :=
  match l with
  | [] => true
  | QADocsResponse _ :: rest => relevance_follows_docs true rest
  | LLMRelevanceFilterResponse _ :: rest =>
      seen && relevance_follows_docs seen rest
  | _ :: rest => relevance_follows_docs seen rest
  end.

(** If the stream was in that order before the stage, it still is. *)
Definition keeps_docs_order (f f' : Frame) : Prop :=
  relevance_follows_docs false (stream f) = true ->
  relevance_follows_docs false (stream f') = true.

Definition is_search_summary (e : EngineEvent) : bool :=
  match e with
  | Tool (SEARCH_RESPONSE_SUMMARY _) => true
  | _ => false
  end.


(** What the event loop maintains: the stream is in order, and once
    [reference_db_search_docs] is set a document-list packet is in it. *)
Definition loop_invariant (v : LoopVars) (f : Frame) : Prop :=
  relevance_follows_docs false (stream f) = true
  /\ (is_some (reference_db_search_docs v) = true ->
      existsb is_docs_packet (stream f) = true).



(** ** The caller: [stream_chat_message] (lines 635-651)

    What the caller takes from its own imports: the two defaults of
    [stream_chat_message_objects], the session that
    [get_session_context_manager] hands out, and [get_json_line] applied
    to the [dict()] of a packet. *)
Record Serving : Type := {
  MAX_CHUNKS_FED_TO_CHAT : float;
  CHAT_TARGET_CHUNK_PERCENTAGE : float;
  get_session_context_manager : Session;
  get_json_line : ChatPacket -> string
}.

(** The lines the generator yields, and the exception that ends it, if
    one reaches it from [stream_chat_message_objects]. *)
Definition stream_chat_message (env : Env) (sv : Serving)
    (new_msg_req : CreateChatMessageRequest) (user : option User)
    (use_existing_user_message : bool)
    (litellm_additional_headers : option Headers)
    : list string * option Exn :=
  let objects :=
    stream_chat_message_objects env new_msg_req user
      (get_session_context_manager sv)
      (MAX_CHUNKS_FED_TO_CHAT sv) (CHAT_TARGET_CHUNK_PERCENTAGE sv)
      use_existing_user_message litellm_additional_headers in
  (map (get_json_line sv) (packets objects),
   match ending objects with
   | Escaped e _ => Some e
   | _ => None
   end).

(** ** What the further properties speak of *)

(** The engine's own packets among its events, in order. *)
Fixpoint plain_packets (evs : list EngineEvent) : list EnginePacket :=
  match evs with
  | [] => []
  | Plain p :: rest => p :: plain_packets rest
  | Tool _ :: rest => plain_packets rest
  end.

(** The forwarded packets of a stream, in order. *)
Fixpoint forwarded (l : list ChatPacket) : list EnginePacket :=
  match l with
  | [] => []
  | Forwarded p :: rest => p :: forwarded rest
  | _ :: rest => forwarded rest
  end.

(** The last final tool-call result among the events, after [seen]. *)
Fixpoint last_final_result (seen : option ToolCallFinalResult)
    (evs : list EngineEvent) : option ToolCallFinalResult :=
  match evs with
  | [] => seen
  | Plain (FinalResult r) :: rest => last_final_result (Some r) rest
  | _ :: rest => last_final_result seen rest
  end.

(** The urls of the last image-generation response among the events. *)
Fixpoint last_image_urls (seen : option (list string))
    (evs : list EngineEvent) : option (list string) :=
  match evs with
  | [] => seen
  | Tool (IMAGE_GENERATION_RESPONSE imgs) :: rest =>
      last_image_urls (Some (map url imgs)) rest
  | _ :: rest => last_image_urls seen rest
  end.

Definition is_search_tool (t : ToolInstance) : bool :=
  match t with
  | SearchTool _ => true
  | _ => false
  end.

(** The (name, id) pairs of the configured tools, in the order lines
    596-598 visit them. *)
Definition tool_names (env : Env) (d : ToolDict) : list (string * Z) :=
  flat_map (fun entry => map (fun tool => (tool_name_of env tool, fst entry))
                             (snd entry)) d.

(** No committed row has the identifier the session hands out next. *)
Definition fresh_ids (db : Session) : Prop :=
  forall x, In x (committed db) -> msg_id x <> next_id db.

(** The part of a session that [commit] writes. *)
Definition durable (f : Frame) : list ChatMessage * nat :=
  (committed (db_session f), commits (db_session f)).

(** ** Further runs of the engine *)

(** The engine calls the internet search tool and reports its result. *)
Definition tool_call_run : EngineRun :=
  {| events := [Plain (ToolCallKickoff "run_internet_search" "{}");
                Tool (INTERNET_SEARCH_RESPONSE
                        {| internet_results := ["https://example.org"] |});
                Plain (FinalResult {| fr_tool_name := "run_internet_search";
                                      fr_tool_args := "{}";
                                      fr_tool_result := "found" |});
                Plain (AnswerPiece (Some "Hi"))];
     failure := None;
     llm_answer := "Hi";
     citations := [] |}.

(** The engine generates images twice. *)
Definition two_images_run : EngineRun :=
  {| events := [Tool (IMAGE_GENERATION_RESPONSE
                        [ {| revised_prompt := "a cat"; url := "https://img/1" |} ]);
                Tool (IMAGE_GENERATION_RESPONSE
                        [ {| revised_prompt := "a dog"; url := "https://img/2" |} ]);
                Plain (AnswerPiece (Some "Hi"))];
     failure := None;
     llm_answer := "Hi";
     citations := [] |}.


(** ** Other installations and requests *)

(** An installation with another file loader and another Bing key. *)
Definition reconfigured (env : Env)
    (load : list ChatMessage -> list FileDescriptor -> res (list InMemoryChatFile))
    (bing : option string) : Env :=
  {| create_chat_session := create_chat_session env;
     get_chat_session_by_id := get_chat_session_by_id env;
     get_persona_by_id := get_persona_by_id env;
     get_llms_for_persona := get_llms_for_persona env;
     get_tokenizer := get_tokenizer env;
     get_current_db_embedding_model := get_current_db_embedding_model env;
     get_default_document_index := get_default_document_index env;
     get_or_create_root_message := get_or_create_root_message env;
     get_chat_message := get_chat_message env;
     create_chat_chain := create_chat_chain env;
     prompt_of := prompt_of env;
     db_fault := db_fault env;
     load_all_chat_files := load;
     get_doc_query_identifiers_from_model := get_doc_query_identifiers_from_model env;
     inference_sections_from_ids := inference_sections_from_ids env;
     get_db_search_doc_by_id := get_db_search_doc_by_id env;
     get_built_in_tool_by_id := get_built_in_tool_by_id env;
     fetch_existing_llm_providers := fetch_existing_llm_providers env;
     BING_API_KEY := bing;
     GEN_AI_TEMPERATURE := GEN_AI_TEMPERATURE env;
     build_custom_tools_from_openapi_schema := build_custom_tools_from_openapi_schema env;
     compute_all_tool_tokens := compute_all_tool_tokens env;
     explicit_tool_calling_supported := explicit_tool_calling_supported env;
     _get_force_search_settings := _get_force_search_settings env;
     processed_streamed_output := processed_streamed_output env;
     _handle_search_tool_response_summary := _handle_search_tool_response_summary env;
     translate_db_search_doc_to_server_search_doc := translate_db_search_doc_to_server_search_doc env;
     relevant_documents_to_indices := relevant_documents_to_indices env;
     drop_llm_indices := drop_llm_indices env;
     save_files_from_urls := save_files_from_urls env;
     _handle_internet_search_tool_response_summary := _handle_internet_search_tool_response_summary env;
     translate_citations := translate_citations env;
     translate_db_message_to_chat_message_detail := translate_db_message_to_chat_message_detail env;
     tool_name_of := tool_name_of env |}.

(** A loader that finds every file the request describes. *)
Definition files_of_descriptors (_ : list ChatMessage) (fds : list FileDescriptor)
    : res (list InMemoryChatFile) :=
  Ok (map (fun fd => {| file_id := fd_id fd; file_type := fd_type fd;
                        file_content := "" |}) fds).

Definition with_file_descriptors (fds : list FileDescriptor)
    (r : CreateChatMessageRequest) : CreateChatMessageRequest :=
  {| chat_session_id := chat_session_id r;
     parent_message_id := parent_message_id r;
     message := message r;
     file_descriptors := fds;
     prompt_id := prompt_id r;
     search_doc_ids := search_doc_ids r;
     retrieval_options := retrieval_options r;
     query_override := query_override r;
     req_persona_id := req_persona_id r;
     llm_override := llm_override r;
     prompt_override := prompt_override r;
     alternate_assistant_id := alternate_assistant_id r;
     chunks_above := chunks_above r;
     chunks_below := chunks_below r;
     full_doc := full_doc r |}.

(** ** What the tool loop is asked about *)

Definition is_custom_tool (t : ToolInstance) : bool :=
  match t with
  | CustomTool _ _ => true
  | _ => false
  end.

(** [build_custom_tools_from_openapi_schema] builds custom tools. *)
Definition custom_tools_only (env : Env) : Prop :=
  forall schema ts,
    build_custom_tools_from_openapi_schema env schema = Ok ts ->
    forallb is_custom_tool ts = true.

(** A built-in tool that needs a key has one. *)
Definition has_credential (env : Env) (t : ToolInstance) : Prop :=
  match t with
  | ImageGenerationTool key _ _ _ => PyStr.truthy key = true
  | InternetSearchTool key => key = BING_API_KEY env /\ PyStr.truthy key = true
  | _ => True
  end.

(** What holds of a tool configured while the query has the files
    [query_files]. *)
Definition configured_for (env : Env) (query_files : list InMemoryChatFile)
    (t : ToolInstance) : Prop :=
  (is_search_tool t = true -> query_files = []) /\ has_credential env t.


(** The tools of the [Answer] of a turn, none when no [Answer] was
    built. *)
Definition answer_tools_of (o : Outcome) : list ToolInstance :=
  match answer (frame o) with
  | Some a => answer_tools a
  | None => []
  end.





(** * Properties *)

(** ** What a stage of the generator does to the frame *)

Section Keeps.

Context (R : Frame -> Frame -> Prop) {R_preorder : PreOrder R}.

Lemma keeps_ret {A : Type} (a : A) : keeps R (ret a).
Proof. intros f. simpl. reflexivity. Qed.

Lemma keeps_call {A : Type} (r : res A) : keeps R (call r).
Proof. intros f. simpl. reflexivity. Qed.

Lemma keeps_raise {A : Type} (e : Exn) : keeps R (@raise A e).
Proof. intros f. simpl. reflexivity. Qed.

Lemma keeps_bind {A B : Type} (c : Gen A) (k : A -> Gen B) :
  keeps R c -> (forall a, keeps R (k a)) -> keeps R (bind c k).
Proof.
  intros Hc Hk f. unfold bind.
  specialize (Hc f). destruct (c f) as [[a | e] f1]; simpl in *.
  - etransitivity; [exact Hc | apply Hk].
  - exact Hc.
Qed.

Lemma keeps_for_each {A S : Type} (body : S -> A -> Gen S) (xs : list A) :
  (forall s x, keeps R (body s x)) -> forall s, keeps R (for_each body xs s).
Proof.
  intros Hbody. induction xs as [| x rest IH]; intros s; simpl.
  - apply keeps_ret.
  - apply keeps_bind; [apply Hbody | intros s'; apply IH].
Qed.

Lemma keeps_map_calls {A B : Type} (g : A -> res B) (xs : list A) :
  keeps R (map_calls g xs).
Proof.
  induction xs as [| x rest IH]; simpl.
  - apply keeps_ret.
  - apply keeps_bind; [apply keeps_call | intros y].
    apply keeps_bind; [exact IH | intros ys; apply keeps_ret].
Qed.

Lemma keeps_chat_chain env su : keeps R (chat_chain env su).
Proof. intros f. simpl. reflexivity. Qed.

Lemma keeps_read_llm : keeps R read_llm.
Proof. intros f. unfold read_llm. destruct (llm f); simpl; reflexivity. Qed.

End Keeps.

#[local] Instance same_on_preorder {X : Type} (proj : Frame -> X) :
  PreOrder (same_on proj).
Proof.
  split.
  - intros f. reflexivity.
  - intros a b c Hab Hbc. unfold same_on in *. congruence.
Qed.

#[local] Instance extends_stream_preorder (P : ChatPacket -> Prop) :
  PreOrder (extends_stream P).
Proof.
  split.
  - intros f. exists []. split; [symmetry; apply app_nil_r | constructor].
  - intros a b c [l1 [H1 F1]] [l2 [H2 F2]]. exists (l1 ++ l2). split.
    + rewrite H2, H1. symmetry. apply app_assoc.
    + apply Forall_app. split; assumption.
Qed.

(** The frame operations, by the components they leave alone. *)

Lemma yield_same_db p : keeps (same_on db_session) (yield p).
Proof. intros f. reflexivity. Qed.
Lemma yield_same_llm p : keeps (same_on llm) (yield p).
Proof. intros f. reflexivity. Qed.
Lemma yield_same_answer p : keeps (same_on answer) (yield p).
Proof. intros f. reflexivity. Qed.
Lemma yield_extends (P : ChatPacket -> Prop) p :
  P p -> keeps (extends_stream P) (yield p).
Proof. intros Hp f. exists [p]. split; [reflexivity | repeat constructor; exact Hp]. Qed.

Lemma session_call_same_stream {A : Type} env c (op : Session -> A * Session) :
  keeps (same_on stream) (session_call env c op).
Proof.
  intros f. unfold session_call. destruct (db_fault env c); [reflexivity |].
  destruct (op (db_session f)); reflexivity.
Qed.
Lemma session_call_same_llm {A : Type} env c (op : Session -> A * Session) :
  keeps (same_on llm) (session_call env c op).
Proof.
  intros f. unfold session_call. destruct (db_fault env c); [reflexivity |].
  destruct (op (db_session f)); reflexivity.
Qed.
Lemma session_call_same_answer {A : Type} env c (op : Session -> A * Session) :
  keeps (same_on answer) (session_call env c op).
Proof.
  intros f. unfold session_call. destruct (db_fault env c); [reflexivity |].
  destruct (op (db_session f)); reflexivity.
Qed.

Lemma rollback_same_stream : keeps (same_on stream) do_rollback.
Proof. intros f. reflexivity. Qed.
Lemma rollback_same_llm : keeps (same_on llm) do_rollback.
Proof. intros f. reflexivity. Qed.
Lemma rollback_same_answer : keeps (same_on answer) do_rollback.
Proof. intros f. reflexivity. Qed.

Lemma assign_llm_same_db l : keeps (same_on db_session) (assign_llm l).
Proof. intros f. reflexivity. Qed.
Lemma assign_llm_same_stream l : keeps (same_on stream) (assign_llm l).
Proof. intros f. reflexivity. Qed.
Lemma assign_llm_same_answer l : keeps (same_on answer) (assign_llm l).
Proof. intros f. reflexivity. Qed.

Lemma assign_answer_same_db a : keeps (same_on db_session) (assign_answer a).
Proof. intros f. reflexivity. Qed.
Lemma assign_answer_same_stream a : keeps (same_on stream) (assign_answer a).
Proof. intros f. reflexivity. Qed.
Lemma assign_answer_same_llm a : keeps (same_on llm) (assign_answer a).
Proof. intros f. reflexivity. Qed.

Create HintDb frame discriminated.
#[local] Hint Resolve yield_same_db yield_same_llm yield_same_answer
  session_call_same_stream session_call_same_llm session_call_same_answer
  rollback_same_stream rollback_same_llm rollback_same_answer
  assign_llm_same_db assign_llm_same_stream assign_llm_same_answer
  assign_answer_same_db assign_answer_same_stream assign_answer_same_llm
  : frame.

(** Structural descent through a stage written with [bind]. *)
Ltac keeps_structure :=
  repeat first
    [ match goal with |- PreOrder _ => typeclasses eauto end
    | solve [auto with frame]
    | apply keeps_ret | apply keeps_call | apply keeps_raise
    | apply keeps_read_llm | apply keeps_map_calls | apply keeps_chat_chain
    | apply keeps_bind; [ .. | | intros ?]
    | apply keeps_for_each; [ .. | intros ? ?]
    | match goal with
      | |- keeps _ (match ?x with _ => _ end) => destruct x
      end ].

(** Stages that only call into the environment leave the frame alone,
    whatever the relation. *)

Section PureStages.

Context (R : Frame -> Frame -> Prop) {R_preorder : PreOrder R}.

Lemma keeps_select_documents env new_msg_req su d m :
  keeps R (select_documents env new_msg_req su d m).
Proof. unfold select_documents. keeps_structure. Qed.

Lemma keeps_configure_tool env new_msg_req su fl sel pc h tv t :
  keeps R (configure_tool env new_msg_req su fl sel pc h tv t).
Proof. unfold configure_tool. keeps_structure. Qed.

End PureStages.

Lemma setup_same_db env new_msg_req user h :
  keeps (same_on db_session) (setup env new_msg_req user h).
Proof. unfold setup. keeps_structure. Qed.

Lemma setup_same_stream env new_msg_req user h :
  keeps (same_on stream) (setup env new_msg_req user h).
Proof. unfold setup. keeps_structure. Qed.

Lemma setup_same_answer env new_msg_req user h :
  keeps (same_on answer) (setup env new_msg_req user h).
Proof. unfold setup. keeps_structure. Qed.

Lemma resolve_chain_same_stream env new_msg_req u su :
  keeps (same_on stream) (resolve_chain env new_msg_req u su).
Proof.
  unfold resolve_chain. destruct u; simpl; keeps_structure.
Qed.

Lemma resolve_chain_same_llm env new_msg_req u su :
  keeps (same_on llm) (resolve_chain env new_msg_req u su).
Proof. unfold resolve_chain. destruct u; simpl; keeps_structure. Qed.

Lemma resolve_chain_same_answer env new_msg_req u su :
  keeps (same_on answer) (resolve_chain env new_msg_req u su).
Proof. unfold resolve_chain. destruct u; simpl; keeps_structure. Qed.

Lemma load_files_same_stream env new_msg_req ch :
  keeps (same_on stream) (load_files env new_msg_req ch).
Proof. unfold load_files. keeps_structure. Qed.

Lemma load_files_same_llm env new_msg_req ch :
  keeps (same_on llm) (load_files env new_msg_req ch).
Proof. unfold load_files. keeps_structure. Qed.

Lemma load_files_same_answer env new_msg_req ch :
  keeps (same_on answer) (load_files env new_msg_req ch).
Proof. unfold load_files. keeps_structure. Qed.

Lemma build_answer_same_db env su ch fl sel pc tv :
  keeps (same_on db_session) (build_answer env su ch fl sel pc tv).
Proof. unfold build_answer. keeps_structure. Qed.

Lemma build_answer_same_stream env su ch fl sel pc tv :
  keeps (same_on stream) (build_answer env su ch fl sel pc tv).
Proof. unfold build_answer. keeps_structure. Qed.

Lemma build_answer_same_llm env su ch fl sel pc tv :
  keeps (same_on llm) (build_answer env su ch fl sel pc tv).
Proof. unfold build_answer. keeps_structure. Qed.

Lemma handle_packet_same_db env new_msg_req sel v packet :
  keeps (same_on db_session) (handle_packet env new_msg_req sel v packet).
Proof. unfold handle_packet. keeps_structure. Qed.

Lemma handle_packet_same_llm env new_msg_req sel v packet :
  keeps (same_on llm) (handle_packet env new_msg_req sel v packet).
Proof. unfold handle_packet. keeps_structure. Qed.

Lemma handle_packet_same_answer env new_msg_req sel v packet :
  keeps (same_on answer) (handle_packet env new_msg_req sel v packet).
Proof. unfold handle_packet. keeps_structure. Qed.

Lemma handle_packet_extends env new_msg_req sel v packet :
  keeps (extends_stream generation_packet)
        (handle_packet env new_msg_req sel v packet).
Proof.
  unfold handle_packet. keeps_structure; apply yield_extends; exact I.
Qed.

Lemma event_loop_same_db env new_msg_req sel run :
  keeps (same_on db_session) (event_loop env new_msg_req sel run).
Proof.
  unfold event_loop. keeps_structure. apply handle_packet_same_db.
Qed.

Lemma event_loop_same_llm env new_msg_req sel run :
  keeps (same_on llm) (event_loop env new_msg_req sel run).
Proof.
  unfold event_loop. keeps_structure. apply handle_packet_same_llm.
Qed.

Lemma event_loop_same_answer env new_msg_req sel run :
  keeps (same_on answer) (event_loop env new_msg_req sel run).
Proof.
  unfold event_loop. keeps_structure. apply handle_packet_same_answer.
Qed.

Lemma event_loop_extends env new_msg_req sel run :
  keeps (extends_stream generation_packet) (event_loop env new_msg_req sel run).
Proof.
  unfold event_loop. keeps_structure. apply handle_packet_extends.
Qed.

(** ** Running a stage: case analysis on every call it makes *)

Ltac crunch H :=
  repeat (cbn beta iota zeta in H;
          match type of H with
          | context [match ?x with _ => _ end] =>
              lazymatch x with
              | context [match _ with _ => _ end] => fail
              | _ => destruct x eqn:?
              end
          end; try discriminate H).

Lemma bind_eq {A B : Type} (c : Gen A) (k : A -> Gen B) f :
  bind c k f = match c f with
               | (Ok a, f') => k a f'
               | (Raise e, f') => (Raise e, f')
               end.
Proof. reflexivity. Qed.

Lemma keeps_run {A : Type} (R : Frame -> Frame -> Prop) (c : Gen A) f r f' :
  keeps R c -> c f = (r, f') -> R f f'.
Proof. intros K H. specialize (K f). rewrite H in K. exact K. Qed.

(** ** The sort of the prompts *)





(** ** The stage of lines 133-205 *)

Lemma setup_binds_llm env new_msg_req user h f su f1 :
  setup env new_msg_req user h f = (Ok su, f1) ->
  f1 = {| db_session := db_session f; stream := stream f;
          llm := Some (su_llm su); answer := answer f |}.
Proof.
  intros H. unfold setup, bind, call, ret, raise, assign_llm in H.
  crunch H; inversion H; reflexivity.
Qed.


(** ** The handler of the generation phase *)

Lemma classify_error_bound error_msg f l :
  llm f = Some l -> exists m, classify_error error_msg f = (Ok m, f).
Proof.
  intros Hl. unfold classify_error, bind, read_llm, ret.
  destruct (PyStr.contains ILLEGAL_BEARER error_msg);
    [rewrite Hl; eexists; reflexivity |].
  destruct (PyStr.contains INVALID_HEADER error_msg);
    [rewrite Hl; eexists; reflexivity |].
  rewrite Hl. destruct (key_in_message l error_msg); eexists; reflexivity.
Qed.

Lemma classify_error_unbound error_msg f :
  llm f = None ->
  classify_error error_msg f = (Raise (UnboundLocalError "llm"), f).
Proof.
  intros Hl. unfold classify_error, bind, read_llm, ret.
  destruct (PyStr.contains ILLEGAL_BEARER error_msg); [rewrite Hl; reflexivity |].
  destruct (PyStr.contains INVALID_HEADER error_msg); rewrite Hl; reflexivity.
Qed.

(** With [llm] bound the handler yields one [StreamingError] and rolls
    the session back. *)
Lemma on_generation_error_bound e f l :
  llm f = Some l ->
  exists m,
    on_generation_error e f =
    (Ok tt, {| db_session := rollback (db_session f);
               stream := stream f ++ [StreamingError m];
               llm := llm f; answer := answer f |}).
Proof.
  intros Hl. destruct (classify_error_bound (str e) f l Hl) as [m Hm].
  exists m. unfold on_generation_error. rewrite bind_eq, Hm. reflexivity.
Qed.

(** With [llm] unbound the handler raises before it yields. *)
Lemma on_generation_error_unbound e f :
  llm f = None ->
  on_generation_error e f = (Raise (UnboundLocalError "llm"), f).
Proof.
  intros Hl. unfold on_generation_error.
  rewrite bind_eq, (classify_error_unbound _ _ Hl). reflexivity.
Qed.

(** A failure of the generation phase after [llm] is bound: one
    [StreamingError] closes the stream and the session is rolled back. *)
Lemma generation_failure_reported env new_msg_req user db d m u h e f l :
  generation env new_msg_req user d m u h (initial_frame db) = (Raise e, f) ->
  llm f = Some l ->
  exists msg,
    stream_chat_message_objects env new_msg_req user db d m u h =
    {| ending := GenerationFailed e;
       frame := {| db_session := rollback (db_session f);
                   stream := stream f ++ [StreamingError msg];
                   llm := llm f; answer := answer f |} |}.
Proof.
  intros Hg Hl. destruct (on_generation_error_bound e f l Hl) as [msg Hmsg].
  exists msg. unfold stream_chat_message_objects. rewrite Hg, Hmsg. reflexivity.
Qed.

(** A failure of the generation phase before [llm] is bound reaches the
    caller as the [UnboundLocalError] of the handler. *)
Lemma generation_failure_escapes env new_msg_req user db d m u h e f :
  generation env new_msg_req user d m u h (initial_frame db) = (Raise e, f) ->
  llm f = None ->
  stream_chat_message_objects env new_msg_req user db d m u h =
  {| ending := Escaped (UnboundLocalError "llm") e; frame := f |}.
Proof.
  intros Hg Hl. unfold stream_chat_message_objects.
  rewrite Hg, (on_generation_error_unbound e f Hl). reflexivity.
Qed.

(** ** The stages after the files are loaded *)

#[local] Hint Resolve same_on_preorder extends_stream_preorder
  keeps_select_documents keeps_configure_tool
  build_answer_same_db build_answer_same_stream build_answer_same_llm
  event_loop_same_db event_loop_same_llm event_loop_same_answer
  : frame.

Lemma answer_turn_same_db env new_msg_req d m h su ch fl :
  keeps (same_on db_session) (answer_turn env new_msg_req d m h su ch fl).
Proof. unfold answer_turn. keeps_structure. Qed.

Lemma answer_turn_same_llm env new_msg_req d m h su ch fl :
  keeps (same_on llm) (answer_turn env new_msg_req d m h su ch fl).
Proof. unfold answer_turn. keeps_structure. Qed.

#[local] Hint Resolve resolve_chain_same_llm load_files_same_llm
  answer_turn_same_llm : frame.

Lemma after_setup_same_llm env new_msg_req d m u h su :
  keeps (same_on llm) (after_setup env new_msg_req d m u h su).
Proof. unfold after_setup. keeps_structure. Qed.

(** A stage that leaves the stream alone extends it by nothing. *)
Lemma same_stream_extends {A : Type} (P : ChatPacket -> Prop) (c : Gen A) :
  keeps (same_on stream) c -> keeps (extends_stream P) c.
Proof.
  intros K f. specialize (K f). unfold same_on in K.
  exists []. rewrite K, app_nil_r. split; [reflexivity | constructor].
Qed.

Lemma setup_extends P env new_msg_req user h :
  keeps (extends_stream P) (setup env new_msg_req user h).
Proof. apply same_stream_extends, setup_same_stream. Qed.

Lemma resolve_chain_extends P env new_msg_req u su :
  keeps (extends_stream P) (resolve_chain env new_msg_req u su).
Proof. apply same_stream_extends, resolve_chain_same_stream. Qed.

Lemma load_files_extends P env new_msg_req ch :
  keeps (extends_stream P) (load_files env new_msg_req ch).
Proof. apply same_stream_extends, load_files_same_stream. Qed.

Lemma build_answer_extends P env su ch fl sel pc tv :
  keeps (extends_stream P) (build_answer env su ch fl sel pc tv).
Proof. apply same_stream_extends, build_answer_same_stream. Qed.

#[local] Hint Resolve setup_extends resolve_chain_extends load_files_extends
  build_answer_extends event_loop_extends : frame.

Lemma generation_extends env new_msg_req user d m u h :
  keeps (extends_stream generation_packet)
        (generation env new_msg_req user d m u h).
Proof. unfold generation, after_setup, answer_turn. keeps_structure. Qed.

(** ** The chain check of lines 207-245 *)

(** The new message is staged, found off the mainline, and discarded. *)
Lemma resolve_chain_off_mainline env new_msg_req su f tokens fm hist :
  encode (su_tokenizer su) (message new_msg_req) = Ok tokens ->
  db_fault env (CreateMessageCall USER) = None ->
  let staged := create_new_chat_message (prompt_of env)
                  (user_message_args new_msg_req su (length tokens))
                  (db_session f) in
  create_chat_chain env (session_id (su_chat_session su))
    (visible (snd staged)) = Ok (fm, hist) ->
  msg_id fm <> msg_id (fst staged) ->
  resolve_chain env new_msg_req false su f =
  (Raise (RuntimeError NOT_ON_MAINLINE),
   with_session (rollback (snd staged)) f).
Proof.
  intros Htok Hfault staged Hchain Hneq. subst staged.
  unfold resolve_chain, bind, call, session_call, chat_chain, do_rollback, raise.
  change (negb false) with true. cbv beta iota.
  rewrite Htok, Hfault.
  destruct (create_new_chat_message _ _ _) as [um s'].
  simpl in *. rewrite Hchain.
  apply Z.eqb_neq in Hneq. rewrite Hneq. reflexivity.
Qed.

(** The regeneration flow stages nothing; it fails unless the leaf is a
    user message. *)
Lemma resolve_chain_existing env new_msg_req su f r f' :
  resolve_chain env new_msg_req true su f = (r, f') ->
  f' = f /\
  match r with
  | Ok ch => user_message ch = None
             /\ msg_message_type (final_msg ch) = USER
  | Raise _ => True
  end.
Proof.
  intros H. unfold resolve_chain, bind, chat_chain, ret, raise in H. simpl in H.
  crunch H; inversion H; subst; simpl; repeat split; trivial.
  destruct (msg_message_type c); simpl in *; try discriminate; reflexivity.
Qed.

Lemma resolve_chain_leaf_not_user env new_msg_req su f fm hist :
  create_chat_chain env (session_id (su_chat_session su))
    (visible (db_session f)) = Ok (fm, hist) ->
  msg_message_type fm <> USER ->
  resolve_chain env new_msg_req true su f =
  (Raise (RuntimeError NOT_A_USER_MESSAGE), f).
Proof.
  intros Hchain Hneq. unfold resolve_chain, bind, chat_chain. simpl.
  rewrite Hchain.
  destruct (msg_message_type fm); simpl; try reflexivity. contradiction.
Qed.

Lemma load_files_without_user_message env new_msg_req ch :
  user_message ch = None ->
  keeps (same_on db_session) (load_files env new_msg_req ch).
Proof. intros Hu. unfold load_files. rewrite Hu. keeps_structure. Qed.

(** In the regeneration flow the generation phase leaves the session as
    it found it. *)
Lemma regeneration_leaves_session env new_msg_req user d m h f r f' :
  generation env new_msg_req user d m true h f = (r, f') ->
  db_session f' = db_session f.
Proof.
  unfold generation, after_setup. rewrite bind_eq.
  destruct (setup env new_msg_req user h f) as [[su | e] f1] eqn:Hs;
    pose proof (keeps_run _ _ _ _ _ (setup_same_db env new_msg_req user h) Hs) as K1;
    unfold same_on in K1.
  2: { intros H. inversion H; subst. exact K1. }
  rewrite bind_eq.
  destruct (resolve_chain env new_msg_req true su f1) as [[ch | e] f2] eqn:Hc;
    apply resolve_chain_existing in Hc; destruct Hc as [-> Hc].
  2: { intros H. inversion H; subst. exact K1. }
  destruct Hc as [Hu _]. rewrite bind_eq.
  destruct (load_files env new_msg_req ch f1) as [[fl | e] f3] eqn:Hf;
    pose proof (keeps_run _ _ _ _ _
                  (load_files_without_user_message env new_msg_req ch Hu) Hf) as K3;
    unfold same_on in K3.
  2: { intros H. inversion H; subst. congruence. }
  intros H.
  pose proof (keeps_run _ _ _ _ _
                (answer_turn_same_db env new_msg_req d m h su ch fl) H) as K4.
  unfold same_on in K4. congruence.
Qed.

(** ** The session *)

Lemma visible_commit s : visible (commit s) = visible s.
Proof. unfold visible, commit. simpl. apply app_nil_r. Qed.

Lemma visible_add x s : visible (add x s) = visible s ++ [x].
Proof. unfold visible, add. simpl. apply app_assoc. Qed.

Lemma visible_rollback s x : In x (visible (rollback s)) -> In x (visible s).
Proof.
  unfold visible, rollback. simpl. rewrite app_nil_r. intros H.
  apply in_or_app. left. exact H.
Qed.

(** A row created with [commit=False] is staged, with the type and the
    parent it was given. *)
Lemma create_staged prompt_of a s :
  nm_commit a = false ->
  let x := fst (create_new_chat_message prompt_of a s) in
  create_new_chat_message prompt_of a s = (x, add x s)
  /\ msg_id x = next_id s
  /\ msg_message_type x = nm_message_type a
  /\ msg_parent_message x = Some (msg_id (nm_parent_message a)).
Proof.
  intros Hc. unfold create_new_chat_message. rewrite Hc. simpl.
  repeat split.
Qed.

(** ** The persistence phase *)

(** What the second [try] leaves: on success the assistant row is staged
    and the session committed, and the final packet is yielded; on failure
    nothing is yielded, and the session is as it was, or holds the staged
    assistant row, or is committed. *)
Lemma persistence_runs env new_msg_req g f r f' :
  persistence env new_msg_req g f = (r, f') ->
  llm f' = llm f /\ answer f' = answer f /\
  match r with
  | Ok _ =>
      exists tokens cits calls detail,
        db_session f' =
        commit (snd (create_new_chat_message (prompt_of env)
                       (assistant_message_args new_msg_req g tokens cits calls)
                       (db_session f)))
        /\ stream f' = stream f ++ [MessageDetail detail]
  | Raise _ =>
      stream f' = stream f
      /\ (db_session f' = db_session f
          \/ exists tokens cits calls,
               let s := snd (create_new_chat_message (prompt_of env)
                               (assistant_message_args new_msg_req g tokens cits calls)
                               (db_session f)) in
               db_session f' = s \/ db_session f' = commit s)
  end.
Proof.
  intros H.
  unfold persistence, bind, call, session_call, ret, yield, with_session in H.
  crunch H; inversion H; subst; clear H;
    cbn [db_session stream llm answer];
    repeat split; trivial;
    try (left; reflexivity);
    try (do 4 eexists; split;
         [match goal with
          | E : create_new_chat_message _ _ _ = _ |- _ => rewrite E
          end; reflexivity | reflexivity]);
    try (right; do 3 eexists; cbv zeta;
         match goal with
         | E : create_new_chat_message _ _ _ = _ |- _ => rewrite E
         end; cbn [snd]; first [left; reflexivity | right; reflexivity]).
Qed.

(** The rows visible once the assistant row is staged, or staged and
    committed, are the rows visible before and one [ASSISTANT] row. *)
Lemma staged_assistant_visible env new_msg_req g tokens cits calls s x :
  let s' := snd (create_new_chat_message (prompt_of env)
                   (assistant_message_args new_msg_req g tokens cits calls) s) in
  In x (visible s') \/ In x (visible (commit s')) ->
  In x (visible s) \/ msg_message_type x = ASSISTANT.
Proof.
  intros s' H.
  destruct (create_staged (prompt_of env)
              (assistant_message_args new_msg_req g tokens cits calls) s eq_refl)
    as (E & _ & T & _).
  subst s'. rewrite E in H. cbn [snd] in H.
  rewrite visible_commit, visible_add in H.
  assert (H' : In x (visible s ++
                 [fst (create_new_chat_message (prompt_of env)
                         (assistant_message_args new_msg_req g tokens cits calls) s)]))
    by (destruct H; assumption).
  apply in_app_or in H'. destruct H' as [H' | [H' | []]].
  - left. exact H'.
  - right. subst x. exact T.
Qed.

(** ** The stages of a generation phase that completes *)

Lemma answer_turn_result env new_msg_req d m h su ch fl f g f' :
  answer_turn env new_msg_req d m h su ch fl f = (Ok g, f') ->
  g_setup g = su /\ g_chain g = ch.
Proof.
  intros H. unfold answer_turn, bind, ret, call in H.
  crunch H. inversion H. split; reflexivity.
Qed.

Lemma generation_stages env new_msg_req user d m u h f g f' :
  generation env new_msg_req user d m u h f = (Ok g, f') ->
  exists f1 f2 f3 fl,
    setup env new_msg_req user h f = (Ok (g_setup g), f1)
    /\ resolve_chain env new_msg_req u (g_setup g) f1 = (Ok (g_chain g), f2)
    /\ load_files env new_msg_req (g_chain g) f2 = (Ok fl, f3)
    /\ answer_turn env new_msg_req d m h (g_setup g) (g_chain g) fl f3 = (Ok g, f').
Proof.
  unfold generation, after_setup. rewrite bind_eq.
  destruct (setup env new_msg_req user h f) as [[su | e] f1] eqn:Hs;
    [| discriminate].
  rewrite bind_eq.
  destruct (resolve_chain env new_msg_req u su f1) as [[ch | e] f2] eqn:Hc;
    [| discriminate].
  rewrite bind_eq.
  destruct (load_files env new_msg_req ch f2) as [[fl | e] f3] eqn:Hf;
    [| discriminate].
  intros H. destruct (answer_turn_result _ _ _ _ _ _ _ _ _ _ _ H) as [<- <-].
  exists f1, f2, f3, fl. repeat split; assumption.
Qed.

(** The insert of lines 211-221, when the chain check passes. *)
Lemma resolve_chain_staged env new_msg_req su f ch f' :
  resolve_chain env new_msg_req false su f = (Ok ch, f') ->
  exists tokens,
    let staged := create_new_chat_message (prompt_of env)
                    (user_message_args new_msg_req su tokens) (db_session f) in
    f' = with_session (snd staged) f
    /\ user_message ch = Some (fst staged)
    /\ msg_id (final_msg ch) = msg_id (fst staged).
Proof.
  intros H.
  unfold resolve_chain, bind, call, session_call, chat_chain, do_rollback,
    raise, ret in H.
  change (negb false) with true in H. cbv beta iota in H.
  destruct (encode (su_tokenizer su) (message new_msg_req)) as [tokens | e];
    [| discriminate].
  exists (length tokens). cbv zeta.
  destruct (db_fault env (CreateMessageCall USER)); [discriminate |].
  destruct (create_new_chat_message _ _ _) as [um s'].
  cbn [db_session with_session] in H.
  destruct (create_chat_chain _ _ _) as [[fm hist] | e]; [| discriminate].
  destruct (msg_id fm =? msg_id um)%Z eqn:E; simpl in H; [| discriminate].
  inversion H; subst. cbn [fst snd user_message final_msg].
  repeat split. apply Z.eqb_eq. exact E.
Qed.

(** The attachment of lines 265-273. *)
Lemma load_files_attaches env new_msg_req ch um f fl f' :
  user_message ch = Some um ->
  load_files env new_msg_req ch f = (Ok fl, f') ->
  db_session f' =
  attach_files_to_chat_message um
    (map to_file_descriptor (fl_latest_query_files fl)) false (db_session f).
Proof.
  intros Hu H. unfold load_files, bind, call, session_call, ret in H.
  rewrite Hu in H. crunch H. inversion H; subst. reflexivity.
Qed.

(** Attaching files to a staged row whose identifier no committed row
    has leaves the committed rows alone. *)
Lemma attach_to_fresh_row um fs s :
  (forall x, In x (committed s) -> msg_id x <> msg_id um) ->
  committed (attach_files_to_chat_message um fs false s) = committed s.
Proof.
  intros Hfresh. unfold attach_files_to_chat_message. cbn [committed].
  induction (committed s) as [| x rest IH]; [reflexivity |].
  simpl. rewrite IH by (intros y Hy; apply Hfresh; right; exact Hy).
  destruct (msg_id x =? msg_id um)%Z eqn:E; [| reflexivity].
  apply Z.eqb_eq in E. exfalso. apply (Hfresh x); [left; reflexivity | exact E].
Qed.

(** ** The order of documents and relevance packets *)

#[local] Instance keeps_docs_order_preorder : PreOrder keeps_docs_order.
Proof.
  split.
  - intros f H. exact H.
  - intros a b c Hab Hbc H. apply Hbc, Hab, H.
Qed.

Lemma relevance_follows_docs_app seen l1 l2 :
  relevance_follows_docs seen (l1 ++ l2) =
  relevance_follows_docs seen l1
  && relevance_follows_docs (seen || existsb is_docs_packet l1) l2.
Proof.
  revert seen. induction l1 as [| p rest IH]; intros seen; simpl.
  - rewrite orb_false_r. reflexivity.
  - destruct p; simpl; rewrite IH; try reflexivity.
    + rewrite orb_true_r. reflexivity.
    + rewrite andb_assoc. reflexivity.
Qed.

Lemma relevance_follows_docs_seen l :
  relevance_follows_docs false l = true -> relevance_follows_docs true l = true.
Proof.
  induction l as [| p rest IH]; simpl; [reflexivity |].
  destruct p; simpl; auto. discriminate.
Qed.

Lemma same_stream_keeps_docs_order {A : Type} (c : Gen A) :
  keeps (same_on stream) c -> keeps keeps_docs_order c.
Proof.
  intros K f H. specialize (K f). unfold same_on in K. rewrite K. exact H.
Qed.

Lemma map_calls_frame {A B : Type} (g : A -> res B) (xs : list A) f r f' :
  map_calls g xs f = (r, f') -> f' = f.
Proof.
  intros H. symmetry.
  exact (keeps_run eq _ _ _ _ (keeps_map_calls eq g xs) H).
Qed.

Lemma handle_packet_invariant env new_msg_req sel v packet f r f' :
  handle_packet env new_msg_req sel v packet f = (r, f') ->
  loop_invariant v f ->
  relevance_follows_docs false (stream f') = true
  /\ (forall v', r = Ok v' -> loop_invariant v' f').
Proof.
  intros H [Hord Hdocs]. unfold loop_invariant.
  destruct packet as [[summary | sections | imgs | response | summary | other] | p];
    unfold handle_packet, bind, call, yield, ret in H.
  - crunch H; inversion H; subst; clear H; cbn [stream];
      try (split; [exact Hord | intros ? ?; discriminate]).
    all: rewrite relevance_follows_docs_app, existsb_app, Hord; simpl.
    all: split; [reflexivity |]; intros v' Hv'; inversion Hv'; subst.
    all: split; [reflexivity | intros _; apply orb_true_r].
  - destruct (reference_db_search_docs v) as [reference_docs |] eqn:Hrefs.
    2: { inversion H; subst. split; [exact Hord |].
         intros v' Hv'. inversion Hv'; subst. rewrite Hrefs.
         split; [exact Hord | discriminate]. }
    specialize (Hdocs eq_refl).
    destruct (map_calls _ reference_docs f) as [[docs | e] f1] eqn:Hm;
      apply map_calls_frame in Hm; subst f1.
    2: { inversion H; subst. split; [exact Hord | intros ? ?; discriminate]. }
    crunch H; inversion H; subst; clear H; cbn [stream];
      try (split; [exact Hord | intros ? ?; discriminate]).
    all: rewrite relevance_follows_docs_app, existsb_app, Hord, Hdocs; simpl.
    all: split; [reflexivity |]; intros v' Hv'; inversion Hv'; subst.
    all: rewrite Hrefs; split; [reflexivity | intros _; reflexivity].
  - crunch H; inversion H; subst; clear H; cbn [stream];
      try (split; [exact Hord | intros ? ?; discriminate]).
    all: rewrite relevance_follows_docs_app, existsb_app, Hord; simpl.
    all: split; [reflexivity |]; intros v' Hv'; inversion Hv'; subst.
    all: cbn [reference_db_search_docs]; split; [reflexivity |].
    all: intros Hs; rewrite (Hdocs Hs); reflexivity.
  - crunch H; inversion H; subst; clear H; cbn [stream];
      try (split; [exact Hord | intros ? ?; discriminate]).
    all: rewrite relevance_follows_docs_app, existsb_app, Hord; simpl.
    all: split; [reflexivity |]; intros v' Hv'; inversion Hv'; subst.
    all: split; [reflexivity | intros _; apply orb_true_r].
  - inversion H; subst; clear H. cbn [stream].
    rewrite relevance_follows_docs_app, existsb_app, Hord. simpl.
    split; [reflexivity |]. intros v' Hv'. inversion Hv'; subst.
    split; [reflexivity |]. intros Hs. rewrite (Hdocs Hs). reflexivity.
  - inversion H; subst; clear H.
    split; [exact Hord |]. intros v' Hv'. inversion Hv'; subst.
    split; assumption.
  - inversion H; subst; clear H. cbn [stream].
    rewrite relevance_follows_docs_app, existsb_app, Hord. simpl.
    split; [reflexivity |]. intros v' Hv'. inversion Hv'; subst.
    split; [reflexivity |]. intros Hs. rewrite Hdocs; [reflexivity |].
    destruct p; exact Hs.
Qed.

Lemma for_each_invariant env new_msg_req sel evs v f r f' :
  for_each (handle_packet env new_msg_req sel) evs v f = (r, f') ->
  loop_invariant v f ->
  relevance_follows_docs false (stream f') = true
  /\ (forall v', r = Ok v' -> loop_invariant v' f').
Proof.
  revert v f. induction evs as [| ev rest IH]; intros v f H Hinv; simpl in H.
  - inversion H; subst. split; [apply Hinv |].
    intros v' Hv'. inversion Hv'; subst. exact Hinv.
  - rewrite bind_eq in H.
    destruct (handle_packet env new_msg_req sel v ev f) as [[v1 | e] f1] eqn:Hh;
      destruct (handle_packet_invariant _ _ _ _ _ _ _ _ Hh Hinv) as [Hord Hnext].
    + apply (IH v1 f1 H). apply Hnext. reflexivity.
    + inversion H; subst. split; [exact Hord | intros ? ?; discriminate].
Qed.

Lemma event_loop_keeps_docs_order env new_msg_req sel run :
  keeps keeps_docs_order (event_loop env new_msg_req sel run).
Proof.
  intros f Hord.
  destruct (event_loop env new_msg_req sel run f) as [r f'] eqn:H. simpl.
  unfold event_loop in H. rewrite bind_eq in H.
  destruct (for_each _ (events run) initial_loop_vars f) as [[v | e] f1] eqn:Hf;
    destruct (for_each_invariant _ _ _ _ _ _ _ _ Hf) as [Hord1 _];
    try (split; [exact Hord | discriminate]).
  - destruct (failure run); inversion H; subst; exact Hord1.
  - inversion H; subst. exact Hord1.
Qed.

#[local] Hint Resolve keeps_docs_order_preorder same_stream_keeps_docs_order
  setup_same_stream resolve_chain_same_stream load_files_same_stream
  event_loop_keeps_docs_order : frame.

Lemma generation_keeps_docs_order env new_msg_req user d m u h :
  keeps keeps_docs_order (generation env new_msg_req user d m u h).
Proof. unfold generation, after_setup, answer_turn. keeps_structure. Qed.

(** The stream of a turn: the packets of the generation phase, then at
    most one closing packet. *)
Lemma turn_packets env new_msg_req user db d m u h :
  exists r f1 tail,
    generation env new_msg_req user d m u h (initial_frame db) = (r, f1)
    /\ packets (stream_chat_message_objects env new_msg_req user db d m u h)
       = stream f1 ++ tail
    /\ (tail = []
        \/ (exists msg, tail = [StreamingError msg])
        \/ (exists detail, tail = [MessageDetail detail])).
Proof.
  unfold packets, stream_chat_message_objects.
  destruct (generation env new_msg_req user d m u h (initial_frame db))
    as [[g | e] f1] eqn:Hg.
  - destruct (persistence env new_msg_req g f1) as [[[] | e] f2] eqn:Hp;
      apply persistence_runs in Hp; destruct Hp as (_ & _ & Hp).
    + destruct Hp as (tokens & cits & calls & detail & _ & Hs).
      exists (Ok g), f1, [MessageDetail detail].
      repeat split; [exact Hs | right; right; eexists; reflexivity].
    + destruct Hp as (Hs & _).
      exists (Ok g), f1, [StreamingError FAILED_TO_PARSE].
      repeat split; [simpl; rewrite Hs; reflexivity
                    | right; left; eexists; reflexivity].
  - destruct (llm f1) as [l |] eqn:Hl.
    + destruct (on_generation_error_bound e f1 l Hl) as [msg Hmsg].
      rewrite Hmsg. exists (Raise e), f1, [StreamingError msg].
      repeat split. right; left; eexists; reflexivity.
    + rewrite (on_generation_error_unbound e f1 Hl).
      exists (Raise e), f1, []. repeat split.
      * simpl. symmetry. apply app_nil_r.
      * left. reflexivity.
Qed.

(** ** Numbers *)

(** [int(x)] of an integral float is that integer. *)
Lemma py_int_of_integer z : py_int (inject_Z z) = z.
Proof. unfold py_int, inject_Z. simpl. apply Z.quot_1_r. Qed.

(** ** The [Answer] of a turn *)

Lemma build_answer_result env su ch fl sel pc tv f r f' :
  build_answer env su ch fl sel pc tv f = (r, f') ->
  match r with
  | Ok a =>
      answer f' = Some a
      /\ prompt_config a = pc
      /\ all_docs_useful a = is_some (selected_db_search_docs sel)
      /\ answer_tools a = concat (dict_values (tool_dict tv))
      /\ answer_llm a = su_llm su
      /\ exists tokens supported,
           document_pruning_config a =
           set_tool_accounting tokens supported (pruning_config sel)
  | Raise _ => answer f' = answer f
  end.
Proof.
  intros H. unfold build_answer, bind, call, assign_answer, ret in H.
  crunch H; inversion H; subst; clear H; cbn [answer]; try reflexivity.
  repeat split. do 2 eexists. reflexivity.
Qed.


(** The [Answer] in the frame of the turn is the one the generation
    phase left. *)
Lemma turn_answer env new_msg_req user db d m u h :
  exists r f1,
    generation env new_msg_req user d m u h (initial_frame db) = (r, f1)
    /\ answer (frame (stream_chat_message_objects env new_msg_req user db d m u h))
       = answer f1.
Proof.
  unfold stream_chat_message_objects.
  destruct (generation env new_msg_req user d m u h (initial_frame db))
    as [[g | e] f1] eqn:Hg.
  - exists (Ok g), f1. split; [reflexivity |].
    destruct (persistence env new_msg_req g f1) as [[[] | e] f2] eqn:Hp;
      apply persistence_runs in Hp; destruct Hp as (_ & Ha & _); exact Ha.
  - exists (Raise e), f1. split; [reflexivity |].
    destruct (llm f1) as [l |] eqn:Hl.
    + destruct (on_generation_error_bound e f1 l Hl) as [msg Hmsg].
      rewrite Hmsg. reflexivity.
    + rewrite (on_generation_error_unbound e f1 Hl). reflexivity.
Qed.

(** An [Answer] is built only when every stage before it has succeeded. *)
Lemma answer_built env new_msg_req user db d m u h a :
  answer (frame (stream_chat_message_objects env new_msg_req user db d m u h))
  = Some a ->
  exists su f1 ch f2 fl f3 sel f4 pc tv f5 f6,
    setup env new_msg_req user h (initial_frame db) = (Ok su, f1)
    /\ resolve_chain env new_msg_req u su f1 = (Ok ch, f2)
    /\ load_files env new_msg_req ch f2 = (Ok fl, f3)
    /\ select_documents env new_msg_req su d m f3 = (Ok sel, f4)
    /\ build_prompt_config (fl_request fl) (su_chat_session su) (su_persona su)
         (final_msg ch) = Ok pc
    /\ for_each (configure_tool env (fl_request fl) su fl sel pc h)
         (tools (su_persona su)) {| search_tool := None; tool_dict := [] |} f4
       = (Ok tv, f5)
    /\ build_answer env su ch fl sel pc tv f5 = (Ok a, f6).
Proof.
  intros Ha.
  destruct (turn_answer env new_msg_req user db d m u h) as (r & f & Hg & Hf).
  rewrite Hf in Ha. clear Hf.
  unfold generation, after_setup, answer_turn in Hg.
  rewrite bind_eq in Hg.
  destruct (setup env new_msg_req user h (initial_frame db))
    as [[su | e] f1] eqn:Hs;
    pose proof (keeps_run _ _ _ _ _ (setup_same_answer env new_msg_req user h) Hs)
      as K1; unfold same_on in K1; simpl in K1.
  2: { inversion Hg; subst. congruence. }
  rewrite bind_eq in Hg.
  destruct (resolve_chain env new_msg_req u su f1) as [[ch | e] f2] eqn:Hc;
    pose proof (keeps_run _ _ _ _ _
                  (resolve_chain_same_answer env new_msg_req u su) Hc) as K2;
    unfold same_on in K2.
  2: { inversion Hg; subst. congruence. }
  rewrite bind_eq in Hg.
  destruct (load_files env new_msg_req ch f2) as [[fl | e] f3] eqn:Hl;
    pose proof (keeps_run _ _ _ _ _
                  (load_files_same_answer env new_msg_req ch) Hl) as K3;
    unfold same_on in K3.
  2: { inversion Hg; subst. congruence. }
  rewrite bind_eq in Hg.
  destruct (select_documents env new_msg_req su d m f3) as [[sel | e] f4] eqn:Hsel;
    pose proof (keeps_run (same_on answer) _ _ _ _
                  (keeps_select_documents _ env new_msg_req su d m) Hsel) as K4;
    unfold same_on in K4.
  2: { inversion Hg; subst. congruence. }
  rewrite bind_eq in Hg. unfold call at 1 in Hg.
  destruct (build_prompt_config (fl_request fl) (su_chat_session su)
              (su_persona su) (final_msg ch)) as [pc | e] eqn:Hpc.
  2: { inversion Hg; subst. congruence. }
  rewrite bind_eq in Hg.
  destruct (for_each (configure_tool env (fl_request fl) su fl sel pc h)
              (tools (su_persona su)) {| search_tool := None; tool_dict := [] |} f4)
    as [[tv | e] f5] eqn:Ht;
    pose proof (keeps_run (same_on answer) _ _ _ _
                  (keeps_for_each _ _ _
                     (fun s x => keeps_configure_tool _ env (fl_request fl)
                                   su fl sel pc h s x) _) Ht) as K5;
    unfold same_on in K5.
  2: { inversion Hg; subst. congruence. }
  rewrite bind_eq in Hg.
  destruct (build_answer env su ch fl sel pc tv f5) as [[a' | e] f6] eqn:Hb;
    pose proof (build_answer_result _ _ _ _ _ _ _ _ _ _ Hb) as K6.
  2: { inversion Hg; subst. congruence. }
  destruct K6 as (K6 & _).
  cbv zeta in Hg. rewrite bind_eq in Hg.
  destruct (event_loop env new_msg_req sel (processed_streamed_output env a') f6)
    as [[v | e] f7] eqn:He;
    pose proof (keeps_run _ _ _ _ _
                  (event_loop_same_answer env new_msg_req sel
                     (processed_streamed_output env a')) He) as K7;
    unfold same_on in K7;
    inversion Hg; subst;
    assert (a' = a) by congruence; subst a';
    exists su, f1, ch, f2, fl, f3, sel, f4, pc, tv, f5, f6;
    repeat split; assumption.
Qed.

(** ** The tool loop *)

Lemma for_each_app {A S : Type} (body : S -> A -> Gen S) xs ys s f :
  for_each body (xs ++ ys) s f =
  match for_each body xs s f with
  | (Ok s1, f1) => for_each body ys s1 f1
  | (Raise e, f1) => (Raise e, f1)
  end.
Proof.
  revert s f. induction xs as [| x rest IH]; intros s f; simpl.
  - reflexivity.
  - rewrite !bind_eq. destruct (body s x f) as [[s1 | e] f1]; [apply IH | reflexivity].
Qed.

(** The iteration of the tool loop on an enabled image-generation tool. *)
Lemma configure_image_tool env new_msg_req su fl sel pc h tv t f :
  PyStr.truthy (in_code_tool_id t) = true ->
  get_built_in_tool_by_id env (tool_id t) = Ok ImageGenerationToolClass ->
  configure_tool env new_msg_req su fl sel pc h tv t f =
  match resolve_image_generation_config env (su_llm su) with
  | Ok cfg =>
      (Ok {| search_tool := search_tool tv;
             tool_dict := dict_set Z.eqb (tool_id t)
                            [ImageGenerationTool (api_key cfg) (api_base cfg)
                               (api_version cfg) h]
                            (tool_dict tv) |}, f)
  | Raise e => (Raise e, f)
  end.
Proof.
  intros Hin Hcls. unfold configure_tool, bind, call, ret. rewrite Hin, Hcls.
  destruct (resolve_image_generation_config env (su_llm su)); reflexivity.
Qed.

(** ** The prompt id of the turn *)










(** * The claims *)

(** ** C1 *)

(** C1, evaluated where it fails.  The claim: every exception of the
    generation phase, from session setup on, ends the stream with exactly
    one [StreamingError], rolls the session back and never reaches the
    caller.  The handler of line 559 reads the local [llm] (lines 565,
    573, 576), which is assigned at line 169 only.  First turn: generative
    AI is switched off, [get_llms_for_persona] raises, line 175 raises the
    [RuntimeError] in its place, and [llm] is not bound.  Second turn: the
    request names neither reference documents nor retrieval options and
    line 164 raises, again before line 169.  In both the handler raises
    [UnboundLocalError]: no packet is yielded, no rollback is issued, and
    the exception reaches the caller. *)
Theorem C1_error_before_llm_is_bound_escapes :
  let disabled := Scenario.turn (Scenario.without_llm Scenario.standard)
                    (Scenario.request "hello" None Scenario.search_options None)
                    Scenario.fresh_store false in
  let unspecified := Scenario.turn Scenario.standard
                       (Scenario.request "hello" None None None)
                       Scenario.fresh_store false in
  (ending disabled = Escaped (UnboundLocalError "llm") (RuntimeError LLM_DISABLED)
   /\ packets disabled = []
   /\ rollbacks (session_after disabled) = rollbacks Scenario.fresh_store)
  /\ (ending unspecified
       = Escaped (UnboundLocalError "llm") (RuntimeError MUST_SPECIFY)
      /\ packets unspecified = []
      /\ rollbacks (session_after unspecified) = rollbacks Scenario.fresh_store).
Proof. vm_compute. repeat split. Qed.

(** ** C2 *)

(** C2 as the spec states it fails in the regeneration flow: the turn
    below completes, and what it commits is one assistant message and no
    user message. *)
Lemma C2_regeneration_commits_no_user_message :
  let o := Scenario.turn Scenario.standard
             (Scenario.request "again" None Scenario.search_options None)
             Scenario.store_ending_in_user true in
  ending o = Completed
  /\ ~ commits_user_and_assistant Scenario.store_ending_in_user (session_after o).
Proof.
  intros o. split; [vm_compute; reflexivity |].
  intros (um & am & H & _).
  apply (f_equal (@length ChatMessage)) in H.
  vm_compute in H. discriminate.
Qed.

(** C2, amended: a turn that inserts a new user message
    ([use_existing_user_message] false) and completes without raising has
    committed exactly one new user message and one new assistant message,
    the assistant's parent being the user message; through the generation
    phase the user message is staged and nothing is committed, and both
    rows are committed by the one [commit] of line 621.  The session is
    taken without staged rows of its own and with identifiers below its
    next one. *)
Theorem C2_completed_turn_commits_both_messages_together
    env new_msg_req user db d m h :
  pending db = [] ->
  (forall x, In x (committed db) -> msg_id x <> next_id db) ->
  let o := stream_chat_message_objects env new_msg_req user db d m false h in
  ending o = Completed ->
  commits_user_and_assistant db (session_after o)
  /\ pending (session_after o) = []
  /\ commits (session_after o) = S (commits db)
  /\ exists g f1 um,
       generation env new_msg_req user d m false h (initial_frame db) = (Ok g, f1)
       /\ committed (db_session f1) = committed db
       /\ pending (db_session f1) = [um]
       /\ msg_message_type um = USER
       /\ commits (db_session f1) = commits db.
Proof.
  intros Hpending Hfresh o Hend. subst o.
  unfold session_after. unfold stream_chat_message_objects in *.
  destruct (generation env new_msg_req user d m false h (initial_frame db))
    as [[g | e] f1] eqn:Hg.
  2: { destruct (on_generation_error e f1) as [[[] | e'] f2]; discriminate. }
  destruct (persistence env new_msg_req g f1) as [[[] | e] f2] eqn:Hp;
    [| discriminate].
  clear Hend. cbn [frame].
  destruct (generation_stages _ _ _ _ _ _ _ _ _ _ Hg)
    as (fa & fb & fc & fl & Hs & Hc & Hl & Ha).
  apply setup_binds_llm in Hs. cbn [initial_frame db_session stream answer] in Hs.
  destruct (resolve_chain_staged _ _ _ _ _ _ Hc) as (tokens & Hfb & Hum & Hleaf).
  cbv zeta in Hfb, Hum, Hleaf.
  destruct (create_staged (prompt_of env)
              (user_message_args new_msg_req (g_setup g) tokens)
              (db_session fa) eq_refl) as (Ecreate & Hid & Htype & _).
  cbv zeta in Ecreate, Hid, Htype.
  set (um := fst (create_new_chat_message (prompt_of env)
                    (user_message_args new_msg_req (g_setup g) tokens)
                    (db_session fa))) in *.
  rewrite Ecreate in Hfb. cbn [snd] in Hfb.
  pose proof (load_files_attaches _ _ _ _ _ _ _ Hum Hl) as Hfc.
  pose proof (keeps_run _ _ _ _ _
                (answer_turn_same_db env new_msg_req d m h
                   (g_setup g) (g_chain g) fl) Ha) as Hf1.
  unfold same_on in Hf1.
  assert (Hdbfa : db_session fa = db) by (subst fa; reflexivity).
  assert (Hdbfb : db_session fb = add um db)
    by (subst fb; rewrite Hdbfa; reflexivity).
  rewrite Hdbfa in Hid. rewrite Hdbfb in Hfc. rewrite Hfc in Hf1.
  set (fs := map to_file_descriptor (fl_latest_query_files fl)) in *.
  assert (Hcommitted : committed (db_session f1) = committed db).
  { rewrite Hf1. rewrite attach_to_fresh_row; [reflexivity |].
    intros x Hx. rewrite Hid. apply Hfresh. exact Hx. }
  assert (Hstaged : pending (db_session f1) = [set_files fs um]).
  { rewrite Hf1. unfold attach_files_to_chat_message, add.
    cbn [pending map]. rewrite Hpending. simpl.
    rewrite Z.eqb_refl. reflexivity. }
  assert (Hcommits : commits (db_session f1) = commits db)
    by (rewrite Hf1; reflexivity).
  apply persistence_runs in Hp.
  destruct Hp as (_ & _ & tokens' & cits & calls & detail & Hf2 & _).
  destruct (create_staged (prompt_of env)
              (assistant_message_args new_msg_req g tokens' cits calls)
              (db_session f1) eq_refl) as (Ecreate' & _ & Htype' & Hparent').
  cbv zeta in Ecreate', Htype', Hparent'.
  set (am := fst (create_new_chat_message (prompt_of env)
                    (assistant_message_args new_msg_req g tokens' cits calls)
                    (db_session f1))) in *.
  rewrite Ecreate' in Hf2. cbn [snd] in Hf2.
  rewrite Hf2. unfold commit, add. cbn [committed pending commits].
  rewrite Hcommitted, Hstaged, Hcommits.
  split; [| split; [reflexivity | split; [reflexivity |]]].
  - exists (set_files fs um), am.
    split; [reflexivity |]. split; [exact Htype |]. split; [exact Htype' |].
    rewrite Hparent'. cbn [assistant_message_args nm_parent_message].
    rewrite Hleaf. reflexivity.
  - exists g, f1, (set_files fs um).
    split; [reflexivity |]. split; [exact Hcommitted |].
    split; [exact Hstaged |]. split; [exact Htype | exact Hcommits].
Qed.

Lemma C2_completed_turn_witness :
  let o := Scenario.turn Scenario.standard
             (Scenario.request "hello" None Scenario.search_options None)
             Scenario.fresh_store false in
  commits_user_and_assistant Scenario.fresh_store (session_after o)
  /\ commits (session_after o) = 1%nat.
Proof.
  intros o.
  destruct (C2_completed_turn_commits_both_messages_together
              Scenario.standard
              (Scenario.request "hello" None Scenario.search_options None)
              None Scenario.fresh_store Scenario.default_num_chunks
              Scenario.max_document_percentage None)
    as (H1 & _ & H2 & _).
  - reflexivity.
  - intros x [<- | []]. vm_compute. discriminate.
  - vm_compute. reflexivity.
  - split; [exact H1 | exact H2].
Defined.

(** ** C3 *)

(** C3: when a new user message is inserted ([use_existing_user_message]
    false) and the message is not the leaf of the chain re-created after
    the insert, the turn fails with the chain-integrity error of line 228
    and the staged insert is rolled back: one [StreamingError] is the whole
    stream, nothing is committed, nothing stays staged, and no [Answer]
    is built. *)
Theorem C3_insert_off_the_mainline_is_rolled_back
    env new_msg_req user db d m h su f1 tokens fm hist :
  setup env new_msg_req user h (initial_frame db) = (Ok su, f1) ->
  encode (su_tokenizer su) (message new_msg_req) = Ok tokens ->
  db_fault env (CreateMessageCall USER) = None ->
  let staged := create_new_chat_message (prompt_of env)
                  (user_message_args new_msg_req su (length tokens)) db in
  create_chat_chain env (session_id (su_chat_session su))
    (visible (snd staged)) = Ok (fm, hist) ->
  msg_id fm <> msg_id (fst staged) ->
  let o := stream_chat_message_objects env new_msg_req user db d m false h in
  ending o = GenerationFailed (RuntimeError NOT_ON_MAINLINE)
  /\ (exists msg, packets o = [StreamingError msg])
  /\ In (fst staged) (pending (snd staged))
  /\ committed (session_after o) = committed db
  /\ pending (session_after o) = []
  /\ commits (session_after o) = commits db
  /\ answer (frame o) = None.
Proof.
  intros Hs Htok Hfault staged Hchain Hneq o.
  pose proof (setup_binds_llm _ _ _ _ _ _ _ Hs) as Hf1. simpl in Hf1.
  assert (Hg : generation env new_msg_req user d m false h (initial_frame db)
               = (Raise (RuntimeError NOT_ON_MAINLINE),
                  with_session (rollback (snd staged)) f1)).
  { unfold generation. rewrite bind_eq, Hs. unfold after_setup.
    rewrite bind_eq.
    rewrite (resolve_chain_off_mainline env new_msg_req su f1 tokens fm hist
               Htok Hfault); subst f1; simpl; auto. }
  destruct (generation_failure_reported _ _ _ _ _ _ _ _ _ _ (su_llm su) Hg)
    as [msg Hmsg]; [subst f1; reflexivity |].
  subst o. rewrite Hmsg. unfold packets, session_after. subst f1. simpl.
  repeat split; try reflexivity.
  - exists msg. reflexivity.
  - subst staged. unfold create_new_chat_message, add. simpl.
    apply in_or_app. right. left. reflexivity.
Qed.

Lemma C3_insert_off_the_mainline_witness :
  let env := Scenario.installation [] Scenario.openai_llm []
               Scenario.branch_is_leaf Scenario.no_fault Scenario.plain_run in
  let o := Scenario.turn env
             (Scenario.request "hello" None Scenario.search_options None)
             Scenario.fresh_store false in
  ending o = GenerationFailed (RuntimeError NOT_ON_MAINLINE)
  /\ (exists msg, packets o = [StreamingError msg])
  /\ committed (session_after o) = committed Scenario.fresh_store
  /\ pending (session_after o) = [].
Proof.
  intros env o.
  destruct (C3_insert_off_the_mainline_is_rolled_back
              env (Scenario.request "hello" None Scenario.search_options None)
              None Scenario.fresh_store Scenario.default_num_chunks
              Scenario.max_document_percentage None
              _ _ (Scenario.one_token_per_character "hello")
              Scenario.root []
              eq_refl eq_refl eq_refl eq_refl)
    as (E & P & _ & C & Q & _).
  - vm_compute. discriminate.
  - repeat split; assumption.
Defined.

(** ** C4 *)

(** C4 as the spec states it fails: here generation completes and the
    commit of line 621 raises.  The stream ends with a [StreamingError]
    whose message is not the one the claim names, and no rollback is
    issued: both rows are still staged when the generator returns. *)
Lemma C4_persistence_failure_message_differs :
  let env := Scenario.installation [] Scenario.openai_llm []
               Scenario.newest_is_leaf Scenario.commit_fails Scenario.plain_run in
  let o := Scenario.turn env
             (Scenario.request "hello" None Scenario.search_options None)
             Scenario.fresh_store false in
  ending o = PersistenceFailed (OtherException "connection lost")
  /\ last_item (packets o) = Some (StreamingError "Failed to parse LLM output")
  /\ last_item (packets o) <> Some (StreamingError "failed to finalize response")
  /\ rollbacks (session_after o) = rollbacks Scenario.fresh_store
  /\ length (pending (session_after o)) = 2%nat.
Proof.
  intros env o. vm_compute.
  repeat split; try reflexivity. discriminate.
Qed.

(** C4, amended: when generation completes and the persistence phase
    raises, the turn emits a [StreamingError] whose message is
    "Failed to parse LLM output" as the last packet of the stream, after
    the packets of the generation phase only: no final message detail
    (and no other error packet) is in the stream. *)
Theorem C4_persistence_failure_ends_the_stream_with_an_error
    env new_msg_req user db d m u h g f1 e f2 :
  generation env new_msg_req user d m u h (initial_frame db) = (Ok g, f1) ->
  persistence env new_msg_req g f1 = (Raise e, f2) ->
  let o := stream_chat_message_objects env new_msg_req user db d m u h in
  ending o = PersistenceFailed e
  /\ packets o = stream f1 ++ [StreamingError FAILED_TO_PARSE]
  /\ Forall generation_packet (stream f1)
  /\ (forall detail, ~ In (MessageDetail detail) (packets o)).
Proof.
  intros Hg Hp o.
  assert (Hpre : Forall generation_packet (stream f1)).
  { destruct (keeps_run _ _ _ _ _
                (generation_extends env new_msg_req user d m u h) Hg)
      as (l & Hl & Fl).
    simpl in Hl. rewrite Hl. exact Fl. }
  pose proof (persistence_runs _ _ _ _ _ _ Hp) as (_ & _ & Hstream & _).
  assert (Hpackets : packets o = stream f1 ++ [StreamingError FAILED_TO_PARSE]).
  { subst o. unfold packets, stream_chat_message_objects.
    rewrite Hg, Hp. simpl. rewrite Hstream. reflexivity. }
  split; [| split; [exact Hpackets | split; [exact Hpre |]]].
  - subst o. unfold stream_chat_message_objects. rewrite Hg, Hp. reflexivity.
  - intros detail Hin. rewrite Hpackets in Hin.
    apply in_app_or in Hin. destruct Hin as [Hin | [Hin | []]].
    + rewrite Forall_forall in Hpre. apply (Hpre _ Hin).
    + discriminate.
Qed.

Lemma C4_persistence_failure_witness :
  let env := Scenario.installation [] Scenario.openai_llm []
               Scenario.newest_is_leaf Scenario.no_fault
               Scenario.unattributed_tool_run in
  let o := Scenario.turn env
             (Scenario.request "hello" None Scenario.search_options None)
             Scenario.fresh_store false in
  ending o = PersistenceFailed (KeyError "not_configured")
  /\ last_item (packets o) = Some (StreamingError FAILED_TO_PARSE).
Proof.
  intros env o.
  destruct (C4_persistence_failure_ends_the_stream_with_an_error
              env (Scenario.request "hello" None Scenario.search_options None)
              None Scenario.fresh_store Scenario.default_num_chunks
              Scenario.max_document_percentage false None
              _ _ (KeyError "not_configured") _ eq_refl eq_refl)
    as (E & P & _).
  split; [exact E |].
  unfold o, Scenario.turn. rewrite P. vm_compute. reflexivity.
Defined.

(** ** C5 *)



(** ** C6 *)

(** C6 as the spec states it fails: the engine below never sends a
    search summary; it sends an internet-search response and then a
    relevance list, and the turn streams an [LLMRelevanceFilterResponse]
    right after the document list of the internet search. *)
Lemma C6_relevance_packet_after_internet_search_only :
  let env := Scenario.installation [Scenario.internet_tool_model]
               Scenario.openai_llm [] Scenario.newest_is_leaf
               Scenario.no_fault Scenario.internet_then_relevance_run in
  let o := Scenario.turn env
             (Scenario.request "hello" None Scenario.search_options None)
             Scenario.fresh_store false in
  existsb is_search_summary (events Scenario.internet_then_relevance_run) = false
  /\ exists rest,
       packets o = QADocsResponse (Scenario.qa_of None [7%Z])
                   :: LLMRelevanceFilterResponse [0%Z] :: rest.
Proof.
  intros env o. split; [reflexivity |].
  eexists. vm_compute. reflexivity.
Qed.

(** C6, amended: an [LLMRelevanceFilterResponse] packet is emitted only
    after a document-list packet ([QADocsResponse]) of the same stream,
    be it the one of an internal search summary or the one of an internet
    search: a relevance event that arrives while
    [reference_db_search_docs] is still [None] emits nothing, and both
    the search-summary and the internet-search event yield their document
    list and set that variable. *)
Theorem C6_relevance_packet_follows_a_document_list
    env new_msg_req user db d m u h :
  relevance_follows_docs false
    (packets (stream_chat_message_objects env new_msg_req user db d m u h)) = true
  /\ (forall sel v sections f,
        reference_db_search_docs v = None ->
        handle_packet env new_msg_req sel v
          (Tool (SECTION_RELEVANCE_LIST sections)) f = (Ok v, f))
  /\ (forall sel v response f qa docs,
        _handle_internet_search_tool_response_summary env response = Ok (qa, docs) ->
        exists v',
          handle_packet env new_msg_req sel v
            (Tool (INTERNET_SEARCH_RESPONSE response)) f
          = (Ok v', snd (yield (QADocsResponse qa) f))
          /\ reference_db_search_docs v' = Some docs)
  /\ (forall sel v summary f qa docs dropped,
        _handle_search_tool_response_summary env summary
          (selected_db_search_docs sel)
          (match retrieval_options new_msg_req with
           | Some options => dedupe_docs options
           | None => false
           end) = Ok (qa, docs, dropped) ->
        exists v',
          handle_packet env new_msg_req sel v
            (Tool (SEARCH_RESPONSE_SUMMARY summary)) f
          = (Ok v', snd (yield (QADocsResponse qa) f))
          /\ reference_db_search_docs v' = Some docs).
Proof.
  split; [| split; [| split]].
  - destruct (turn_packets env new_msg_req user db d m u h)
      as (r & f1 & tail & Hg & Hp & Htail).
    rewrite Hp, relevance_follows_docs_app.
    pose proof (keeps_run _ _ _ _ _
                  (generation_keeps_docs_order env new_msg_req user d m u h) Hg)
      as Hord.
    rewrite (Hord eq_refl). simpl.
    destruct Htail as [-> | [[msg ->] | [detail ->]]]; reflexivity.
  - intros sel v sections f Hnone. unfold handle_packet. rewrite Hnone.
    reflexivity.
  - intros sel v response f qa docs Hh.
    unfold handle_packet, bind, call. rewrite Hh.
    eexists. split; reflexivity.
  - intros sel v summary f qa docs dropped Hh.
    unfold handle_packet, bind, call. rewrite Hh.
    eexists. split; reflexivity.
Qed.

Lemma C6_relevance_packet_follows_a_document_list_witness :
  let env := Scenario.installation [Scenario.internet_tool_model]
               Scenario.openai_llm [] Scenario.newest_is_leaf
               Scenario.no_fault Scenario.internet_then_relevance_run in
  let new_msg_req := Scenario.request "hello" None Scenario.search_options None in
  let sel := {| selected_db_search_docs := None;
                selected_sections := None;
                pruning_config := manual_pruning_config |} in
  let f := initial_frame Scenario.fresh_store in
  relevance_follows_docs false
    (packets (Scenario.turn env new_msg_req Scenario.fresh_store false)) = true
  /\ handle_packet env new_msg_req sel initial_loop_vars
       (Tool (SECTION_RELEVANCE_LIST [true])) f = (Ok initial_loop_vars, f).
Proof.
  intros env new_msg_req sel f.
  destruct (C6_relevance_packet_follows_a_document_list env new_msg_req
              None Scenario.fresh_store Scenario.default_num_chunks
              Scenario.max_document_percentage false None)
    as (Horder & Hsilent & _).
  split; [exact Horder |].
  apply Hsilent. reflexivity.
Defined.

(** ** C7 *)

(** C7: the credential of the image-generation tool.  (1) The config of
    the turn's primary LLM is used when it has an [api_key] and its
    provider is [openai]; (2) otherwise the first configured provider
    whose provider is [openai] is used, when it has an [api_key];
    (3) otherwise, no such provider or none with a key, the resolution
    raises the missing-credential [ValueError].  (4) The tool loop
    installs the tool with the resolved credential, or raises what the
    resolution raises; (5) and when that happens in a turn, the turn ends
    with that error reported, before an [Answer] is built and before any
    packet of the generation phase. *)
Theorem C7_image_generation_credential env :
  (forall primary,
     PyStr.truthy (api_key (config primary)) = true ->
     model_provider (config primary) = "openai" ->
     resolve_image_generation_config env primary = Ok (config primary))
  /\ (forall primary providers p,
        PyStr.truthy (api_key (config primary)) = false
        \/ model_provider (config primary) <> "openai" ->
        fetch_existing_llm_providers env = Ok providers ->
        hd_error (filter (fun q => String.eqb (provider q) "openai") providers)
          = Some p ->
        PyStr.truthy (provider_api_key p) = true ->
        resolve_image_generation_config env primary =
        Ok {| model_provider := provider p;
              model_name := default_model_name p;
              temperature := GEN_AI_TEMPERATURE env;
              api_key := provider_api_key p;
              api_base := provider_api_base p;
              api_version := provider_api_version p |})
  /\ (forall primary providers,
        PyStr.truthy (api_key (config primary)) = false
        \/ model_provider (config primary) <> "openai" ->
        fetch_existing_llm_providers env = Ok providers ->
        match hd_error (filter (fun q => String.eqb (provider q) "openai")
                               providers) with
        | None => True
        | Some p => PyStr.truthy (provider_api_key p) = false
        end ->
        resolve_image_generation_config env primary =
        Raise (ValueError IMAGE_KEY_REQUIRED))
  /\ (forall new_msg_req su fl sel pc h tv t f,
        PyStr.truthy (in_code_tool_id t) = true ->
        get_built_in_tool_by_id env (tool_id t) = Ok ImageGenerationToolClass ->
        configure_tool env new_msg_req su fl sel pc h tv t f =
        match resolve_image_generation_config env (su_llm su) with
        | Ok cfg =>
            (Ok {| search_tool := search_tool tv;
                   tool_dict := dict_set Z.eqb (tool_id t)
                                  [ImageGenerationTool (api_key cfg) (api_base cfg)
                                     (api_version cfg) h]
                                  (tool_dict tv) |}, f)
        | Raise e => (Raise e, f)
        end)
  /\ (forall new_msg_req user db d m u h su f1 ch f2 fl f3 sel f4 pc
             before t after tv f5 e,
        setup env new_msg_req user h (initial_frame db) = (Ok su, f1) ->
        resolve_chain env new_msg_req u su f1 = (Ok ch, f2) ->
        load_files env new_msg_req ch f2 = (Ok fl, f3) ->
        select_documents env new_msg_req su d m f3 = (Ok sel, f4) ->
        build_prompt_config (fl_request fl) (su_chat_session su) (su_persona su)
          (final_msg ch) = Ok pc ->
        tools (su_persona su) = before ++ t :: after ->
        for_each (configure_tool env (fl_request fl) su fl sel pc h) before
          {| search_tool := None; tool_dict := [] |} f4 = (Ok tv, f5) ->
        PyStr.truthy (in_code_tool_id t) = true ->
        get_built_in_tool_by_id env (tool_id t) = Ok ImageGenerationToolClass ->
        resolve_image_generation_config env (su_llm su) = Raise e ->
        let o := stream_chat_message_objects env new_msg_req user db d m u h in
        ending o = GenerationFailed e
        /\ (exists msg, packets o = [StreamingError msg])
        /\ answer (frame o) = None).
Proof.
  split; [| split; [| split; [| split]]].
  - intros primary Hkey Hprov. unfold resolve_image_generation_config.
    rewrite Hkey, Hprov. reflexivity.
  - intros primary providers p Hnot Hfetch Hfirst Hkey.
    unfold resolve_image_generation_config.
    replace (object_truthy primary && PyStr.truthy (api_key (config primary))
             && (model_provider (config primary) =? "openai")%string) with false.
    + rewrite Hfetch, Hfirst, Hkey. reflexivity.
    + symmetry. destruct Hnot as [Hnot | Hnot].
      * rewrite Hnot. reflexivity.
      * apply String.eqb_neq in Hnot. rewrite Hnot. apply andb_false_r.
  - intros primary providers Hnot Hfetch Hfirst.
    unfold resolve_image_generation_config.
    replace (object_truthy primary && PyStr.truthy (api_key (config primary))
             && (model_provider (config primary) =? "openai")%string) with false.
    + rewrite Hfetch.
      destruct (hd_error _) as [p |]; [rewrite Hfirst |]; reflexivity.
    + symmetry. destruct Hnot as [Hnot | Hnot].
      * rewrite Hnot. reflexivity.
      * apply String.eqb_neq in Hnot. rewrite Hnot. apply andb_false_r.
  - intros. apply configure_image_tool; assumption.
  - intros new_msg_req user db d m u h su f1 ch f2 fl f3 sel f4 pc
           before t after tv f5 e
           Hs Hc Hl Hsel Hpc Htools Hbefore Hin Hcls Hres o.
    assert (Hg : generation env new_msg_req user d m u h (initial_frame db)
                 = (Raise e, f5)).
    { unfold generation. rewrite bind_eq, Hs. unfold after_setup.
      rewrite bind_eq, Hc, bind_eq, Hl. unfold answer_turn.
      rewrite bind_eq, Hsel, bind_eq. unfold call at 1. rewrite Hpc.
      rewrite bind_eq, Htools, for_each_app, Hbefore. simpl for_each.
      rewrite bind_eq, (configure_image_tool _ _ _ _ _ _ _ _ _ _ Hin Hcls), Hres.
      reflexivity. }
    pose proof (setup_binds_llm _ _ _ _ _ _ _ Hs) as Hf1.
    assert (Hframe : llm f5 = Some (su_llm su) /\ stream f5 = [] /\ answer f5 = None).
    { pose proof (keeps_run _ _ _ _ _ (resolve_chain_same_llm _ _ _ _) Hc) as L2.
      pose proof (keeps_run _ _ _ _ _ (resolve_chain_same_stream _ _ _ _) Hc) as S2.
      pose proof (keeps_run _ _ _ _ _ (resolve_chain_same_answer _ _ _ _) Hc) as A2.
      pose proof (keeps_run _ _ _ _ _ (load_files_same_llm _ _ _) Hl) as L3.
      pose proof (keeps_run _ _ _ _ _ (load_files_same_stream _ _ _) Hl) as S3.
      pose proof (keeps_run _ _ _ _ _ (load_files_same_answer _ _ _) Hl) as A3.
      pose proof (keeps_run eq _ _ _ _
                    (keeps_select_documents _ _ _ _ _ _) Hsel) as E4.
      pose proof (keeps_run eq _ _ _ _
                    (keeps_for_each _ _ _
                       (fun s x => keeps_configure_tool _ env (fl_request fl)
                                     su fl sel pc h s x) _) Hbefore) as E5.
      unfold same_on in *. subst f4 f5. rewrite L3, L2, S3, S2, A3, A2.
      subst f1. repeat split. }
    destruct Hframe as (Hllm & Hstream & Hanswer).
    destruct (generation_failure_reported _ _ _ _ _ _ _ _ _ _ _ Hg Hllm)
      as [msg Hmsg].
    subst o. rewrite Hmsg. unfold packets. cbn [ending frame stream answer].
    rewrite Hstream, Hanswer. repeat split. exists msg. reflexivity.
Qed.

Lemma C7_image_generation_credential_witness :
  let env := Scenario.installation [Scenario.image_tool_model]
               Scenario.other_llm [Scenario.provider_of "azure" (Some "az-2")]
               Scenario.newest_is_leaf Scenario.no_fault Scenario.plain_run in
  let o := Scenario.turn env
             (Scenario.request "draw" None Scenario.search_options None)
             Scenario.fresh_store false in
  ending o = GenerationFailed (ValueError IMAGE_KEY_REQUIRED)
  /\ (exists msg, packets o = [StreamingError msg])
  /\ answer (frame o) = None.
Proof.
  intros env o.
  refine (proj2 (proj2 (proj2 (proj2 (C7_image_generation_credential env))))
            (Scenario.request "draw" None Scenario.search_options None)
            None Scenario.fresh_store Scenario.default_num_chunks
            Scenario.max_document_percentage false None
            _ _ _ _ _ _ _ _ _ [] Scenario.image_tool_model [] _ _
            (ValueError IMAGE_KEY_REQUIRED)
            eq_refl eq_refl eq_refl eq_refl eq_refl eq_refl eq_refl
            eq_refl eq_refl eq_refl).
Defined.

(** ** C8 *)




(** ** C9 *)

(** C9: with [use_existing_user_message] true no new user message is
    created (the generation phase leaves the session as it found it, and
    every row visible after the turn was visible before it or is an
    [ASSISTANT] row), and when the leaf of the resolved chain is not a
    [USER] message the turn fails with the invalid-regeneration error of
    line 241: one [StreamingError] is the whole stream and no [Answer] is
    built. *)
Theorem C9_regeneration_needs_a_user_leaf env new_msg_req user db d m h :
  let o := stream_chat_message_objects env new_msg_req user db d m true h in
  (forall r f, generation env new_msg_req user d m true h (initial_frame db) = (r, f) ->
               db_session f = db)
  /\ (forall x, In x (visible (session_after o)) ->
                In x (visible db) \/ msg_message_type x = ASSISTANT)
  /\ (forall su f1 fm hist,
        setup env new_msg_req user h (initial_frame db) = (Ok su, f1) ->
        create_chat_chain env (session_id (su_chat_session su)) (visible db)
          = Ok (fm, hist) ->
        msg_message_type fm <> USER ->
        ending o = GenerationFailed (RuntimeError NOT_A_USER_MESSAGE)
        /\ (exists msg, packets o = [StreamingError msg])
        /\ answer (frame o) = None).
Proof.
  intros o.
  assert (Hleave : forall r f,
             generation env new_msg_req user d m true h (initial_frame db) = (r, f) ->
             db_session f = db).
  { intros r f Hg. apply regeneration_leaves_session in Hg. exact Hg. }
  split; [exact Hleave |]. split.
  - clear Hleave. intros x Hx. subst o.
    unfold session_after, stream_chat_message_objects in Hx.
    destruct (generation env new_msg_req user d m true h (initial_frame db))
      as [[g | e] f1] eqn:Hg;
      pose proof (regeneration_leaves_session _ _ _ _ _ _ _ _ _ Hg) as Hdb;
      simpl in Hdb.
    + destruct (persistence env new_msg_req g f1) as [[[] | e] f2] eqn:Hp;
        apply persistence_runs in Hp; destruct Hp as (_ & _ & Hp); simpl in Hx.
      * destruct Hp as (tokens & cits & calls & detail & Hs & _).
        rewrite Hs, Hdb in Hx.
        apply (staged_assistant_visible env new_msg_req g tokens cits calls db x).
        right. exact Hx.
      * destruct Hp as (_ & [Hs | (tokens & cits & calls & Hs)]).
        -- left. rewrite Hs, Hdb in Hx. exact Hx.
        -- rewrite Hdb in Hs. cbv zeta in Hs.
           apply (staged_assistant_visible env new_msg_req g tokens cits calls db x).
           destruct Hs as [Hs | Hs]; rewrite Hs in Hx; [left | right]; exact Hx.
    + left. destruct (llm f1) as [l |] eqn:Hl.
      * destruct (on_generation_error_bound e f1 l Hl) as [msg Hmsg].
        rewrite Hmsg in Hx. simpl in Hx. rewrite Hdb in Hx.
        apply visible_rollback. exact Hx.
      * rewrite (on_generation_error_unbound e f1 Hl) in Hx. simpl in Hx.
        rewrite Hdb in Hx. exact Hx.
  - intros su f1 fm hist Hs Hchain Hneq.
    pose proof (setup_binds_llm _ _ _ _ _ _ _ Hs) as Hf1. simpl in Hf1.
    assert (Hg : generation env new_msg_req user d m true h (initial_frame db)
                 = (Raise (RuntimeError NOT_A_USER_MESSAGE), f1)).
    { unfold generation. rewrite bind_eq, Hs. unfold after_setup.
      rewrite bind_eq.
      rewrite (resolve_chain_leaf_not_user env new_msg_req su f1 fm hist);
        [reflexivity | subst f1; exact Hchain | exact Hneq]. }
    destruct (generation_failure_reported _ _ _ _ _ _ _ _ _ _ (su_llm su) Hg)
      as [msg Hmsg]; [subst f1; reflexivity |].
    subst o. rewrite Hmsg. unfold packets. subst f1. simpl.
    repeat split. exists msg. reflexivity.
Qed.

Lemma C9_regeneration_needs_a_user_leaf_witness :
  let o := Scenario.turn Scenario.standard
             (Scenario.request "again" None Scenario.search_options None)
             Scenario.store_ending_in_assistant true in
  ending o = GenerationFailed (RuntimeError NOT_A_USER_MESSAGE)
  /\ (exists msg, packets o = [StreamingError msg])
  /\ answer (frame o) = None.
Proof.
  intros o.
  refine (proj2 (proj2 (C9_regeneration_needs_a_user_leaf
            Scenario.standard
            (Scenario.request "again" None Scenario.search_options None)
            None Scenario.store_ending_in_assistant
            Scenario.default_num_chunks Scenario.max_document_percentage None))
          _ _ Scenario.earlier_assistant [Scenario.earlier_user]
          eq_refl eq_refl _).
  vm_compute. discriminate.
Defined.

(** ** C10 *)




(** * Further properties *)

(** ** How a turn ends *)

(** A generation phase that fails with [llm] unbound failed in the stage
    of lines 133-205, which leaves the frame as it was. *)
Lemma generation_unbound_frame env new_msg_req user db d m u h e f :
  generation env new_msg_req user d m u h (initial_frame db) = (Raise e, f) ->
  llm f = None ->
  f = initial_frame db.
Proof.
  unfold generation. rewrite bind_eq.
  destruct (setup env new_msg_req user h (initial_frame db))
    as [[su | e'] f1] eqn:Hs.
  - intros Hg Hl.
    pose proof (setup_binds_llm _ _ _ _ _ _ _ Hs) as Hf1.
    pose proof (keeps_run _ _ _ _ _
                  (after_setup_same_llm env new_msg_req d m u h su) Hg) as K.
    unfold same_on in K. rewrite Hf1 in K. simpl in K. congruence.
  - intros Hg Hl. inversion Hg; subst.
    pose proof (keeps_run _ _ _ _ _ (setup_same_db env new_msg_req user h) Hs) as K1.
    pose proof (keeps_run _ _ _ _ _ (setup_same_stream env new_msg_req user h) Hs) as K2.
    pose proof (keeps_run _ _ _ _ _ (setup_same_answer env new_msg_req user h) Hs) as K3.
    unfold same_on in *. destruct f as [s p l a]. simpl in *. subst.
    reflexivity.
Qed.

(** X1: the stream of a turn is the packets of the generation phase
    (document lists, relevance lists, image and custom-tool results,
    forwarded engine packets) followed by at most one closing packet:
    the final message detail exactly when the turn completes, one
    [StreamingError] when either phase fails, and nothing when an
    exception reaches the caller.  No stream holds both a final message
    detail and an error. *)
Theorem X1_stream_closes_with_one_packet env new_msg_req user db d m u h :
  let o := stream_chat_message_objects env new_msg_req user db d m u h in
  exists body tail,
    packets o = body ++ tail
    /\ Forall generation_packet body
    /\ match ending o with
       | Completed => exists detail, tail = [MessageDetail detail]
       | GenerationFailed _ => exists msg, tail = [StreamingError msg]
       | PersistenceFailed _ => tail = [StreamingError FAILED_TO_PARSE]
       | Escaped _ _ => tail = []
       end.
Proof.
  intros o. subst o. unfold packets, stream_chat_message_objects.
  destruct (generation env new_msg_req user d m u h (initial_frame db))
    as [[g | e] f1] eqn:Hg;
    destruct (keeps_run _ _ _ _ _
                (generation_extends env new_msg_req user d m u h) Hg)
      as (body & Hbody & Fbody); simpl in Hbody.
  - destruct (persistence env new_msg_req g f1) as [[[] | e] f2] eqn:Hp;
      apply persistence_runs in Hp; destruct Hp as (_ & _ & Hp).
    + destruct Hp as (tokens & cits & calls & detail & _ & Hs).
      exists body, [MessageDetail detail]. cbn [frame ending].
      rewrite Hs, Hbody. repeat split; [exact Fbody | eexists; reflexivity].
    + destruct Hp as (Hs & _).
      exists body, [StreamingError FAILED_TO_PARSE]. cbn [frame ending].
      simpl. rewrite Hs, Hbody. repeat split. exact Fbody.
  - destruct (llm f1) as [l |] eqn:Hl.
    + destruct (on_generation_error_bound e f1 l Hl) as [msg Hmsg].
      rewrite Hmsg. exists body, [StreamingError msg]. cbn [frame ending stream].
      rewrite Hbody. repeat split; [exact Fbody | eexists; reflexivity].
    + rewrite (on_generation_error_unbound e f1 Hl).
      exists body, []. cbn [frame ending]. rewrite Hbody, app_nil_r.
      repeat split. exact Fbody.
Qed.

(** X2: an exception reaches the caller only from the handler of the
    first [try], and then it is the [UnboundLocalError] for [llm]; in that
    case the turn has left no trace: nothing was streamed, the session is
    as it was handed in, and no [Answer] was built. *)
Theorem X2_escaping_exception_leaves_no_trace
    env new_msg_req user db d m u h e during :
  let o := stream_chat_message_objects env new_msg_req user db d m u h in
  ending o = Escaped e during ->
  e = UnboundLocalError "llm"
  /\ packets o = []
  /\ session_after o = db
  /\ answer (frame o) = None.
Proof.
  intros o. subst o. unfold packets, session_after, stream_chat_message_objects.
  destruct (generation env new_msg_req user d m u h (initial_frame db))
    as [[g | e0] f1] eqn:Hg.
  - destruct (persistence env new_msg_req g f1) as [[[] | e1] f2]; discriminate.
  - destruct (llm f1) as [l |] eqn:Hl.
    + destruct (on_generation_error_bound e0 f1 l Hl) as [msg Hmsg].
      rewrite Hmsg. discriminate.
    + rewrite (on_generation_error_unbound e0 f1 Hl). cbn [ending frame].
      intros H. inversion H; subst.
      rewrite (generation_unbound_frame _ _ _ _ _ _ _ _ _ _ Hg Hl).
      repeat split.
Qed.

Lemma X2_escaping_exception_witness :
  let o := Scenario.turn (Scenario.without_llm Scenario.standard)
             (Scenario.request "hello" None Scenario.search_options None)
             Scenario.fresh_store false in
  packets o = [] /\ session_after o = Scenario.fresh_store.
Proof.
  intros o.
  destruct (X2_escaping_exception_leaves_no_trace
              (Scenario.without_llm Scenario.standard)
              (Scenario.request "hello" None Scenario.search_options None)
              None Scenario.fresh_store Scenario.default_num_chunks
              Scenario.max_document_percentage false None
              (UnboundLocalError "llm") (RuntimeError LLM_DISABLED) eq_refl)
    as (_ & P & S & _).
  split; [exact P | exact S].
Defined.

(** ** What the generation phase writes *)

Lemma resolve_chain_same_durable env new_msg_req u su :
  keeps (same_on durable) (resolve_chain env new_msg_req u su).
Proof.
  unfold resolve_chain. destruct u; simpl; keeps_structure.
  - intros f. unfold session_call. destruct (db_fault env _); reflexivity.
  - intros f. reflexivity.
Qed.

Lemma load_files_durable env new_msg_req ch um f r f' :
  user_message ch = Some um ->
  (forall x, In x (committed (db_session f)) -> msg_id x <> msg_id um) ->
  load_files env new_msg_req ch f = (r, f') ->
  durable f' = durable f.
Proof.
  intros Hu Hfresh H. unfold load_files, bind, call, session_call, ret in H.
  rewrite Hu in H. crunch H; inversion H; subst; try reflexivity.
  pose proof (fun fs => attach_to_fresh_row um fs (db_session f) Hfresh) as E.
  unfold attach_files_to_chat_message in E. cbn [committed] in E.
  unfold durable. cbn [db_session with_session committed commits].
  rewrite E. reflexivity.
Qed.

(** With identifiers handed out afresh, the generation phase changes
    neither the committed rows nor the number of commits. *)
Lemma generation_keeps_durable env new_msg_req user db d m u h r f :
  fresh_ids db ->
  generation env new_msg_req user d m u h (initial_frame db) = (r, f) ->
  committed (db_session f) = committed db /\ commits (db_session f) = commits db.
Proof.
  intros Hfresh Hg.
  assert (H : durable f = durable (initial_frame db));
    [| unfold durable in H; simpl in H; inversion H; split; reflexivity].
  unfold generation in Hg. rewrite bind_eq in Hg.
  destruct (setup env new_msg_req user h (initial_frame db))
    as [[su | e] f1] eqn:Hs;
    pose proof (keeps_run _ _ _ _ _ (setup_same_db env new_msg_req user h) Hs) as K1;
    unfold same_on in K1; simpl in K1.
  2: { injection Hg as _ <-. unfold durable. rewrite K1. reflexivity. }
  assert (D1 : durable f1 = durable (initial_frame db))
    by (unfold durable; rewrite K1; reflexivity).
  unfold after_setup in Hg. rewrite bind_eq in Hg.
  destruct (resolve_chain env new_msg_req u su f1) as [[ch | e] f2] eqn:Hc;
    pose proof (keeps_run _ _ _ _ _
                  (resolve_chain_same_durable env new_msg_req u su) Hc) as K2;
    unfold same_on in K2.
  2: { injection Hg as _ <-. congruence. }
  rewrite bind_eq in Hg.
  assert (D3 : forall r3 f3, load_files env new_msg_req ch f2 = (r3, f3) ->
                             durable f3 = durable f2).
  { intros r3 f3 Hl. destruct u.
    - apply resolve_chain_existing in Hc. destruct Hc as (_ & Hu & _).
      pose proof (keeps_run _ _ _ _ _
                    (load_files_without_user_message env new_msg_req ch Hu) Hl) as K.
      unfold same_on in K. unfold durable. rewrite K. reflexivity.
    - destruct (resolve_chain_staged _ _ _ _ _ _ Hc) as (tokens & Hf2 & Hu & _).
      cbv zeta in Hf2, Hu.
      destruct (create_staged (prompt_of env)
                  (user_message_args new_msg_req su tokens)
                  (db_session f1) eq_refl) as (Ecreate & Hid & _).
      cbv zeta in Ecreate, Hid.
      set (um := fst (create_new_chat_message (prompt_of env)
                        (user_message_args new_msg_req su tokens)
                        (db_session f1))) in *.
      rewrite Ecreate in Hf2. cbn [snd] in Hf2.
      eapply load_files_durable; [exact Hu | | exact Hl].
      rewrite Hf2. cbn [db_session with_session add committed].
      intros x Hx. rewrite Hid, K1. apply Hfresh. rewrite <- K1. exact Hx. }
  destruct (load_files env new_msg_req ch f2) as [[fl | e] f3] eqn:Hl;
    pose proof (D3 _ _ eq_refl) as K3.
  2: { injection Hg as _ <-. congruence. }
  pose proof (keeps_run _ _ _ _ _
                (answer_turn_same_db env new_msg_req d m h su ch fl) Hg) as K4.
  unfold same_on in K4. unfold durable at 1. rewrite K4.
  fold (durable f3). congruence.
Qed.

(** X3: a turn whose generation phase fails (and reports it) leaves
    nothing behind in the session: the committed rows and the number of
    commits are those of before the turn and no row stays staged.  The
    session is taken with no committed row bearing its next identifier. *)
Theorem X3_failed_generation_is_rolled_back env new_msg_req user db d m u h e :
  fresh_ids db ->
  let o := stream_chat_message_objects env new_msg_req user db d m u h in
  ending o = GenerationFailed e ->
  committed (session_after o) = committed db
  /\ pending (session_after o) = []
  /\ commits (session_after o) = commits db.
Proof.
  intros Hfresh o. subst o. unfold session_after, stream_chat_message_objects.
  destruct (generation env new_msg_req user d m u h (initial_frame db))
    as [[g | e0] f1] eqn:Hg.
  - destruct (persistence env new_msg_req g f1) as [[[] | e1] f2]; discriminate.
  - destruct (generation_keeps_durable _ _ _ _ _ _ _ _ _ _ Hfresh Hg) as [Hc Hn].
    destruct (llm f1) as [l |] eqn:Hl.
    + destruct (on_generation_error_bound e0 f1 l Hl) as [msg Hmsg].
      rewrite Hmsg. intros _. cbn [frame db_session rollback committed pending commits].
      repeat split; assumption.
    + rewrite (on_generation_error_unbound e0 f1 Hl). discriminate.
Qed.

Lemma X3_failed_generation_witness :
  let env := Scenario.installation [] Scenario.openai_llm []
               Scenario.branch_is_leaf Scenario.no_fault Scenario.plain_run in
  let o := Scenario.turn env
             (Scenario.request "hello" None Scenario.search_options None)
             Scenario.fresh_store false in
  committed (session_after o) = committed Scenario.fresh_store
  /\ pending (session_after o) = []
  /\ commits (session_after o) = commits Scenario.fresh_store.
Proof.
  intros env o.
  apply (X3_failed_generation_is_rolled_back env
           (Scenario.request "hello" None Scenario.search_options None)
           None Scenario.fresh_store Scenario.default_num_chunks
           Scenario.max_document_percentage false None
           (RuntimeError NOT_ON_MAINLINE)).
  - intros x [<- | []]. vm_compute. discriminate.
  - reflexivity.
Defined.

(** ** The message of a generation failure *)

Lemma classify_error_value error_msg f l :
  llm f = Some l ->
  classify_error error_msg f =
  (Ok (if PyStr.contains ILLEGAL_BEARER error_msg
       then invalid_or_empty_key (model_provider (config l))
       else if PyStr.contains INVALID_HEADER error_msg
            then invalid_key_format (model_provider (config l))
            else if key_in_message l error_msg
                 then invalid_key_error (model_provider (config l))
                 else UNEXPECTED_ERROR), f).
Proof.
  intros Hl. unfold classify_error, bind, read_llm, ret.
  destruct (PyStr.contains ILLEGAL_BEARER error_msg); [rewrite Hl; reflexivity |].
  destruct (PyStr.contains INVALID_HEADER error_msg); [rewrite Hl; reflexivity |].
  rewrite Hl. destruct (key_in_message l error_msg); reflexivity.
Qed.

(** X4: the text of a generation-phase exception is never forwarded to
    the caller.  The [StreamingError] that reports it carries one of four
    fixed messages, chosen in this order: the empty-bearer marker in the
    text gives the invalid-or-empty-key message; else the header marker
    gives the key-format message; else the LLM's own API key in the text
    gives the invalid-key message; else the generic message.  Of the
    turn, the message names the provider of the LLM only. *)
Theorem X4_generation_error_message env new_msg_req user db d m u h e :
  let o := stream_chat_message_objects env new_msg_req user db d m u h in
  ending o = GenerationFailed e ->
  exists l body msg,
    llm (frame o) = Some l
    /\ packets o = body ++ [StreamingError msg]
    /\ msg = (if PyStr.contains ILLEGAL_BEARER (str e)
              then invalid_or_empty_key (model_provider (config l))
              else if PyStr.contains INVALID_HEADER (str e)
                   then invalid_key_format (model_provider (config l))
                   else if key_in_message l (str e)
                        then invalid_key_error (model_provider (config l))
                        else UNEXPECTED_ERROR).
Proof.
  intros o. subst o. unfold packets, stream_chat_message_objects.
  destruct (generation env new_msg_req user d m u h (initial_frame db))
    as [[g | e0] f1] eqn:Hg.
  - destruct (persistence env new_msg_req g f1) as [[[] | e1] f2]; discriminate.
  - destruct (llm f1) as [l |] eqn:Hl.
    + unfold on_generation_error. rewrite bind_eq.
      rewrite (classify_error_value (str e0) f1 l Hl). simpl.
      intros H. inversion H; subst.
      exists l, (stream f1). eexists. repeat split. exact Hl.
    + rewrite (on_generation_error_unbound e0 f1 Hl). discriminate.
Qed.

Lemma X4_generation_error_message_witness :
  let env := Scenario.installation [Scenario.image_tool_model]
               Scenario.other_llm [] Scenario.newest_is_leaf
               Scenario.no_fault Scenario.plain_run in
  let o := Scenario.turn env
             (Scenario.request "draw" None Scenario.search_options None)
             Scenario.fresh_store false in
  exists l body msg,
    llm (frame o) = Some l
    /\ packets o = body ++ [StreamingError msg]
    /\ msg = UNEXPECTED_ERROR.
Proof.
  intros env o.
  destruct (X4_generation_error_message env
              (Scenario.request "draw" None Scenario.search_options None)
              None Scenario.fresh_store Scenario.default_num_chunks
              Scenario.max_document_percentage false None
              (ValueError IMAGE_KEY_REQUIRED) eq_refl)
    as (l & body & msg & Hl & Hp & Hm).
  exists l, body, msg. split; [exact Hl |]. split; [exact Hp |].
  vm_compute in Hl. inversion Hl; subst l. rewrite Hm. vm_compute. reflexivity.
Defined.

(** ** Letter case in the key test *)

Lemma prefix_spec needle hay :
  String.prefix needle hay = true <-> exists post, hay = (needle ++ post)%string.
Proof.
  revert hay. induction needle as [| a rest IH]; intros hay.
  - destruct hay; simpl; (split; [intros _; eexists; reflexivity | reflexivity]).
  - destruct hay as [| b hay']; simpl;
      [split; [discriminate | intros [post H]; discriminate] |].
    destruct (ascii_dec a b) as [-> | Hne].
    + rewrite IH. split; intros [post H]; exists post; [rewrite H; reflexivity |].
      injection H as H. exact H.
    + split; [discriminate |]. intros [post H]. injection H as H _.
      elim Hne. symmetry. exact H.
Qed.

(** [needle in hay]: the needle occurs somewhere in the hay. *)
Lemma contains_spec needle hay :
  PyStr.contains needle hay = true <->
  exists pre post, hay = (pre ++ needle ++ post)%string.
Proof.
  induction hay as [| c t IH].
  - cbn [PyStr.contains].
    destruct (String.prefix needle "") eqn:E.
    + split; [intros _ | reflexivity].
      apply prefix_spec in E. destruct E as [post E]. exists ""%string, post. exact E.
    + split; [discriminate |]. intros (pre & post & H).
      destruct pre; [| discriminate]. simpl in H.
      assert (E' : String.prefix needle "" = true)
        by (apply prefix_spec; exists post; exact H).
      congruence.
  - cbn [PyStr.contains].
    destruct (String.prefix needle (String c t)) eqn:E.
    + split; [intros _ | reflexivity].
      apply prefix_spec in E. destruct E as [post E]. exists ""%string, post. exact E.
    + rewrite IH. split.
      * intros (pre & post & H). exists (String c pre), post. rewrite H. reflexivity.
      * intros (pre & post & H). destruct pre as [| a pre'].
        -- simpl in H.
           assert (E' : String.prefix needle (String c t) = true)
             by (apply prefix_spec; exists post; exact H).
           congruence.
        -- injection H as _ H. exists pre', post. exact H.
Qed.

(** X5: the key test of line 576 is a substring test that ignores the
    case of ASCII letters, and an empty key never passes it: the test
    succeeds exactly when the LLM has a non-empty API key whose lower-case
    form occurs in the lower-case form of the error text.  (Without the
    guard on the key an empty key would occur in every text.) *)
Theorem X5_key_test_is_a_caseless_substring_test (l : LLM) (text : string) :
  key_in_message l text = true <->
  exists key pre post,
    api_key (config l) = Some key
    /\ key <> ""%string
    /\ PyStr.lower text = (pre ++ PyStr.lower key ++ post)%string.
Proof.
  unfold key_in_message. split.
  - destruct (api_key (config l)) as [key |]; [| discriminate].
    intros H. apply andb_true_iff in H. destruct H as [Hkey Hin].
    apply contains_spec in Hin. destruct Hin as (pre & post & Hin).
    exists key, pre, post. split; [reflexivity |]. split; [| exact Hin].
    intros ->. discriminate.
  - intros (key & pre & post & -> & Hne & Hin).
    apply andb_true_iff. split.
    + destruct key; [contradiction | reflexivity].
    + apply contains_spec. exists pre, post. exact Hin.
Qed.

(** ** The event loop, event by event *)

Lemma forwarded_app l1 l2 : forwarded (l1 ++ l2) = forwarded l1 ++ forwarded l2.
Proof.
  induction l1 as [| p rest IH]; simpl; [reflexivity |].
  destruct p; simpl; rewrite IH; reflexivity.
Qed.

Lemma last_final_result_seen seen evs :
  last_final_result seen evs =
  match last_final_result None evs with
  | Some r => Some r
  | None => seen
  end.
Proof.
  revert seen. induction evs as [| ev rest IH]; intros seen; simpl.
  - reflexivity.
  - destruct ev as [t | [piece | num doc | name args | r]];
      try apply IH.
    rewrite (IH (Some r)). destruct (last_final_result None rest); reflexivity.
Qed.

Lemma last_image_urls_seen seen evs :
  last_image_urls seen evs =
  match last_image_urls None evs with
  | Some urls => Some urls
  | None => seen
  end.
Proof.
  revert seen. induction evs as [| ev rest IH]; intros seen; simpl.
  - reflexivity.
  - destruct ev as [[s | s | imgs | s | s | s] | p]; try apply IH.
    rewrite (IH (Some (map url imgs))).
    destruct (last_image_urls None rest); reflexivity.
Qed.

(** One event: what it adds to the stream and to the loop's locals when
    it is handled, and that it adds nothing when its handling raises. *)
Lemma handle_packet_step env new_msg_req sel v ev f r f' :
  handle_packet env new_msg_req sel v ev f = (r, f') ->
  match r with
  | Ok v' =>
      forwarded (stream f') = forwarded (stream f) ++ plain_packets [ev]
      /\ (length (stream f') <= S (length (stream f)))%nat
      /\ tool_result v' = last_final_result (tool_result v) [ev]
      /\ match last_image_urls None [ev] with
         | None => ai_message_files v' = ai_message_files v
         | Some urls =>
             exists ids,
               save_files_from_urls env urls = Ok ids
               /\ ai_message_files v' =
                  Some (map (fun i => {| fd_id := i; fd_type := IMAGE |}) ids)
         end
  | Raise _ => stream f' = stream f
  end.
Proof.
  intros H.
  destruct ev as [[summary | sections | imgs | response | summary | other] | p];
    unfold handle_packet, bind, call, yield, ret in H.
  - crunch H; inversion H; subst; clear H; cbn [stream]; try reflexivity.
    all: rewrite forwarded_app, length_app; simpl; rewrite app_nil_r.
    all: repeat split; lia.
  - destruct (reference_db_search_docs v) as [reference_docs |].
    2: { inversion H; subst. simpl. rewrite app_nil_r. repeat split. lia. }
    destruct (map_calls _ reference_docs f) as [[docs | e] f1] eqn:Hm;
      apply map_calls_frame in Hm; subst f1.
    2: { inversion H; subst. reflexivity. }
    crunch H; inversion H; subst; clear H; cbn [stream]; try reflexivity.
    all: rewrite forwarded_app, length_app; simpl; rewrite app_nil_r.
    all: repeat split; lia.
  - crunch H; inversion H; subst; clear H; cbn [stream]; try reflexivity.
    rewrite forwarded_app, length_app. simpl. rewrite app_nil_r.
    repeat split; [lia |]. eexists. split; [eassumption | reflexivity].
  - crunch H; inversion H; subst; clear H; cbn [stream]; try reflexivity.
    rewrite forwarded_app, length_app. simpl. rewrite app_nil_r.
    repeat split; lia.
  - inversion H; subst; clear H. cbn [stream].
    rewrite forwarded_app, length_app. simpl. rewrite app_nil_r.
    repeat split; lia.
  - inversion H; subst; clear H. simpl. rewrite app_nil_r. repeat split. lia.
  - inversion H; subst; clear H. cbn [stream].
    rewrite forwarded_app, length_app. simpl.
    destruct p; repeat split; simpl; lia.
Qed.

(** The loop: [k] events were handled. *)
Lemma for_each_steps env new_msg_req sel evs v f r f' :
  for_each (handle_packet env new_msg_req sel) evs v f = (r, f') ->
  exists k,
    (k <= length evs)%nat
    /\ forwarded (stream f') = forwarded (stream f) ++ plain_packets (firstn k evs)
    /\ (length (stream f') <= length (stream f) + k)%nat
    /\ (forall v', r = Ok v' ->
          k = length evs
          /\ tool_result v' = last_final_result (tool_result v) evs
          /\ match last_image_urls None evs with
             | None => ai_message_files v' = ai_message_files v
             | Some urls =>
                 exists ids,
                   save_files_from_urls env urls = Ok ids
                   /\ ai_message_files v' =
                      Some (map (fun i => {| fd_id := i; fd_type := IMAGE |}) ids)
             end).
Proof.
  revert v f. induction evs as [| ev rest IH]; intros v f H; simpl in H.
  - inversion H; subst. exists 0%nat. simpl. rewrite app_nil_r.
    repeat split; try lia; congruence.
  - rewrite bind_eq in H.
    destruct (handle_packet env new_msg_req sel v ev f) as [[v1 | e] f1] eqn:Hh;
      apply handle_packet_step in Hh.
    + destruct Hh as (Hfw & Hlen & Htool & Himg).
      destruct (IH v1 f1 H) as (k & Hk & Hfw' & Hlen' & Hok).
      exists (S k). cbn [firstn length].
      split; [lia |]. split.
      { rewrite Hfw', Hfw, <- app_assoc. f_equal.
        destruct ev as [t | p]; reflexivity. }
      split; [lia |].
      intros w Hw. destruct (Hok w Hw) as (Hk' & Htool' & Himg').
      split; [lia |]. split.
      { rewrite Htool', Htool. simpl.
        destruct ev as [t | [piece | num doc | name args | r0]]; reflexivity. }
      { destruct ev as [[s | s | imgs | s | s | s] | p]; simpl in Himg |- *;
          try (destruct (last_image_urls None rest);
               [exact Himg' | congruence]).
        rewrite last_image_urls_seen.
        destruct (last_image_urls None rest); [exact Himg' |].
        destruct Himg as (ids & Hsave & Hfiles).
        exists ids. split; [exact Hsave | congruence]. }
    + inversion H; subst. exists 0%nat. simpl. rewrite app_nil_r, Hh.
      repeat split; try lia; discriminate.
Qed.

(** ** A turn, seen from its event loop *)

(** Once the [Answer] is built nothing has been streamed yet, and the
    generation phase is the event loop over that answer's output. *)
Lemma generation_from_stages
    env new_msg_req user db d m u h su f1 ch f2 fl f3 sel f4 pc tv f5 a f6 :
  setup env new_msg_req user h (initial_frame db) = (Ok su, f1) ->
  resolve_chain env new_msg_req u su f1 = (Ok ch, f2) ->
  load_files env new_msg_req ch f2 = (Ok fl, f3) ->
  select_documents env new_msg_req su d m f3 = (Ok sel, f4) ->
  build_prompt_config (fl_request fl) (su_chat_session su) (su_persona su)
    (final_msg ch) = Ok pc ->
  for_each (configure_tool env (fl_request fl) su fl sel pc h)
    (tools (su_persona su)) {| search_tool := None; tool_dict := [] |} f4
  = (Ok tv, f5) ->
  build_answer env su ch fl sel pc tv f5 = (Ok a, f6) ->
  stream f6 = []
  /\ generation env new_msg_req user d m u h (initial_frame db) =
     match event_loop env new_msg_req sel (processed_streamed_output env a) f6 with
     | (Ok v, f7) =>
         (Ok {| g_setup := su; g_chain := ch; g_tool_dict := tool_dict tv;
                g_answer := a; g_run := processed_streamed_output env a;
                g_vars := v |}, f7)
     | (Raise e, f7) => (Raise e, f7)
     end.
Proof.
  intros Hs Hc Hl Hsel Hpc Ht Hb. split.
  - pose proof (keeps_run _ _ _ _ _ (setup_same_stream _ _ _ _) Hs) as S1.
    pose proof (keeps_run _ _ _ _ _ (resolve_chain_same_stream _ _ _ _) Hc) as S2.
    pose proof (keeps_run _ _ _ _ _ (load_files_same_stream _ _ _) Hl) as S3.
    pose proof (keeps_run eq _ _ _ _ (keeps_select_documents _ _ _ _ _ _) Hsel) as E4.
    pose proof (keeps_run eq _ _ _ _
                  (keeps_for_each _ _ _
                     (fun s x => keeps_configure_tool _ env (fl_request fl)
                                   su fl sel pc h s x) _) Ht) as E5.
    pose proof (keeps_run _ _ _ _ _
                  (build_answer_same_stream _ _ _ _ _ _ _) Hb) as S6.
    unfold same_on in *. subst f4 f5. rewrite S6, S3, S2, S1. reflexivity.
  - unfold generation. rewrite bind_eq, Hs. unfold after_setup.
    rewrite bind_eq, Hc, bind_eq, Hl. unfold answer_turn.
    rewrite bind_eq, Hsel, bind_eq. unfold call at 1. rewrite Hpc.
    rewrite bind_eq, Ht, bind_eq, Hb. cbv zeta. rewrite bind_eq.
    destruct (event_loop _ _ _ _ f6) as [[v | e] f7]; reflexivity.
Qed.

(** The closing packet of a turn is no forwarded packet. *)
Lemma turn_packets_of_generation env new_msg_req user db d m u h r f :
  generation env new_msg_req user d m u h (initial_frame db) = (r, f) ->
  let o := stream_chat_message_objects env new_msg_req user db d m u h in
  exists tail,
    packets o = stream f ++ tail
    /\ forwarded tail = []
    /\ (length tail <= 1)%nat
    /\ (ending o = Completed -> exists g, r = Ok g).
Proof.
  intros Hg o.
  destruct (turn_packets env new_msg_req user db d m u h)
    as (r' & f' & tail & Hg' & Hp & Ht).
  rewrite Hg in Hg'. inversion Hg'; subst r' f'.
  exists tail. split; [exact Hp |].
  split; [destruct Ht as [-> | [[msg ->] | [detail ->]]]; reflexivity |].
  split; [destruct Ht as [-> | [[msg ->] | [detail ->]]]; simpl; lia |].
  subst o. unfold stream_chat_message_objects. rewrite Hg.
  destruct r as [g | e]; [intros _; eexists; reflexivity |].
  destruct (on_generation_error e f) as [[[] | e'] f2]; discriminate.
Qed.

(** X6: the engine's own packets are forwarded unchanged and in the
    order the engine sends them: the forwarded packets of a turn are the
    plain packets among the first [k] events of the engine's output, [k]
    being all of them when the turn completes; and an event adds at most
    one packet, so the stream has at most [k + 1] packets. *)
Theorem X6_engine_packets_are_forwarded_in_order
    env new_msg_req user db d m u h a :
  let o := stream_chat_message_objects env new_msg_req user db d m u h in
  answer (frame o) = Some a ->
  let evs := events (processed_streamed_output env a) in
  exists k,
    (k <= length evs)%nat
    /\ forwarded (packets o) = plain_packets (firstn k evs)
    /\ (length (packets o) <= k + 1)%nat
    /\ (ending o = Completed -> k = length evs).
Proof.
  intros o Ha evs.
  destruct (answer_built _ _ _ _ _ _ _ _ _ Ha)
    as (su & f1 & ch & f2 & fl & f3 & sel & f4 & pc & tv & f5 & f6
        & Hs & Hc & Hl & Hsel & Hpc & Ht & Hb).
  destruct (generation_from_stages _ _ _ _ _ _ _ _ _ _ _ _ _ _ _ _ _ _ _ _ _
              Hs Hc Hl Hsel Hpc Ht Hb) as (Hempty & Hg).
  unfold event_loop in Hg. rewrite bind_eq in Hg.
  destruct (for_each (handle_packet env new_msg_req sel)
              (events (processed_streamed_output env a)) initial_loop_vars f6)
    as [rv f7] eqn:Hloop.
  destruct (for_each_steps _ _ _ _ _ _ _ _ Hloop) as (k & Hk & Hfw & Hlen & Hok).
  rewrite Hempty in Hfw, Hlen. simpl in Hfw, Hlen.
  exists k. split; [exact Hk |].
  assert (Hturn : forall r,
            generation env new_msg_req user d m u h (initial_frame db) = (r, f7) ->
            forwarded (packets o) = plain_packets (firstn k evs)
            /\ (length (packets o) <= k + 1)%nat
            /\ (ending o = Completed -> exists g, r = Ok g)).
  { intros r Hr.
    destruct (turn_packets_of_generation _ _ _ _ _ _ _ _ _ _ Hr)
      as (tail & Hp & Hft & Hlt & Hc').
    fold o in Hp, Hc'. rewrite Hp, forwarded_app, Hft, app_nil_r, length_app.
    repeat split; [exact Hfw | lia | exact Hc']. }
  destruct rv as [v | e].
  - destruct (Hok v eq_refl) as (Hall & _).
    destruct (failure (processed_streamed_output env a)) as [e |];
      simpl in Hg; destruct (Hturn _ Hg) as (H1 & H2 & H3);
      repeat split; try assumption; intros _; exact Hall.
  - destruct (Hturn _ Hg) as (H1 & H2 & H3).
    repeat split; try assumption.
    intros Hcompleted. destruct (H3 Hcompleted) as [g Hgg]. discriminate.
Qed.

Lemma X6_engine_packets_witness :
  let o := Scenario.turn Scenario.standard
             (Scenario.request "hello" None Scenario.search_options None)
             Scenario.fresh_store false in
  forwarded (packets o) = [AnswerPiece (Some "Hi"); AnswerPiece None].
Proof.
  intros o.
  destruct (answer (frame o)) as [a |] eqn:E;
    [| vm_compute in E; discriminate].
  destruct (X6_engine_packets_are_forwarded_in_order
              Scenario.standard
              (Scenario.request "hello" None Scenario.search_options None)
              None Scenario.fresh_store Scenario.default_num_chunks
              Scenario.max_document_percentage false None a E)
    as (k & _ & Hfw & _ & Hk).
  unfold o, Scenario.turn. rewrite Hfw, (Hk eq_refl). reflexivity.
Defined.

(** A generation phase that builds no [Answer] fails, and streams
    nothing. *)
Lemma no_answer_no_stream env new_msg_req user db d m u h r f :
  generation env new_msg_req user d m u h (initial_frame db) = (r, f) ->
  answer f = None ->
  stream f = [] /\ exists e, r = Raise e.
Proof.
  intros Hg Ha.
  pose proof (keeps_run _ _ _ _ _
                (generation_extends env new_msg_req user d m u h) Hg) as Hext.
  unfold generation, after_setup, answer_turn in Hg.
  rewrite bind_eq in Hg.
  destruct (setup env new_msg_req user h (initial_frame db))
    as [[su | e] f1] eqn:Hs;
    pose proof (keeps_run _ _ _ _ _ (setup_same_stream _ _ _ _) Hs) as S1;
    unfold same_on in S1; simpl in S1.
  2: { injection Hg as <- <-. split; [exact S1 | eexists; reflexivity]. }
  rewrite bind_eq in Hg.
  destruct (resolve_chain env new_msg_req u su f1) as [[ch | e] f2] eqn:Hc;
    pose proof (keeps_run _ _ _ _ _ (resolve_chain_same_stream _ _ _ _) Hc) as S2;
    unfold same_on in S2.
  2: { injection Hg as <- <-. split; [congruence | eexists; reflexivity]. }
  rewrite bind_eq in Hg.
  destruct (load_files env new_msg_req ch f2) as [[fl | e] f3] eqn:Hl;
    pose proof (keeps_run _ _ _ _ _ (load_files_same_stream _ _ _) Hl) as S3;
    unfold same_on in S3.
  2: { injection Hg as <- <-. split; [congruence | eexists; reflexivity]. }
  rewrite bind_eq in Hg.
  destruct (select_documents env new_msg_req su d m f3) as [[sel | e] f4] eqn:Hsel;
    pose proof (keeps_run eq _ _ _ _
                  (keeps_select_documents _ _ _ _ _ _) Hsel) as E4.
  2: { injection Hg as <- <-. split; [congruence | eexists; reflexivity]. }
  rewrite bind_eq in Hg. unfold call at 1 in Hg.
  destruct (build_prompt_config (fl_request fl) (su_chat_session su)
              (su_persona su) (final_msg ch)) as [pc | e].
  2: { injection Hg as <- <-. split; [congruence | eexists; reflexivity]. }
  rewrite bind_eq in Hg.
  destruct (for_each (configure_tool env (fl_request fl) su fl sel pc h)
              (tools (su_persona su)) {| search_tool := None; tool_dict := [] |} f4)
    as [[tv | e] f5] eqn:Ht;
    pose proof (keeps_run eq _ _ _ _
                  (keeps_for_each _ _ _
                     (fun s x => keeps_configure_tool _ env (fl_request fl)
                                   su fl sel pc h s x) _) Ht) as E5.
  2: { injection Hg as <- <-. split; [congruence | eexists; reflexivity]. }
  rewrite bind_eq in Hg.
  destruct (build_answer env su ch fl sel pc tv f5) as [[a | e] f6] eqn:Hb;
    pose proof (keeps_run _ _ _ _ _
                  (build_answer_same_stream _ _ _ _ _ _ _) Hb) as S6;
    unfold same_on in S6.
  2: { injection Hg as <- <-. split; [congruence | eexists; reflexivity]. }
  exfalso.
  apply build_answer_result in Hb. destruct Hb as (Hsome & _).
  cbv zeta in Hg. rewrite bind_eq in Hg.
  destruct (event_loop env new_msg_req sel (processed_streamed_output env a) f6)
    as [[v | e] f7] eqn:He;
    pose proof (keeps_run _ _ _ _ _ (event_loop_same_answer _ _ _ _) He) as A7;
    unfold same_on in A7; injection Hg as _ <-; congruence.
Qed.

(** X7: nothing is streamed before the [Answer] is built.  A turn that
    builds no [Answer] does not complete, and its whole stream is at most
    the one [StreamingError] of the handler. *)
Theorem X7_no_answer_no_generation_packets env new_msg_req user db d m u h :
  let o := stream_chat_message_objects env new_msg_req user db d m u h in
  answer (frame o) = None ->
  ending o <> Completed
  /\ (packets o = [] \/ exists msg, packets o = [StreamingError msg]).
Proof.
  intros o Ha.
  destruct (turn_answer env new_msg_req user db d m u h) as (r & f & Hg & Hf).
  fold o in Hf. rewrite Hf in Ha.
  destruct (no_answer_no_stream _ _ _ _ _ _ _ _ _ _ Hg Ha) as (Hempty & e & ->).
  subst o. unfold packets, stream_chat_message_objects. rewrite Hg.
  destruct (llm f) as [l |] eqn:Hl.
  - destruct (on_generation_error_bound e f l Hl) as [msg Hmsg].
    rewrite Hmsg. cbn [ending frame stream]. rewrite Hempty.
    split; [discriminate | right; exists msg; reflexivity].
  - rewrite (on_generation_error_unbound e f Hl). cbn [ending frame].
    split; [discriminate | left; exact Hempty].
Qed.

Lemma X7_no_answer_witness :
  let env := Scenario.installation [Scenario.image_tool_model]
               Scenario.other_llm [] Scenario.newest_is_leaf
               Scenario.no_fault Scenario.plain_run in
  let o := Scenario.turn env
             (Scenario.request "draw" None Scenario.search_options None)
             Scenario.fresh_store false in
  ending o <> Completed
  /\ (packets o = [] \/ exists msg, packets o = [StreamingError msg]).
Proof.
  intros env o.
  apply (X7_no_answer_no_generation_packets env
           (Scenario.request "draw" None Scenario.search_options None)
           None Scenario.fresh_store Scenario.default_num_chunks
           Scenario.max_document_percentage false None).
  reflexivity.
Defined.

(** ** A turn that completes *)

Lemma answer_turn_ok env new_msg_req d m h su ch fl f g f' :
  answer_turn env new_msg_req d m h su ch fl f = (Ok g, f') ->
  exists sel pc tv a f6 v,
    select_documents env new_msg_req su d m f = (Ok sel, f)
    /\ build_prompt_config (fl_request fl) (su_chat_session su) (su_persona su)
         (final_msg ch) = Ok pc
    /\ for_each (configure_tool env (fl_request fl) su fl sel pc h)
         (tools (su_persona su)) {| search_tool := None; tool_dict := [] |} f
       = (Ok tv, f)
    /\ build_answer env su ch fl sel pc tv f = (Ok a, f6)
    /\ event_loop env new_msg_req sel (processed_streamed_output env a) f6
       = (Ok v, f')
    /\ g = {| g_setup := su; g_chain := ch; g_tool_dict := tool_dict tv;
              g_answer := a; g_run := processed_streamed_output env a;
              g_vars := v |}.
Proof.
  unfold answer_turn. rewrite bind_eq.
  destruct (select_documents env new_msg_req su d m f) as [[sel | e] f4] eqn:Hsel;
    [| discriminate].
  pose proof (keeps_run eq _ _ _ _ (keeps_select_documents _ _ _ _ _ _) Hsel) as E4.
  subst f4. rewrite bind_eq. unfold call at 1.
  destruct (build_prompt_config (fl_request fl) (su_chat_session su)
              (su_persona su) (final_msg ch)) as [pc | e]; [| discriminate].
  rewrite bind_eq.
  destruct (for_each (configure_tool env (fl_request fl) su fl sel pc h)
              (tools (su_persona su)) {| search_tool := None; tool_dict := [] |} f)
    as [[tv | e] f5] eqn:Ht; [| discriminate].
  pose proof (keeps_run eq _ _ _ _
                (keeps_for_each _ _ _
                   (fun s x => keeps_configure_tool _ env (fl_request fl)
                                 su fl sel pc h s x) _) Ht) as E5.
  subst f5. rewrite bind_eq.
  destruct (build_answer env su ch fl sel pc tv f) as [[a | e] f6] eqn:Hb;
    [| discriminate].
  cbv zeta. rewrite bind_eq.
  destruct (event_loop env new_msg_req sel (processed_streamed_output env a) f6)
    as [[v | e] f7] eqn:He; [| discriminate].
  intros H. inversion H; subst.
  exists sel, pc, tv, a, f6, v. repeat split; assumption.
Qed.

(** The persistence phase, when it returns. *)
Lemma persistence_ok env new_msg_req g f f' :
  persistence env new_msg_req g f = (Ok tt, f') ->
  exists toks cits calls detail,
    encode (su_tokenizer (g_setup g)) (llm_answer (g_run g)) = Ok toks
    /\ (if list_truthy (reference_db_search_docs (g_vars g))
        then exists c,
               translate_citations env (citations (g_run g))
                 (match reference_db_search_docs (g_vars g) with
                  | Some docs => docs
                  | None => []
                  end) = Ok c
               /\ cits = Some c
        else cits = None)
    /\ match tool_result (g_vars g) with
       | Some r =>
           exists i,
             lookup_tool_id (tool_name_to_tool_id_of env (g_tool_dict g))
               (fr_tool_name r) = Ok i
             /\ calls = [ {| tc_tool_id := i;
                             tc_tool_name := fr_tool_name r;
                             tc_tool_arguments := fr_tool_args r;
                             tc_tool_result := fr_tool_result r |} ]
       | None => calls = []
       end
    /\ let am := fst (create_new_chat_message (prompt_of env)
                        (assistant_message_args new_msg_req g (length toks)
                           cits calls) (db_session f)) in
       db_session f' = commit (add am (db_session f))
       /\ translate_db_message_to_chat_message_detail env am = Ok detail
       /\ stream f' = stream f ++ [MessageDetail detail].
Proof.
  intros H.
  unfold persistence, bind, call, session_call, ret, yield, with_session in H.
  crunch H; inversion H; subst; clear H; cbn [db_session stream].
  all: do 4 eexists.
  all: split; [reflexivity |].
  all: split; [first [eexists; split; reflexivity | reflexivity] |].
  all: split; [first [eexists; split; reflexivity | reflexivity] |].
  all: cbv zeta.
  all: match goal with
       | E : create_new_chat_message ?p ?a ?s0 = (?c, ?s) |- _ =>
           let K := fresh "K" in
           destruct (create_staged p a s0 eq_refl) as (K & _);
           cbv zeta in K; rewrite E in K; cbn [fst] in K;
           inversion K; subst; rewrite E; cbn [fst]
       end.
  all: split; [reflexivity | split; [eassumption | reflexivity]].
Qed.

Lemma event_loop_ok env new_msg_req sel run f v f' :
  event_loop env new_msg_req sel run f = (Ok v, f') ->
  for_each (handle_packet env new_msg_req sel) (events run) initial_loop_vars f
  = (Ok v, f')
  /\ failure run = None.
Proof.
  unfold event_loop. rewrite bind_eq.
  destruct (for_each _ (events run) initial_loop_vars f) as [[v1 | e] f1];
    [| discriminate].
  destruct (failure run); [discriminate |].
  intros H. inversion H; subst. split; reflexivity.
Qed.

Lemma setup_tokenizer env new_msg_req user h f su f1 :
  setup env new_msg_req user h f = (Ok su, f1) ->
  get_tokenizer env (model_name (config (su_llm su)))
    (model_provider (config (su_llm su))) = Ok (su_tokenizer su).
Proof.
  intros H. unfold setup, bind, call, ret, raise, assign_llm in H.
  crunch H; inversion H; subst; cbn [su_llm su_tokenizer]; assumption.
Qed.

Lemma last_item_app {A : Type} (l : list A) (x : A) :
  last_item (l ++ [x]) = Some x.
Proof.
  induction l as [| y rest IH]; [reflexivity |].
  simpl. destruct (rest ++ [x]) eqn:E; [| exact IH].
  destruct rest; discriminate.
Qed.

(** A turn that completes ran both phases to their end: the stages of
    the generation phase, the event loop over all the events of the
    engine, and the persistence phase. *)
Lemma completed_turn env new_msg_req user db d m u h :
  let o := stream_chat_message_objects env new_msg_req user db d m u h in
  ending o = Completed ->
  exists g f1 sel f6,
    generation env new_msg_req user d m u h (initial_frame db) = (Ok g, f1)
    /\ persistence env new_msg_req g f1 = (Ok tt, frame o)
    /\ answer (frame o) = Some (g_answer g)
    /\ llm (frame o) = Some (su_llm (g_setup g))
    /\ get_tokenizer env (model_name (config (su_llm (g_setup g))))
         (model_provider (config (su_llm (g_setup g))))
       = Ok (su_tokenizer (g_setup g))
    /\ g_run g = processed_streamed_output env (g_answer g)
    /\ answer_tools (g_answer g) = concat (dict_values (g_tool_dict g))
    /\ failure (g_run g) = None
    /\ stream f6 = []
    /\ for_each (handle_packet env new_msg_req sel) (events (g_run g))
         initial_loop_vars f6 = (Ok (g_vars g), f1).
Proof.
  intros o Hend. subst o. unfold stream_chat_message_objects in *.
  destruct (generation env new_msg_req user d m u h (initial_frame db))
    as [[g | e] f1] eqn:Hg.
  2: { destruct (on_generation_error e f1) as [[[] | e'] f2]; discriminate. }
  destruct (persistence env new_msg_req g f1) as [[[] | e] f2] eqn:Hp;
    [| discriminate].
  clear Hend. cbn [frame].
  destruct (generation_stages _ _ _ _ _ _ _ _ _ _ Hg)
    as (fa & fb & fc & fl & Hs & Hc & Hl & Ha).
  destruct (answer_turn_ok _ _ _ _ _ _ _ _ _ _ _ Ha)
    as (sel & pc & tv & a & f6 & v & Hsel & Hpc & Ht & Hb & He & Eg).
  destruct (generation_from_stages _ _ _ _ d m u _ _ _ _ _ _ _ _ _ _ _ _ _ _
              Hs Hc Hl Hsel Hpc Ht Hb) as (Hempty & _).
  destruct (event_loop_ok _ _ _ _ _ _ _ He) as (Hloop & Hfail).
  pose proof (build_answer_result _ _ _ _ _ _ _ _ _ _ Hb) as Hres.
  cbv beta iota in Hres. destruct Hres as (Hans & _ & _ & Htools & _).
  pose proof (keeps_run _ _ _ _ _ (event_loop_same_answer _ _ _ _) He) as A7.
  pose proof (setup_binds_llm _ _ _ _ _ _ _ Hs) as Hfa.
  pose proof (setup_tokenizer _ _ _ _ _ _ _ Hs) as Htk.
  destruct (persistence_runs _ _ _ _ _ _ Hp) as (Pl & Pa & _).
  unfold same_on in A7.
  assert (Hllm : llm f1 = Some (su_llm (g_setup g))).
  { unfold generation in Hg. rewrite bind_eq, Hs in Hg.
    pose proof (keeps_run _ _ _ _ _
                  (after_setup_same_llm env new_msg_req d m u h (g_setup g)) Hg)
      as L7.
    unfold same_on in L7.
    rewrite L7, Hfa. reflexivity. }
  exists g, f1, sel, f6.
  rewrite Eg in *. cbn [g_answer g_run g_tool_dict g_vars g_setup] in *.
  repeat split; try assumption; try congruence.
Qed.

(** X8: a turn that completes has stored the answer of the engine: the
    last committed row is the [ASSISTANT] row, its text is the engine's
    [llm_answer], its token count the length of that text's encoding by
    the tokenizer of the LLM in use, it carries no error, nothing stays
    staged, and the last packet of the stream is the detail of that very
    row. *)
Theorem X8_completed_turn_stores_the_answer env new_msg_req user db d m u h :
  let o := stream_chat_message_objects env new_msg_req user db d m u h in
  ending o = Completed ->
  exists a l tk toks am detail,
    answer (frame o) = Some a
    /\ llm (frame o) = Some l
    /\ get_tokenizer env (model_name (config l)) (model_provider (config l)) = Ok tk
    /\ encode tk (llm_answer (processed_streamed_output env a)) = Ok toks
    /\ last_item (committed (session_after o)) = Some am
    /\ pending (session_after o) = []
    /\ msg_message am = llm_answer (processed_streamed_output env a)
    /\ msg_token_count am = length toks
    /\ msg_message_type am = ASSISTANT
    /\ msg_error am = None
    /\ msg_alternate_assistant_id am = alternate_assistant_id new_msg_req
    /\ translate_db_message_to_chat_message_detail env am = Ok detail
    /\ last_item (packets o) = Some (MessageDetail detail).
Proof.
  intros o Hend.
  destruct (completed_turn env new_msg_req user db d m u h Hend)
    as (g & f1 & sel & f6 & Hg & Hp & Ha & Hl & Htk & Hrun & _).
  fold o in Hp, Ha, Hl.
  destruct (persistence_ok _ _ _ _ _ Hp)
    as (toks & cits & calls & detail & Henc & _ & _ & Hdb & Htr & Hst).
  cbv zeta in Hdb, Htr.
  set (am := fst (create_new_chat_message (prompt_of env)
                    (assistant_message_args new_msg_req g (length toks) cits calls)
                    (db_session f1))) in *.
  exists (g_answer g), (su_llm (g_setup g)), (su_tokenizer (g_setup g)),
         toks, am, detail.
  rewrite <- Hrun. unfold session_after, packets. rewrite Hdb, Hst.
  cbn [commit add committed pending].
  rewrite app_assoc, !last_item_app.
  repeat split; assumption.
Qed.

Lemma X8_completed_turn_witness :
  let o := Scenario.turn Scenario.standard
             (Scenario.request "hello" None Scenario.search_options None)
             Scenario.fresh_store false in
  exists am,
    last_item (committed (session_after o)) = Some am
    /\ msg_message am = "Hi"
    /\ msg_token_count am = 2%nat.
Proof.
  intros o.
  destruct (X8_completed_turn_stores_the_answer
              Scenario.standard
              (Scenario.request "hello" None Scenario.search_options None)
              None Scenario.fresh_store Scenario.default_num_chunks
              Scenario.max_document_percentage false None eq_refl)
    as (a & l & tk & toks & am & detail
        & Ha & Hl & Htk & Henc & Hlast & _ & Hmsg & Hcount & _).
  exists am. split; [exact Hlast |]. split; [exact Hmsg |].
  rewrite Hcount. simpl in Htk, Henc.
  injection Htk as <-. simpl in Henc. injection Henc as <-. reflexivity.
Defined.

(** ** The tool call and the files of the stored answer *)

Lemma dict_get_set {V : Type} (k name : string) (v : V) d :
  dict_get String.eqb name (dict_set String.eqb k v d) =
  if String.eqb name k then Some v else dict_get String.eqb name d.
Proof.
  induction d as [| [k' v'] rest IH]; simpl.
  - reflexivity.
  - destruct (String.eqb k k') eqn:E; simpl.
    + apply String.eqb_eq in E. subst k'.
      destruct (String.eqb name k); reflexivity.
    + rewrite IH. destruct (String.eqb name k') eqn:E1; [| reflexivity].
      destruct (String.eqb name k) eqn:E2; [| reflexivity].
      apply String.eqb_eq in E1, E2. subst.
      rewrite String.eqb_refl in E. discriminate.
Qed.

Lemma find_snoc {A : Type} (f : A -> bool) l x :
  find f (l ++ [x]) =
  match find f l with
  | Some y => Some y
  | None => if f x then Some x else None
  end.
Proof.
  induction l as [| y rest IH]; simpl; [reflexivity |].
  destruct (f y); [reflexivity | exact IH].
Qed.

(** Lines 595-598 set one dictionary entry per configured tool, in the
    order of [tool_names]. *)
Lemma tool_name_to_tool_id_fold env d acc :
  fold_left
    (fun acc entry =>
       fold_left (fun acc' tool =>
                    dict_set String.eqb (tool_name_of env tool) (fst entry) acc')
                 (snd entry) acc)
    d acc
  = fold_left (fun acc p => dict_set String.eqb (fst p) (snd p) acc)
      (tool_names env d) acc.
Proof.
  revert acc. induction d as [| [i ts] rest IH]; intros acc; [reflexivity |].
  unfold tool_names. simpl. rewrite fold_left_app.
  fold (tool_names env rest). rewrite <- IH. f_equal.
  clear IH. revert acc.
  induction ts as [| t ts' IHts]; intros acc; simpl; [reflexivity | apply IHts].
Qed.

Lemma dict_get_fold name (l : list (string * Z)) acc :
  dict_get String.eqb name
    (fold_left (fun acc p => dict_set String.eqb (fst p) (snd p) acc) l acc) =
  match find (fun p => String.eqb name (fst p)) (rev l) with
  | Some p => Some (snd p)
  | None => dict_get String.eqb name acc
  end.
Proof.
  revert acc. induction l as [| p rest IH]; intros acc; simpl; [reflexivity |].
  rewrite IH, find_snoc, dict_get_set.
  destruct (find _ (rev rest)); [reflexivity |].
  destruct (String.eqb name (fst p)); reflexivity.
Qed.


(** A name that the lookup resolves is the name of a configured tool. *)
Lemma lookup_tool_id_configured env d name i :
  lookup_tool_id (tool_name_to_tool_id_of env d) name = Ok i ->
  exists ts t, In (i, ts) d /\ In t ts /\ tool_name_of env t = name.
Proof.
  unfold lookup_tool_id, tool_name_to_tool_id_of.
  rewrite tool_name_to_tool_id_fold, dict_get_fold.
  destruct (find _ (rev (tool_names env d))) as [[n j] |] eqn:F;
    [| discriminate].
  intros H. injection H as <-.
  apply find_some in F. destruct F as [Hin Heq].
  simpl in Heq. apply String.eqb_eq in Heq. subst n.
  apply in_rev in Hin. unfold tool_names in Hin.
  apply in_flat_map in Hin. destruct Hin as ([i' ts] & Hd & Hm).
  apply in_map_iff in Hm. destruct Hm as (t & E & Ht).
  simpl in E. injection E as E1 E2. subst.
  exists ts, t. repeat split; assumption.
Qed.

Lemma last_committed_row s am s' :
  s' = commit (add am s) ->
  last_item (committed s') = Some am /\ pending s' = [].
Proof.
  intros ->. cbn [commit add committed pending].
  rewrite app_assoc, last_item_app. split; reflexivity.
Qed.

(** X10: the tool call stored with the answer of a completed turn is
    the last final tool-call result the engine sent (earlier ones are
    overwritten) with its name, arguments and result as sent; the name is
    that of a tool the [Answer] was given; and no tool call is stored when
    the engine sent no final result. *)
Theorem X10_stored_tool_call_is_the_last_final_result
    env new_msg_req user db d m u h :
  let o := stream_chat_message_objects env new_msg_req user db d m u h in
  ending o = Completed ->
  exists a am,
    answer (frame o) = Some a
    /\ last_item (committed (session_after o)) = Some am
    /\ match last_final_result None (events (processed_streamed_output env a)) with
       | None => msg_tool_calls am = []
       | Some r =>
           exists i t,
             In t (answer_tools a)
             /\ tool_name_of env t = fr_tool_name r
             /\ msg_tool_calls am =
                [ {| tc_tool_id := i;
                     tc_tool_name := fr_tool_name r;
                     tc_tool_arguments := fr_tool_args r;
                     tc_tool_result := fr_tool_result r |} ]
       end.
Proof.
  intros o Hend.
  destruct (completed_turn env new_msg_req user db d m u h Hend)
    as (g & f1 & sel & f6 & Hg & Hp & Ha & _ & _ & Hrun & Htools & _ & _ & Hloop).
  fold o in Hp, Ha.
  destruct (persistence_ok _ _ _ _ _ Hp)
    as (toks & cits & calls & detail & _ & _ & Hcalls & Hdb & _).
  apply last_committed_row in Hdb. destruct Hdb as (Hlast & _).
  destruct (for_each_steps _ _ _ _ _ _ _ _ Hloop) as (k & _ & _ & _ & Hok).
  destruct (Hok _ eq_refl) as (_ & Htool & _).
  cbn [tool_result initial_loop_vars] in Htool.
  eexists (g_answer g), _. split; [exact Ha |]. split; [exact Hlast |].
  rewrite <- Hrun, <- Htool. cbn [fst create_new_chat_message msg_tool_calls
                                  assistant_message_args nm_tool_calls].
  destruct (tool_result (g_vars g)) as [r |].
  - destruct Hcalls as (i & Hlook & ->).
    destruct (lookup_tool_id_configured _ _ _ _ Hlook) as (ts & t & Hin & Ht & Hname).
    exists i, t. rewrite Htools. split; [| split; [exact Hname | reflexivity]].
    apply in_concat. exists ts. split; [| exact Ht].
    unfold dict_values. apply in_map_iff. exists (i, ts). split; [reflexivity | exact Hin].
  - exact Hcalls.
Qed.

Lemma X10_stored_tool_call_witness :
  let env := Scenario.installation [Scenario.internet_tool_model]
               Scenario.openai_llm [] Scenario.newest_is_leaf
               Scenario.no_fault tool_call_run in
  let o := Scenario.turn env
             (Scenario.request "hello" None Scenario.search_options None)
             Scenario.fresh_store false in
  exists am i,
    last_item (committed (session_after o)) = Some am
    /\ msg_tool_calls am =
       [ {| tc_tool_id := i;
            tc_tool_name := "run_internet_search";
            tc_tool_arguments := "{}";
            tc_tool_result := "found" |} ].
Proof.
  intros env o.
  destruct (X10_stored_tool_call_is_the_last_final_result env
              (Scenario.request "hello" None Scenario.search_options None)
              None Scenario.fresh_store Scenario.default_num_chunks
              Scenario.max_document_percentage false None eq_refl)
    as (a & am & _ & Hlast & Hcall).
  simpl in Hcall. destruct Hcall as (i & t & _ & _ & Hcall).
  exists am, i. split; [exact Hlast | exact Hcall].
Defined.

(** X11: the files stored with the answer of a completed turn are the
    images of the last image-generation response the engine sent, saved
    by [save_files_from_urls] and typed [IMAGE]; the files of an earlier
    response are not stored; and no file is stored when the engine sent no
    such response. *)
Theorem X11_stored_files_are_the_last_generated_images
    env new_msg_req user db d m u h :
  let o := stream_chat_message_objects env new_msg_req user db d m u h in
  ending o = Completed ->
  exists a am,
    answer (frame o) = Some a
    /\ last_item (committed (session_after o)) = Some am
    /\ match last_image_urls None (events (processed_streamed_output env a)) with
       | None => msg_files am = []
       | Some urls =>
           exists ids,
             save_files_from_urls env urls = Ok ids
             /\ msg_files am = map (fun i => {| fd_id := i; fd_type := IMAGE |}) ids
       end.
Proof.
  intros o Hend.
  destruct (completed_turn env new_msg_req user db d m u h Hend)
    as (g & f1 & sel & f6 & Hg & Hp & Ha & _ & _ & Hrun & _ & _ & _ & Hloop).
  fold o in Hp, Ha.
  destruct (persistence_ok _ _ _ _ _ Hp)
    as (toks & cits & calls & detail & _ & _ & _ & Hdb & _).
  apply last_committed_row in Hdb. destruct Hdb as (Hlast & _).
  destruct (for_each_steps _ _ _ _ _ _ _ _ Hloop) as (k & _ & _ & _ & Hok).
  destruct (Hok _ eq_refl) as (_ & _ & Himg).
  cbn [ai_message_files initial_loop_vars] in Himg.
  eexists (g_answer g), _. split; [exact Ha |]. split; [exact Hlast |].
  rewrite <- Hrun. cbn [fst create_new_chat_message msg_files
                        assistant_message_args nm_files].
  destruct (last_image_urls None (events (g_run g))) as [urls |].
  - destruct Himg as (ids & Hsave & ->). exists ids. split; [exact Hsave | reflexivity].
  - rewrite Himg. reflexivity.
Qed.

Lemma X11_stored_files_witness :
  let env := Scenario.installation [Scenario.image_tool_model]
               Scenario.openai_llm [] Scenario.newest_is_leaf
               Scenario.no_fault two_images_run in
  let o := Scenario.turn env
             (Scenario.request "draw" None Scenario.search_options None)
             Scenario.fresh_store false in
  exists am,
    last_item (committed (session_after o)) = Some am
    /\ msg_files am = [ {| fd_id := "https://img/2"; fd_type := IMAGE |} ].
Proof.
  intros env o.
  destruct (X11_stored_files_are_the_last_generated_images env
              (Scenario.request "draw" None Scenario.search_options None)
              None Scenario.fresh_store Scenario.default_num_chunks
              Scenario.max_document_percentage false None eq_refl)
    as (a & am & _ & Hlast & Hfiles).
  simpl in Hfiles. destruct Hfiles as (ids & Hsave & Hfiles).
  injection Hsave as <-.
  exists am. split; [exact Hlast | exact Hfiles].
Defined.

(** ** The tools of the [Answer] *)

(** A property of the loop's locals that every iteration keeps holds
    when the loop ends. *)
Lemma for_each_state {A S : Type} (P : S -> Prop) (body : S -> A -> Gen S) :
  (forall s x f s' f', P s -> body s x f = (Ok s', f') -> P s') ->
  forall xs s f s' f', P s -> for_each body xs s f = (Ok s', f') -> P s'.
Proof.
  intros Hbody. induction xs as [| x rest IH]; intros s f s' f' Hs H; simpl in H.
  - inversion H; subst. exact Hs.
  - rewrite bind_eq in H.
    destruct (body s x f) as [[s1 | e] f1] eqn:Hb; [| discriminate].
    apply (IH s1 f1 s' f'); [| exact H].
    apply (Hbody s x f s1 f1 Hs Hb).
Qed.

(** A loop that ends ran the body on each of its elements. *)
Lemma for_each_ok_in {A S : Type} (body : S -> A -> Gen S) xs x s f s' f' :
  for_each body xs s f = (Ok s', f') ->
  In x xs ->
  exists s1 f1 s2 f2, body s1 x f1 = (Ok s2, f2).
Proof.
  revert s f. induction xs as [| y rest IH]; intros s f H Hin; [destruct Hin |].
  simpl in H. rewrite bind_eq in H.
  destruct (body s y f) as [[s1 | e] f1] eqn:Hb; [| discriminate].
  destruct Hin as [-> | Hin].
  - exists s, f, s1, f1. exact Hb.
  - apply (IH s1 f1 H Hin).
Qed.

Lemma dict_set_values {V : Type} (P : V -> Prop) k v (d : list (Z * V)) :
  P v ->
  Forall (fun e => P (snd e)) d ->
  Forall (fun e => P (snd e)) (dict_set Z.eqb k v d).
Proof.
  intros Hv Hd. induction Hd as [| [k' v'] rest Hx Hrest IH]; simpl.
  - constructor; [exact Hv | constructor].
  - destruct (Z.eqb k k'); constructor; assumption.
Qed.

(** The configuration the image-generation tool is built from has a
    key. *)
Lemma resolve_image_generation_config_key env l cfg :
  resolve_image_generation_config env l = Ok cfg ->
  PyStr.truthy (api_key cfg) = true.
Proof.
  unfold resolve_image_generation_config.
  destruct (object_truthy l && PyStr.truthy (api_key (config l))
            && (model_provider (config l) =? "openai")%string) eqn:E.
  - intros H. injection H as <-.
    apply andb_true_iff in E. destruct E as [E _].
    apply andb_true_iff in E. destruct E as [_ E]. exact E.
  - destruct (fetch_existing_llm_providers env) as [providers | e]; [| discriminate].
    destruct (hd_error _) as [p |]; [| discriminate].
    destruct (PyStr.truthy (provider_api_key p)) eqn:K; simpl; [| discriminate].
    intros H. injection H as <-. exact K.
Qed.

Lemma custom_tool_configured env files t :
  is_custom_tool t = true -> configured_for env files t.
Proof. destruct t; try discriminate. intros _. split; [discriminate | exact I]. Qed.

(** One iteration of the tool loop keeps every configured tool as
    [configured_for] asks. *)
Lemma configure_tool_keeps_configured env new_msg_req su fl sel pc h tv t f tv' f' :
  custom_tools_only env ->
  Forall (fun e => Forall (configured_for env (fl_latest_query_files fl)) (snd e))
    (tool_dict tv) ->
  configure_tool env new_msg_req su fl sel pc h tv t f = (Ok tv', f') ->
  Forall (fun e => Forall (configured_for env (fl_latest_query_files fl)) (snd e))
    (tool_dict tv').
Proof.
  intros Hcustom Hinv H.
  unfold configure_tool, bind, call, ret, raise in H.
  crunch H; inversion H; subst; clear H; cbn [tool_dict]; try exact Hinv.
  all: apply dict_set_values; [| exact Hinv].
  - constructor; [| constructor]. split; [intros _; reflexivity | exact I].
  - constructor; [| constructor]. split; [discriminate |].
    eapply resolve_image_generation_config_key. eassumption.
  - constructor; [| constructor]. split; [discriminate |].
    split; [reflexivity |].
    apply negb_false_iff. assumption.
  - apply Forall_forall. intros x Hx. apply custom_tool_configured.
    match goal with
    | E : build_custom_tools_from_openapi_schema _ _ = Ok _ |- _ =>
        pose proof (Hcustom _ _ E) as Hall
    end.
    rewrite forallb_forall in Hall. apply Hall. exact Hx.
Qed.

Lemma build_answer_files env su ch fl sel pc tv f a f' :
  build_answer env su ch fl sel pc tv f = (Ok a, f') ->
  latest_query_files a = fl_latest_query_files fl.
Proof.
  intros H. unfold build_answer, bind, call, ret, assign_answer in H.
  crunch H; inversion H; reflexivity.
Qed.

(** The tools of the [Answer] of a turn are configured as
    [configured_for] asks, for the query files of that [Answer]. *)
Lemma answer_tools_configured env new_msg_req user db d m u h a :
  custom_tools_only env ->
  answer (frame (stream_chat_message_objects env new_msg_req user db d m u h))
  = Some a ->
  Forall (configured_for env (latest_query_files a)) (answer_tools a).
Proof.
  intros Hcustom Ha.
  destruct (answer_built _ _ _ _ _ _ _ _ _ Ha)
    as (su & f1 & ch & f2 & fl & f3 & sel & f4 & pc & tv & f5 & f6
        & Hs & Hc & Hl & Hsel & Hpc & Ht & Hb).
  rewrite (build_answer_files _ _ _ _ _ _ _ _ _ _ Hb).
  pose proof (build_answer_result _ _ _ _ _ _ _ _ _ _ Hb) as Hres.
  cbv beta iota in Hres. destruct Hres as (_ & _ & _ & Htools & _).
  rewrite Htools.
  assert (Hinv : Forall (fun e => Forall (configured_for env (fl_latest_query_files fl))
                                    (snd e)) (tool_dict tv)).
  { refine (for_each_state
              (fun tv0 => Forall (fun e => Forall (configured_for env
                                                     (fl_latest_query_files fl)) (snd e))
                            (tool_dict tv0))
              _ _ _ _ _ _ _ _ Ht).
    - intros s x g s' g' Hs' Hb'.
      exact (configure_tool_keeps_configured _ _ _ _ _ _ _ _ _ _ _ _ Hcustom Hs' Hb').
    - constructor. }
  unfold dict_values. clear -Hinv.
  induction Hinv as [| e rest He Hrest IH]; simpl; [constructor |].
  apply Forall_app. split; assumption.
Qed.

(** X12: when the query comes with files of its own, the search tool is
    not offered to the engine: no tool of the [Answer] is a search tool,
    whatever the tools of the persona are. *)
Theorem X12_attached_files_switch_search_off env new_msg_req user db d m u h a :
  custom_tools_only env ->
  let o := stream_chat_message_objects env new_msg_req user db d m u h in
  answer (frame o) = Some a ->
  latest_query_files a <> [] ->
  existsb is_search_tool (answer_tools a) = false.
Proof.
  intros Hcustom o Ha Hfiles.
  pose proof (answer_tools_configured _ _ _ _ _ _ _ _ _ Hcustom Ha) as Hall.
  destruct (existsb is_search_tool (answer_tools a)) eqn:E; [| reflexivity].
  apply existsb_exists in E. destruct E as (t & Hin & Hsearch).
  rewrite Forall_forall in Hall. destruct (Hall t Hin) as (Hno & _).
  elim Hfiles. apply Hno. exact Hsearch.
Qed.

Lemma X12_attached_files_witness :
  let env := reconfigured
               (Scenario.installation [Scenario.search_tool_model]
                  Scenario.openai_llm [] Scenario.newest_is_leaf
                  Scenario.no_fault Scenario.plain_run)
               files_of_descriptors (Some "bing-key") in
  let req := with_file_descriptors [ {| fd_id := "f1"; fd_type := DOC |} ]
               (Scenario.request "summarise" None Scenario.search_options None) in
  let o := Scenario.turn env req Scenario.fresh_store false in
  exists a, answer (frame o) = Some a
            /\ existsb is_search_tool (answer_tools a) = false.
Proof.
  intros env req o.
  destruct (answer (frame o)) as [a |] eqn:E;
    [| vm_compute in E; discriminate].
  exists a. split; [reflexivity |].
  apply (X12_attached_files_switch_search_off env req None Scenario.fresh_store
           Scenario.default_num_chunks Scenario.max_document_percentage
           false None a).
  - intros schema ts Hb. injection Hb as <-. reflexivity.
  - exact E.
  - vm_compute in E. injection E as <-. discriminate.
Defined.

(** X13: a built-in tool that needs a key is handed to the engine with
    one: every image-generation tool of the [Answer] has a non-empty key,
    and every internet-search tool has the Bing key of the installation,
    which is non-empty. *)
Theorem X13_built_in_tools_carry_a_credential env new_msg_req user db d m u h a :
  custom_tools_only env ->
  let o := stream_chat_message_objects env new_msg_req user db d m u h in
  answer (frame o) = Some a ->
  Forall (has_credential env) (answer_tools a).
Proof.
  intros Hcustom o Ha.
  pose proof (answer_tools_configured _ _ _ _ _ _ _ _ _ Hcustom Ha) as Hall.
  eapply Forall_impl; [| exact Hall].
  intros t (_ & Hcred). exact Hcred.
Qed.

Lemma X13_built_in_tools_witness :
  let env := Scenario.installation
               [Scenario.image_tool_model; Scenario.internet_tool_model]
               Scenario.other_llm [Scenario.provider_of "openai" (Some "sk-2")]
               Scenario.newest_is_leaf Scenario.no_fault Scenario.plain_run in
  let o := Scenario.turn env
             (Scenario.request "draw" None Scenario.search_options None)
             Scenario.fresh_store false in
  answer_tools_of o =
  [ImageGenerationTool (Some "sk-2") None None None;
   InternetSearchTool (Some "bing-key")]
  /\ Forall (has_credential env) (answer_tools_of o).
Proof.
  intros env o. split; [reflexivity |].
  destruct (answer (frame o)) as [a |] eqn:E;
    [| vm_compute in E; discriminate].
  unfold answer_tools_of. rewrite E.
  apply (X13_built_in_tools_carry_a_credential env
           (Scenario.request "draw" None Scenario.search_options None)
           None Scenario.fresh_store Scenario.default_num_chunks
           Scenario.max_document_percentage false None a).
  - intros schema ts Hb. injection Hb as <-. reflexivity.
  - exact E.
Defined.

Lemma configure_internet_tool_without_key env new_msg_req su fl sel pc h tv t f :
  PyStr.truthy (in_code_tool_id t) = true ->
  get_built_in_tool_by_id env (tool_id t) = Ok InternetSearchToolClass ->
  PyStr.truthy (BING_API_KEY env) = false ->
  configure_tool env new_msg_req su fl sel pc h tv t f =
  (Raise (ValueError BING_KEY_REQUIRED), f).
Proof.
  intros Hin Hcls Hkey. unfold configure_tool, bind, call, raise.
  rewrite Hin, Hcls. destruct (fl_latest_query_files fl); rewrite Hkey; reflexivity.
Qed.

(** X14: an internet-search tool among the tools of the persona needs
    the Bing key of the installation: when the key is missing or empty the
    tool is not skipped, the turn builds no [Answer] and does not
    complete. *)
Theorem X14_internet_search_needs_the_bing_key
    env new_msg_req user db d m u h su f1 t :
  setup env new_msg_req user h (initial_frame db) = (Ok su, f1) ->
  In t (tools (su_persona su)) ->
  PyStr.truthy (in_code_tool_id t) = true ->
  get_built_in_tool_by_id env (tool_id t) = Ok InternetSearchToolClass ->
  PyStr.truthy (BING_API_KEY env) = false ->
  let o := stream_chat_message_objects env new_msg_req user db d m u h in
  answer (frame o) = None /\ ending o <> Completed.
Proof.
  intros Hs Hin Hcode Hcls Hkey o.
  assert (Hnone : answer (frame o) = None).
  { destruct (answer (frame o)) as [a |] eqn:Ha; [| reflexivity].
    exfalso.
    destruct (answer_built _ _ _ _ _ _ _ _ _ Ha)
      as (su' & f1' & ch & f2 & fl & f3 & sel & f4 & pc & tv & f5 & f6
          & Hs' & Hc & Hl & Hsel & Hpc & Ht & Hb).
    rewrite Hs in Hs'. injection Hs' as <- <-.
    destruct (for_each_ok_in _ _ _ _ _ _ _ Ht Hin) as (s1 & g1 & s2 & g2 & Hbody).
    rewrite (configure_internet_tool_without_key _ _ _ _ _ _ _ _ _ _
               Hcode Hcls Hkey) in Hbody.
    discriminate. }
  split; [exact Hnone |].
  intros Hend.
  destruct (completed_turn env new_msg_req user db d m u h Hend)
    as (g & _ & _ & _ & _ & _ & Ha & _).
  fold o in Ha. congruence.
Qed.

Lemma X14_internet_search_witness :
  let env := reconfigured
               (Scenario.installation [Scenario.internet_tool_model]
                  Scenario.openai_llm [] Scenario.newest_is_leaf
                  Scenario.no_fault Scenario.plain_run)
               (fun _ _ => Ok []) (Some "") in
  let o := Scenario.turn env
             (Scenario.request "search" None Scenario.search_options None)
             Scenario.fresh_store false in
  answer (frame o) = None /\ ending o <> Completed.
Proof.
  intros env o.
  refine (X14_internet_search_needs_the_bing_key env
            (Scenario.request "search" None Scenario.search_options None)
            None Scenario.fresh_store Scenario.default_num_chunks
            Scenario.max_document_percentage false None
            _ _ Scenario.internet_tool_model eq_refl _ eq_refl eq_refl eq_refl).
  left. reflexivity.
Defined.

(** ** The documents and citations of the stored answer *)

(** X15: the answer of a completed turn is stored with citations only
    when it is stored with referenced documents, at least one: the
    citations are then the engine's citations translated against those
    documents, and otherwise none are stored (and none are translated).
    Documents are stored with the answer only if a document list was
    streamed in the same turn. *)
Theorem X15_citations_need_referenced_documents env new_msg_req user db d m u h :
  let o := stream_chat_message_objects env new_msg_req user db d m u h in
  ending o = Completed ->
  exists a am,
    answer (frame o) = Some a
    /\ last_item (committed (session_after o)) = Some am
    /\ match msg_reference_docs am with
       | Some (doc :: rest) =>
           exists c,
             translate_citations env
               (citations (processed_streamed_output env a)) (doc :: rest) = Ok c
             /\ msg_citations am = Some c
       | _ => msg_citations am = None
       end
    /\ (is_some (msg_reference_docs am) = true ->
        existsb is_docs_packet (packets o) = true).
Proof.
  intros o Hend.
  destruct (completed_turn env new_msg_req user db d m u h Hend)
    as (g & f1 & sel & f6 & Hg & Hp & Ha & _ & _ & Hrun & _ & _ & Hempty & Hloop).
  fold o in Hp, Ha.
  destruct (persistence_ok _ _ _ _ _ Hp)
    as (toks & cits & calls & detail & _ & Hcits & _ & Hdb & _ & Hst).
  apply last_committed_row in Hdb. destruct Hdb as (Hlast & _).
  assert (Hinit : loop_invariant initial_loop_vars f6).
  { unfold loop_invariant. rewrite Hempty. split; [reflexivity | discriminate]. }
  destruct (for_each_invariant _ _ _ _ _ _ _ _ Hloop Hinit) as (_ & Hinv).
  destruct (Hinv _ eq_refl) as (_ & Hdocs).
  eexists (g_answer g), _. split; [exact Ha |]. split; [exact Hlast |].
  rewrite <- Hrun.
  cbn [fst create_new_chat_message msg_reference_docs msg_citations
       assistant_message_args nm_reference_docs nm_citations].
  split.
  - destruct (reference_db_search_docs (g_vars g)) as [[| doc rest] |];
      simpl in Hcits; assumption.
  - intros Hsome. unfold packets. rewrite Hst, existsb_app, (Hdocs Hsome).
    reflexivity.
Qed.

Lemma X15_citations_witness :
  let env := Scenario.installation [Scenario.internet_tool_model]
               Scenario.openai_llm [] Scenario.newest_is_leaf
               Scenario.no_fault tool_call_run in
  let o := Scenario.turn env
             (Scenario.request "hello" None Scenario.search_options None)
             Scenario.fresh_store false in
  exists am,
    last_item (committed (session_after o)) = Some am
    /\ msg_citations am = Some []
    /\ existsb is_docs_packet (packets o) = true.
Proof.
  intros env o.
  destruct (X15_citations_need_referenced_documents env
              (Scenario.request "hello" None Scenario.search_options None)
              None Scenario.fresh_store Scenario.default_num_chunks
              Scenario.max_document_percentage false None eq_refl)
    as (a & am & _ & Hlast & Hc & Hd).
  exists am. split; [exact Hlast |].
  vm_compute in Hlast. injection Hlast as <-.
  simpl in Hc. destruct Hc as (c & Hc & E). injection Hc as <-.
  split; [exact E | apply Hd; reflexivity].
Defined.

(** ** The stored user message *)

Lemma resolve_chain_staged_tokens env new_msg_req su f ch f' :
  resolve_chain env new_msg_req false su f = (Ok ch, f') ->
  exists toks,
    encode (su_tokenizer su) (message new_msg_req) = Ok toks
    /\ let staged := create_new_chat_message (prompt_of env)
                       (user_message_args new_msg_req su (length toks))
                       (db_session f) in
       f' = with_session (snd staged) f
       /\ user_message ch = Some (fst staged)
       /\ msg_id (final_msg ch) = msg_id (fst staged).
Proof.
  intros H.
  unfold resolve_chain, bind, call, session_call, chat_chain, do_rollback,
    raise, ret in H.
  change (negb false) with true in H. cbv beta iota in H.
  destruct (encode (su_tokenizer su) (message new_msg_req)) as [tokens | e];
    [| discriminate].
  exists tokens. split; [reflexivity |]. cbv zeta.
  destruct (db_fault env (CreateMessageCall USER)); [discriminate |].
  destruct (create_new_chat_message _ _ _) as [um s'].
  cbn [db_session with_session] in H.
  destruct (create_chat_chain _ _ _) as [[fm hist] | e]; [| discriminate].
  destruct (msg_id fm =? msg_id um)%Z eqn:E; simpl in H; [| discriminate].
  inversion H; subst. cbn [fst snd user_message final_msg].
  repeat split. apply Z.eqb_eq. exact E.
Qed.

(** The files of the query are those loaded files that the request
    describes. *)
Lemma load_files_latest env new_msg_req ch f fl f' :
  load_files env new_msg_req ch f = (Ok fl, f') ->
  forall file, In file (fl_latest_query_files fl) ->
               In (file_id file) (map fd_id (file_descriptors new_msg_req)).
Proof.
  intros H file Hin.
  assert (Hfd : file_descriptors (disable_rephrasing new_msg_req (history_msgs ch))
                = file_descriptors new_msg_req)
    by (unfold disable_rephrasing; destruct (history_msgs ch); reflexivity).
  unfold load_files, bind, call, session_call, ret in H.
  crunch H; inversion H; subst; clear H; cbn [fl_latest_query_files] in Hin.
  all: apply filter_In in Hin; destruct Hin as (_ & Hlatest).
  all: unfold is_latest_query_file in Hlatest; rewrite Hfd in Hlatest.
  all: apply existsb_exists in Hlatest; destruct Hlatest as (x & Hx & Heq).
  all: apply String.eqb_eq in Heq; subst x; exact Hx.
Qed.

(** X16: a completed turn that inserts the user message has committed,
    next to the rows of before, the user message and then the answer.  The
    user row has the next identifier of the session, the text of the
    request (whatever [query_override] says), the token count of that text
    under the tokenizer of the LLM in use, the same prompt id and session
    as the answer, and as its files the query files of the [Answer], each
    of which the request describes.  The session is taken without staged
    rows and with no committed row bearing its next identifier. *)
Theorem X16_stored_user_message env new_msg_req user db d m h :
  pending db = [] ->
  fresh_ids db ->
  let o := stream_chat_message_objects env new_msg_req user db d m false h in
  ending o = Completed ->
  exists a l tk toks um am,
    answer (frame o) = Some a
    /\ llm (frame o) = Some l
    /\ get_tokenizer env (model_name (config l)) (model_provider (config l)) = Ok tk
    /\ encode tk (message new_msg_req) = Ok toks
    /\ committed (session_after o) = committed db ++ [um; am]
    /\ msg_id um = next_id db
    /\ msg_message um = message new_msg_req
    /\ msg_token_count um = length toks
    /\ msg_message_type um = USER
    /\ msg_prompt_id um = msg_prompt_id am
    /\ msg_chat_session_id um = msg_chat_session_id am
    /\ msg_files um = map to_file_descriptor (latest_query_files a)
    /\ (forall fd, In fd (msg_files um) ->
                   In (fd_id fd) (map fd_id (file_descriptors new_msg_req))).
Proof.
  intros Hpending Hfresh o Hend.
  destruct (completed_turn env new_msg_req user db d m false h Hend)
    as (g & f1 & sel & f6 & Hg & Hp & Ha & Hl & Htk & _).
  fold o in Hp, Ha, Hl.
  destruct (generation_stages _ _ _ _ _ _ _ _ _ _ Hg)
    as (fa & fb & fc & fl & Hs & Hc & Hld & Hat).
  apply setup_binds_llm in Hs. cbn [initial_frame db_session stream answer] in Hs.
  destruct (resolve_chain_staged_tokens _ _ _ _ _ _ Hc)
    as (toks & Henc & Hfb & Hum & _).
  cbv zeta in Hfb, Hum.
  destruct (create_staged (prompt_of env)
              (user_message_args new_msg_req (g_setup g) (length toks))
              (db_session fa) eq_refl) as (Ecreate & Hid & Htype & _).
  cbv zeta in Ecreate, Hid, Htype.
  assert (Hcontent :
            let um := fst (create_new_chat_message (prompt_of env)
                             (user_message_args new_msg_req (g_setup g) (length toks))
                             (db_session fa)) in
            msg_message um = message new_msg_req
            /\ msg_token_count um = length toks
            /\ msg_prompt_id um = su_prompt_id (g_setup g)
            /\ msg_chat_session_id um = session_id (su_chat_session (g_setup g)))
    by (repeat split).
  cbv zeta in Hcontent.
  set (um := fst (create_new_chat_message (prompt_of env)
                    (user_message_args new_msg_req (g_setup g) (length toks))
                    (db_session fa))) in *.
  rewrite Ecreate in Hfb. cbn [snd] in Hfb.
  pose proof (load_files_attaches _ _ _ _ _ _ _ Hum Hld) as Hfc.
  pose proof (load_files_latest _ _ _ _ _ _ Hld) as Hdescribed.
  pose proof (keeps_run _ _ _ _ _
                (answer_turn_same_db env new_msg_req d m h
                   (g_setup g) (g_chain g) fl) Hat) as Hf1.
  unfold same_on in Hf1.
  destruct (answer_turn_ok _ _ _ _ _ _ _ _ _ _ _ Hat)
    as (sel' & pc & tv & a & f6' & v & _ & _ & _ & Hb & _ & Eg).
  pose proof (build_answer_files _ _ _ _ _ _ _ _ _ _ Hb) as Hfiles.
  assert (Hanswer : g_answer g = a) by (rewrite Eg; reflexivity).
  assert (Hdbfa : db_session fa = db) by (subst fa; reflexivity).
  assert (Hdbfb : db_session fb = add um db)
    by (subst fb; rewrite Hdbfa; reflexivity).
  rewrite Hdbfa in Hid. rewrite Hdbfb in Hfc. rewrite Hfc in Hf1.
  set (fs := map to_file_descriptor (fl_latest_query_files fl)) in *.
  assert (Hcommitted : committed (db_session f1) = committed db).
  { rewrite Hf1. rewrite attach_to_fresh_row; [reflexivity |].
    intros x Hx. rewrite Hid. apply Hfresh. exact Hx. }
  assert (Hstaged : pending (db_session f1) = [set_files fs um]).
  { rewrite Hf1. unfold attach_files_to_chat_message, add.
    cbn [pending map]. rewrite Hpending. simpl.
    rewrite Z.eqb_refl. reflexivity. }
  destruct (persistence_ok _ _ _ _ _ Hp)
    as (toks' & cits & calls & detail & _ & _ & _ & Hdb & _).
  cbv zeta in Hdb.
  destruct Hcontent as (Hmsg & Hcount & Hprompt & Hsession).
  exists (g_answer g), (su_llm (g_setup g)), (su_tokenizer (g_setup g)), toks,
         (set_files fs um),
         (fst (create_new_chat_message (prompt_of env)
                 (assistant_message_args new_msg_req g (length toks') cits calls)
                 (db_session f1))).
  split; [exact Ha |]. split; [exact Hl |]. split; [exact Htk |].
  split; [exact Henc |].
  split.
  { unfold session_after. rewrite Hdb. cbn [commit add committed pending].
    rewrite Hcommitted, Hstaged. reflexivity. }
  cbn [set_files msg_id msg_message msg_token_count msg_message_type
       msg_prompt_id msg_chat_session_id msg_files].
  split; [exact Hid |]. split; [exact Hmsg |]. split; [exact Hcount |].
  split; [exact Htype |]. split; [exact Hprompt |]. split; [exact Hsession |].
  split; [rewrite Hanswer, Hfiles; reflexivity |].
  intros fd Hfd. subst fs. apply in_map_iff in Hfd.
  destruct Hfd as (file & <- & Hin). apply (Hdescribed file Hin).
Qed.

Lemma X16_stored_user_message_witness :
  let env := reconfigured Scenario.standard files_of_descriptors (Some "bing-key") in
  let req := with_file_descriptors [ {| fd_id := "f1"; fd_type := DOC |} ]
               (Scenario.request "summarise" None Scenario.search_options None) in
  let o := Scenario.turn env req Scenario.fresh_store false in
  exists um am,
    committed (session_after o) = committed Scenario.fresh_store ++ [um; am]
    /\ msg_message um = "summarise"
    /\ msg_token_count um = 9%nat
    /\ msg_files um = [ {| fd_id := "f1"; fd_type := DOC |} ].
Proof.
  intros env req o.
  destruct (X16_stored_user_message env req None Scenario.fresh_store
              Scenario.default_num_chunks Scenario.max_document_percentage None)
    as (a & l & tk & toks & um & am & Ha & _ & Htk & Henc & Hcommitted & _
        & Hmsg & Hcount & _ & _ & _ & Hfiles & _).
  - reflexivity.
  - intros x [<- | []]. vm_compute. discriminate.
  - vm_compute. reflexivity.
  - exists um, am. split; [exact Hcommitted |]. split; [exact Hmsg |].
    simpl in Htk. injection Htk as <-. simpl in Henc. injection Henc as <-.
    split; [exact Hcount |].
    vm_compute in Ha. injection Ha as <-. exact Hfiles.
Defined.

(** ** What the caller of [stream_chat_message] reads *)

(** X17: [stream_chat_message] yields one line per packet of the turn,
    in order.  Either it ends normally, and then it has yielded at least
    one line, the last one being the line of the closing packet (a final
    message detail or a [StreamingError]); or an exception leaves it, and
    then that is the [UnboundLocalError] for [llm] and no line at all was
    yielded. *)
Theorem X17_lines_of_a_turn env sv new_msg_req user u h :
  let r := stream_chat_message env sv new_msg_req user u h in
  let o := stream_chat_message_objects env new_msg_req user
             (get_session_context_manager sv)
             (MAX_CHUNKS_FED_TO_CHAT sv) (CHAT_TARGET_CHUNK_PERCENTAGE sv) u h in
  length (fst r) = length (packets o)
  /\ match snd r with
     | Some e => e = UnboundLocalError "llm" /\ fst r = []
     | None =>
         exists body p,
           packets o = body ++ [p]
           /\ fst r = map (get_json_line sv) body ++ [get_json_line sv p]
           /\ ~ generation_packet p
     end.
Proof.
  intros r o. subst r. unfold stream_chat_message. fold o. cbn [fst snd].
  split; [apply length_map |].
  destruct (turn_packets env new_msg_req user (get_session_context_manager sv)
              (MAX_CHUNKS_FED_TO_CHAT sv) (CHAT_TARGET_CHUNK_PERCENTAGE sv) u h)
    as (r & f1 & tail & Hg & Hp & Ht).
  fold o in Hp.
  assert (Hclosed : forall p, tail = [p] -> ~ generation_packet p ->
                    exists body q,
                      packets o = body ++ [q]
                      /\ map (get_json_line sv) (packets o) =
                         map (get_json_line sv) body ++ [get_json_line sv q]
                      /\ ~ generation_packet q).
  { intros p -> Hp'. exists (stream f1), p. rewrite Hp, map_app.
    repeat split. exact Hp'. }
  subst o. unfold stream_chat_message_objects in *. rewrite Hg in *.
  destruct r as [g | e0].
  - destruct (persistence env new_msg_req g f1) as [[[] | e1] f2] eqn:Hpers;
      cbn [ending frame] in *;
      destruct Ht as [-> | [[msg ->] | [detail ->]]];
      try (apply (Hclosed _ eq_refl); intros []).
    all: exfalso; apply persistence_runs in Hpers;
      destruct Hpers as (_ & _ & Hpers).
    + destruct Hpers as (tokens & cits & calls & detail & _ & Hs).
      unfold packets in Hp. cbn [frame] in Hp. rewrite Hs, app_nil_r in Hp.
      apply (f_equal (@length ChatPacket)) in Hp. rewrite length_app in Hp.
      simpl in Hp. lia.
    + destruct Hpers as (Hs & _).
      unfold packets in Hp. cbn [frame yield snd stream] in Hp.
      rewrite Hs, app_nil_r in Hp.
      apply (f_equal (@length ChatPacket)) in Hp. rewrite length_app in Hp.
      simpl in Hp. lia.
  - destruct (llm f1) as [l |] eqn:Hl.
    + destruct (on_generation_error_bound e0 f1 l Hl) as [msg Hmsg].
      rewrite Hmsg in *. cbn [ending frame] in *.
      destruct Ht as [-> | [[msg' ->] | [detail ->]]];
        try (apply (Hclosed _ eq_refl); intros []).
      exfalso. unfold packets in Hp. cbn [frame stream] in Hp.
      rewrite app_nil_r in Hp.
      apply (f_equal (@length ChatPacket)) in Hp. rewrite length_app in Hp.
      simpl in Hp. lia.
    + rewrite (on_generation_error_unbound e0 f1 Hl) in *.
      cbn [ending frame] in *.
      rewrite (generation_unbound_frame _ _ _ _ _ _ _ _ _ _ Hg Hl).
      split; reflexivity.
Qed.

(** ** Commits and rollbacks of a turn *)

Lemma resolve_chain_counters env new_msg_req u su f r f' :
  resolve_chain env new_msg_req u su f = (r, f') ->
  commits (db_session f') = commits (db_session f)
  /\ match r with
     | Ok _ => rollbacks (db_session f') = rollbacks (db_session f)
     | Raise e =>
         rollbacks (db_session f') = rollbacks (db_session f)
         \/ (e = RuntimeError NOT_ON_MAINLINE
             /\ rollbacks (db_session f') = S (rollbacks (db_session f)))
     end.
Proof.
  intros H.
  unfold resolve_chain, bind, call, session_call, chat_chain, do_rollback,
    raise, ret, with_session in H.
  destruct u;
    [change (negb true) with false in H | change (negb false) with true in H];
    cbv beta iota in H.
  - crunch H; inversion H; subst; clear H; split; auto.
  - crunch H; inversion H; subst; clear H; cbn [db_session] in *.
    all: try (split; [reflexivity | left; reflexivity]).
    all: match goal with
         | E : create_new_chat_message ?p ?a ?s0 = (?c, ?s) |- _ =>
             let K := fresh "K" in
             destruct (create_staged p a s0 eq_refl) as (K & _);
             cbv zeta in K; rewrite E in K; cbn [fst] in K;
             inversion K; subst
         end.
    all: cbn [commits rollbacks add rollback].
    all: split; [reflexivity |]; try reflexivity.
    + right. split; reflexivity.
    + left. reflexivity.
Qed.

Lemma load_files_counters env new_msg_req ch f r f' :
  load_files env new_msg_req ch f = (r, f') ->
  commits (db_session f') = commits (db_session f)
  /\ rollbacks (db_session f') = rollbacks (db_session f).
Proof.
  intros H. unfold load_files, bind, call, session_call, ret, with_session in H.
  crunch H; inversion H; subst; split; reflexivity.
Qed.

(** The generation phase commits nothing, and rolls back only where the
    chain check of line 227 fails. *)
Lemma generation_counters env new_msg_req user db d m u h r f :
  generation env new_msg_req user d m u h (initial_frame db) = (r, f) ->
  commits (db_session f) = commits db
  /\ match r with
     | Ok _ => rollbacks (db_session f) = rollbacks db
     | Raise e =>
         rollbacks (db_session f) = rollbacks db
         \/ (e = RuntimeError NOT_ON_MAINLINE
             /\ rollbacks (db_session f) = S (rollbacks db))
     end.
Proof.
  intros Hg. unfold generation in Hg. rewrite bind_eq in Hg.
  destruct (setup env new_msg_req user h (initial_frame db))
    as [[su | e] f1] eqn:Hs;
    pose proof (keeps_run _ _ _ _ _ (setup_same_db env new_msg_req user h) Hs) as K1;
    unfold same_on in K1; simpl in K1.
  2: { injection Hg as <- <-. rewrite K1. split; [| left]; reflexivity. }
  unfold after_setup in Hg. rewrite bind_eq in Hg.
  destruct (resolve_chain env new_msg_req u su f1) as [rc f2] eqn:Hc.
  apply resolve_chain_counters in Hc. rewrite K1 in Hc. destruct Hc as (C2 & R2).
  destruct rc as [ch | e].
  2: { injection Hg as <- <-. split; assumption. }
  rewrite bind_eq in Hg.
  destruct (load_files env new_msg_req ch f2) as [rl f3] eqn:Hl.
  apply load_files_counters in Hl. destruct Hl as (C3 & R3).
  destruct rl as [fl | e].
  2: { injection Hg as <- <-. split; [| left]; congruence. }
  pose proof (keeps_run _ _ _ _ _
                (answer_turn_same_db env new_msg_req d m h su ch fl) Hg) as K4.
  unfold same_on in K4. rewrite K4.
  destruct r; split; try left; congruence.
Qed.

(** X18: a turn commits at most once, and only in its persistence
    phase; it rolls back only when its generation phase fails.  A turn
    that completes has committed once and never rolled back.  A turn
    whose persistence phase fails has not rolled back: either it has not
    committed, or it has committed once and nothing is left staged.
    A turn whose generation phase fails has committed nothing and has
    rolled back once, twice when the failure is that of the chain check.
    A turn that lets an exception escape has done neither. *)
Theorem X18_commits_and_rollbacks_of_a_turn env new_msg_req user db d m u h :
  let o := stream_chat_message_objects env new_msg_req user db d m u h in
  let s := session_after o in
  match ending o with
  | Completed =>
      commits s = S (commits db) /\ rollbacks s = rollbacks db
  | PersistenceFailed _ =>
      (commits s = commits db \/ commits s = S (commits db) /\ pending s = [])
      /\ rollbacks s = rollbacks db
  | GenerationFailed e =>
      commits s = commits db
      /\ pending s = []
      /\ (rollbacks s = S (rollbacks db)
          \/ (e = RuntimeError NOT_ON_MAINLINE
              /\ rollbacks s = S (S (rollbacks db))))
  | Escaped _ _ =>
      commits s = commits db /\ rollbacks s = rollbacks db
  end.
Proof.
  intros o s. subst s o. unfold session_after, stream_chat_message_objects.
  destruct (generation env new_msg_req user d m u h (initial_frame db))
    as [[g | e] f1] eqn:Hg;
    destruct (generation_counters _ _ _ _ _ _ _ _ _ _ Hg) as (Hc & Hr).
  - destruct (persistence env new_msg_req g f1) as [[[] | e] f2] eqn:Hp;
      apply persistence_runs in Hp; destruct Hp as (_ & _ & Hp);
      cbn [ending frame yield snd db_session].
    + destruct Hp as (tokens & cits & calls & detail & Hdb & _).
      destruct (create_staged (prompt_of env)
                  (assistant_message_args new_msg_req g tokens cits calls)
                  (db_session f1) eq_refl) as (E & _).
      cbv zeta in E. rewrite E in Hdb. cbn [snd] in Hdb.
      rewrite Hdb. cbn [commit add commits rollbacks]. split; congruence.
    + destruct Hp as (_ & [Hdb | (tokens & cits & calls & Hdb)]).
      * rewrite Hdb. split; [left |]; assumption.
      * cbv zeta in Hdb.
        destruct (create_staged (prompt_of env)
                    (assistant_message_args new_msg_req g tokens cits calls)
                    (db_session f1) eq_refl) as (E & _).
        cbv zeta in E. rewrite E in Hdb. cbn [snd] in Hdb.
        destruct Hdb as [Hdb | Hdb]; rewrite Hdb;
          cbn [commit add commits rollbacks pending].
        -- split; [left |]; assumption.
        -- split; [right; split; [congruence | reflexivity] | assumption].
  - destruct (llm f1) as [l |] eqn:Hl.
    + destruct (on_generation_error_bound e f1 l Hl) as [msg Hmsg].
      rewrite Hmsg. cbn [ending frame db_session rollback commits rollbacks pending].
      split; [exact Hc |]. split; [reflexivity |].
      destruct Hr as [Hr | (He & Hr)]; [left | right; split; [exact He |]];
        congruence.
    + rewrite (on_generation_error_unbound e f1 Hl). cbn [ending frame].
      rewrite (generation_unbound_frame _ _ _ _ _ _ _ _ _ _ Hg Hl).
      split; reflexivity.
Qed.

(** ** The documents of a request that names them *)

Lemma map_calls_result {A B : Type} (g : A -> res B) xs f ys f' :
  map_calls g xs f = (Ok ys, f') -> Forall2 (fun x y => g x = Ok y) xs ys.
Proof.
  revert ys. induction xs as [| x rest IH]; intros ys H; simpl in H.
  - inversion H; subst. constructor.
  - unfold bind, call, ret in H.
    destruct (g x) as [y | e] eqn:Hx; [| discriminate].
    fold (@map_calls A B g rest) in H.
    destruct (map_calls g rest f) as [[ys' | e] f1] eqn:Hrest; [| discriminate].
    inversion H; subst. constructor; [exact Hx |].
    apply IH. reflexivity.
Qed.

Lemma keep_found_length {A : Type} (l : list (option A)) :
  (length (keep_found l) <= length l)%nat.
Proof. induction l as [| [a |] rest IH]; simpl; lia. Qed.

Lemma keep_found_in {A : Type} (l : list (option A)) a :
  In a (keep_found l) <-> In (Some a) l.
Proof.
  induction l as [| [b |] rest IH]; simpl.
  - tauto.
  - rewrite IH. split; intros [H | H]; auto; left; congruence.
  - rewrite IH. split; [auto | intros [H | H]; [discriminate | exact H]].
Qed.

(** X19: a request that names its documents gets the documents that
    still exist: each named id is looked up, in order; an id whose
    document is gone ([get_db_search_doc_by_id] returns [None]) is left
    out without failing the turn, and the selection (possibly empty) holds
    exactly the documents found. *)
Theorem X19_deleted_documents_are_left_out
    env new_msg_req su d m f sel f' ids :
  search_doc_ids new_msg_req = Some ids ->
  ids <> [] ->
  select_documents env new_msg_req su d m f = (Ok sel, f') ->
  exists found,
    Forall2 (fun i o => get_db_search_doc_by_id env i = Ok o) ids found
    /\ selected_db_search_docs sel = Some (keep_found found)
    /\ (length (keep_found found) <= length ids)%nat
    /\ (forall doc, In doc (keep_found found) <-> In (Some doc) found).
Proof.
  intros Hids Hne H. unfold select_documents in H. rewrite Hids in H.
  destruct ids as [| i rest]; [contradiction |].
  unfold bind, call, ret in H.
  destruct (get_doc_query_identifiers_from_model _ _ _ _); [| discriminate].
  destruct (inference_sections_from_ids _ _ _); [| discriminate].
  destruct (map_calls _ (i :: rest) f) as [[found | e] f1] eqn:Hm; [| discriminate].
  inversion H; subst. exists found.
  pose proof (map_calls_result _ _ _ _ _ Hm) as Hall.
  split; [exact Hall |]. split; [reflexivity |].
  split; [| apply keep_found_in].
  rewrite (Forall2_length Hall). apply keep_found_length.
Qed.

Lemma X19_deleted_documents_witness :
  let su := {| su_user_id := None;
               su_chat_session := Scenario.the_session [];
               su_persona := Scenario.the_persona [];
               su_prompt_id := Some 2%Z;
               su_llm := Scenario.openai_llm;
               su_fast_llm := Scenario.openai_llm;
               su_tokenizer := Scenario.tokenizer;
               su_document_index := "index_a";
               su_parent_message := Scenario.root |} in
  let r := select_documents Scenario.standard
             (Scenario.request "hello" (Some [5; 200; 7]%Z) None None) su
             Scenario.default_num_chunks Scenario.max_document_percentage
             (initial_frame Scenario.fresh_store) in
  exists sel, fst r = Ok sel
              /\ selected_db_search_docs sel = Some (Scenario.docs_of [5; 7]%Z).
Proof.
  intros su r.
  destruct r as [[sel | e] f'] eqn:E; [| vm_compute in E; discriminate].
  exists sel. split; [reflexivity |].
  destruct (X19_deleted_documents_are_left_out Scenario.standard
              (Scenario.request "hello" (Some [5; 200; 7]%Z) None None) su
              Scenario.default_num_chunks Scenario.max_document_percentage
              (initial_frame Scenario.fresh_store) sel f' [5; 200; 7]%Z
              eq_refl ltac:(discriminate) E)
    as (found & Hall & Hsel & _).
  rewrite Hsel. f_equal.
  inversion Hall as [| i1 o1 l1 l1' H1 Hall1]; subst.
  inversion Hall1 as [| i2 o2 l2 l2' H2 Hall2]; subst.
  inversion Hall2 as [| i3 o3 l3 l3' H3 Hall3]; subst.
  inversion Hall3; subst.
  simpl in H1, H2, H3.
  injection H1 as <-. injection H2 as <-. injection H3 as <-.
  reflexivity.
Defined.

(** ** The session, the persona and the LLM of a turn *)

Lemma setup_resolved env new_msg_req user h f su f1 :
  setup env new_msg_req user h f = (Ok su, f1) ->
  get_or_create_new_chat_session env (option_map user_ident user) new_msg_req
  = Ok (su_chat_session su)
  /\ resolve_persona env new_msg_req user (su_chat_session su) = Ok (su_persona su)
  /\ get_llms_for_persona env (su_persona su)
       (py_or (llm_override new_msg_req)
              (session_llm_override (su_chat_session su))) h
     = Ok (su_llm su, su_fast_llm su).
Proof.
  intros H. unfold setup, bind, call, ret, raise, assign_llm in H.
  crunch H; inversion H; subst; clear H;
    cbn [su_chat_session su_persona su_llm su_fast_llm];
    repeat split; congruence.
Qed.

(** X20: the session, the persona and the LLM behind an [Answer].  A
    request without a session id gets a session created for its persona
    id, one with a session id the session of that id.  The persona is the
    alternate assistant when the request names one, and the persona of the
    session otherwise.  The LLM of the [Answer] is the one configured for
    that persona, with the LLM override of the request taking precedence
    over that of the session.  A turn that completes stores its answer in
    that session. *)
Theorem X20_session_persona_and_llm_of_a_turn env new_msg_req user db d m u h a :
  let o := stream_chat_message_objects env new_msg_req user db d m u h in
  answer (frame o) = Some a ->
  exists cs p fast,
    match chat_session_id new_msg_req with
    | None => create_chat_session env (option_map user_ident user)
                (req_persona_id new_msg_req) = Ok cs
    | Some sid => get_chat_session_by_id env (option_map user_ident user) sid = Ok cs
    end
    /\ match alternate_assistant_id new_msg_req with
       | Some aid => get_persona_by_id env aid user = Ok p
       | None => p = persona cs
       end
    /\ get_llms_for_persona env p
         (match llm_override new_msg_req with
          | Some over => Some over
          | None => session_llm_override cs
          end) h
       = Ok (answer_llm a, fast)
    /\ (ending o = Completed ->
        exists am,
          last_item (committed (session_after o)) = Some am
          /\ msg_chat_session_id am = session_id cs).
Proof.
  intros o Ha.
  destruct (answer_built _ _ _ _ _ _ _ _ _ Ha)
    as (su & f1 & ch & f2 & fl & f3 & sel & f4 & pc & tv & f5 & f6
        & Hs & Hc & Hl & Hsel & Hpc & Ht & Hb).
  destruct (setup_resolved _ _ _ _ _ _ _ Hs) as (Hcs & Hpersona & Hllms).
  pose proof (build_answer_result _ _ _ _ _ _ _ _ _ _ Hb) as Hres.
  cbv beta iota in Hres. destruct Hres as (_ & _ & _ & _ & Hllm & _).
  exists (su_chat_session su), (su_persona su), (su_fast_llm su).
  split.
  { unfold get_or_create_new_chat_session in Hcs.
    destruct (chat_session_id new_msg_req); exact Hcs. }
  split.
  { unfold resolve_persona in Hpersona.
    destruct (alternate_assistant_id new_msg_req); [exact Hpersona | congruence]. }
  split; [rewrite Hllm; exact Hllms |].
  intros Hend.
  destruct (completed_turn env new_msg_req user db d m u h Hend)
    as (g & g1 & sel' & g6 & Hg & Hp & _).
  fold o in Hp.
  destruct (generation_stages _ _ _ _ _ _ _ _ _ _ Hg)
    as (fa & fb & fc & fl' & Hs' & _).
  rewrite Hs in Hs'. injection Hs' as Hsu _.
  destruct (persistence_ok _ _ _ _ _ Hp)
    as (toks & cits & calls & detail & _ & _ & _ & Hdb & _).
  apply last_committed_row in Hdb. destruct Hdb as (Hlast & _).
  eexists. split; [exact Hlast |].
  cbn [fst create_new_chat_message msg_chat_session_id assistant_message_args
       nm_chat_session_id].
  rewrite <- Hsu. reflexivity.
Qed.

Lemma X20_session_persona_and_llm_witness :
  let o := Scenario.turn Scenario.standard
             (Scenario.request "hello" None Scenario.search_options None)
             Scenario.fresh_store false in
  exists a, answer (frame o) = Some a /\ answer_llm a = Scenario.openai_llm.
Proof.
  intros o.
  destruct (answer (frame o)) as [a |] eqn:E;
    [| vm_compute in E; discriminate].
  exists a. split; [reflexivity |].
  destruct (X20_session_persona_and_llm_of_a_turn Scenario.standard
              (Scenario.request "hello" None Scenario.search_options None)
              None Scenario.fresh_store Scenario.default_num_chunks
              Scenario.max_document_percentage false None a E)
    as (cs & p & fast & _ & _ & Hllms & _).
  simpl in Hllms. injection Hllms as <- _. reflexivity.
Defined.

(** ** The regeneration flow *)

Lemma resolve_chain_existing_leaf env new_msg_req su f ch f' :
  resolve_chain env new_msg_req true su f = (Ok ch, f') ->
  create_chat_chain env (session_id (su_chat_session su)) (visible (db_session f))
  = Ok (final_msg ch, history_msgs ch).
Proof.
  intros H.
  unfold resolve_chain, bind, chat_chain, raise, ret in H.
  change (negb true) with false in H. cbv beta iota in H.
  destruct (create_chat_chain _ _ _) as [[fm hist] | e]; [| discriminate].
  destruct (negb _); [discriminate |].
  inversion H; subst. reflexivity.
Qed.

Lemma build_answer_question env su ch fl sel pc tv f a f' :
  build_answer env su ch fl sel pc tv f = (Ok a, f') ->
  question a = msg_message (final_msg ch).
Proof.
  intros H. unfold build_answer, bind, call, ret, assign_answer in H.
  crunch H; inversion H; reflexivity.
Qed.

(** X21: a completed turn that uses the existing user message answers
    that message and stores the answer under it.  The question of the
    [Answer] is the text of the leaf of the chain as it stood before the
    turn (not the text of the request), that leaf is a [USER] message, and
    the turn commits exactly one row, the [ASSISTANT] row, with the leaf
    as its parent and the next identifier of the session.  The session is
    taken without staged rows. *)
Theorem X21_regeneration_answers_the_existing_user_message
    env new_msg_req user db d m h :
  pending db = [] ->
  let o := stream_chat_message_objects env new_msg_req user db d m true h in
  ending o = Completed ->
  exists a cs leaf history am,
    answer (frame o) = Some a
    /\ get_or_create_new_chat_session env (option_map user_ident user) new_msg_req
       = Ok cs
    /\ create_chat_chain env (session_id cs) (committed db) = Ok (leaf, history)
    /\ msg_message_type leaf = USER
    /\ question a = msg_message leaf
    /\ committed (session_after o) = committed db ++ [am]
    /\ msg_message_type am = ASSISTANT
    /\ msg_parent_message am = Some (msg_id leaf)
    /\ msg_id am = next_id db.
Proof.
  intros Hpending o Hend.
  destruct (completed_turn env new_msg_req user db d m true h Hend)
    as (g & f1 & sel & f6 & Hg & Hp & Ha & _).
  fold o in Hp, Ha.
  destruct (generation_stages _ _ _ _ _ _ _ _ _ _ Hg)
    as (fa & fb & fc & fl & Hs & Hc & Hld & Hat).
  destruct (setup_resolved _ _ _ _ _ _ _ Hs) as (Hcs & _).
  apply setup_binds_llm in Hs. cbn [initial_frame db_session stream answer] in Hs.
  assert (Hdbfa : db_session fa = db) by (subst fa; reflexivity).
  pose proof (resolve_chain_existing_leaf _ _ _ _ _ _ Hc) as Hleaf.
  apply resolve_chain_existing in Hc. destruct Hc as (Hfb & Hum & Htype).
  pose proof (keeps_run _ _ _ _ _
                (load_files_without_user_message env new_msg_req (g_chain g) Hum)
                Hld) as Hfc.
  pose proof (keeps_run _ _ _ _ _
                (answer_turn_same_db env new_msg_req d m h
                   (g_setup g) (g_chain g) fl) Hat) as Hf1.
  unfold same_on in Hfc, Hf1.
  assert (Hdbf1 : db_session f1 = db) by congruence.
  destruct (answer_turn_ok _ _ _ _ _ _ _ _ _ _ _ Hat)
    as (sel' & pc & tv & a & f6' & v & _ & _ & _ & Hb & _ & Eg).
  pose proof (build_answer_question _ _ _ _ _ _ _ _ _ _ Hb) as Hq.
  assert (Hanswer : g_answer g = a) by (rewrite Eg; reflexivity).
  destruct (persistence_ok _ _ _ _ _ Hp)
    as (toks & cits & calls & detail & _ & _ & _ & Hdb & _).
  cbv zeta in Hdb.
  destruct (create_staged (prompt_of env)
              (assistant_message_args new_msg_req g (length toks) cits calls)
              (db_session f1) eq_refl) as (_ & Hid & Htype' & Hparent).
  cbv zeta in Hid, Htype', Hparent.
  rewrite Hdbfa in Hleaf. unfold visible in Hleaf.
  rewrite Hpending, app_nil_r in Hleaf.
  exists (g_answer g), (su_chat_session (g_setup g)), (final_msg (g_chain g)),
         (history_msgs (g_chain g)),
         (fst (create_new_chat_message (prompt_of env)
                 (assistant_message_args new_msg_req g (length toks) cits calls)
                 (db_session f1))).
  split; [exact Ha |]. split; [exact Hcs |]. split; [exact Hleaf |].
  split; [exact Htype |]. split; [rewrite Hanswer; exact Hq |].
  split.
  { unfold session_after. rewrite Hdb. cbn [commit add committed pending].
    rewrite Hdbf1, Hpending. reflexivity. }
  split; [exact Htype' |]. split; [exact Hparent |].
  rewrite Hid, Hdbf1. reflexivity.
Qed.

Lemma X21_regeneration_witness :
  let o := Scenario.turn Scenario.standard
             (Scenario.request "again" None Scenario.search_options None)
             Scenario.store_ending_in_user true in
  exists a am,
    answer (frame o) = Some a
    /\ question a = "hello"
    /\ committed (session_after o) = committed Scenario.store_ending_in_user ++ [am]
    /\ msg_parent_message am = Some 2%Z.
Proof.
  intros o.
  destruct (X21_regeneration_answers_the_existing_user_message
              Scenario.standard
              (Scenario.request "again" None Scenario.search_options None)
              None Scenario.store_ending_in_user Scenario.default_num_chunks
              Scenario.max_document_percentage None eq_refl eq_refl)
    as (a & cs & leaf & history & am & Ha & Hcs & Hleaf & _ & Hq & Hcommitted
        & _ & Hparent & _).
  exists a, am. split; [exact Ha |].
  simpl in Hcs. injection Hcs as <-.
  vm_compute in Hleaf. injection Hleaf as <- _.
  split; [exact Hq |]. split; [exact Hcommitted | exact Hparent].
Defined.
